(** * eBird notable-sightings scraper: a shallow embedding of [scraper.py]

    The program is a linear pipeline: load a configuration, fetch one JSON
    array per region, reshape each record, dump everything to [data.json]
    and interpolate it into [index.html].  Every value the program touches
    comes out of a JSON parser or out of a literal, so Python values are
    modelled by a JSON-shaped inductive type; exceptions are explicit
    results; console, network and file effects are threaded through a small
    state-and-exception monad. *)

From Stdlib Require Import ZArith NArith List String Ascii Bool Lia Arith.
From Stdlib Require Import Numbers.DecimalString.
From Stdlib Require Numbers.DecimalZ Numbers.DecimalPos.
Import ListNotations.

Local Open Scope list_scope.
Local Open Scope string_scope.

(* ===================================================================== *)
(** ** Text *)
(* ===================================================================== *)

(** A Python string is a sequence of code points; here it is carried by the
    bytes UTF-8 gives them, which is also how the literals of this file are
    stored.  A lone surrogate, which a Python string can hold and
    [json.load] can produce, has the three bytes the same scheme gives it.
    Appending, comparing and testing for emptiness, which is all the program
    does with its strings, agree on the code points and on the bytes.  What
    works code point by code point ([repr], iteration, [json.dump]) goes
    through [decode]. *)
Module Utf8.

Local Open Scope N_scope.

Definition byte (n : N) : ascii := ascii_of_N n.
Definition code (c : ascii) : N := N_of_ascii c.

(** The bytes of a code point. *)
Definition encode (n : N) : string :=
  if n <? 0x80 then String (byte n) ""
  else if n <? 0x800 then
    String (byte (0xC0 + n / 0x40)) (String (byte (0x80 + n mod 0x40)) "")
  else if n <? 0x10000 then
    String (byte (0xE0 + n / 0x1000))
      (String (byte (0x80 + (n / 0x40) mod 0x40)) (String (byte (0x80 + n mod 0x40)) ""))
  else
    String (byte (0xF0 + n / 0x40000))
      (String (byte (0x80 + (n / 0x1000) mod 0x40))
         (String (byte (0x80 + (n / 0x40) mod 0x40))
            (String (byte (0x80 + n mod 0x40)) ""))).

Fixpoint encode_all (l : list N) : string :=
  match l with
  | [] => ""
  | n :: l' => encode n ++ encode_all l'
  end.

(** What stands in for bytes that are no code point. *)
Definition replacement : N := 0xFFFD.

Definition is_cont (c : ascii) : bool := (0x80 <=? code c) && (code c <? 0xC0).

(** A first byte: a code point of its own, or the bits it brings and the
    number of bytes to follow. *)
Definition lead (c : ascii) : (nat * N) + N :=
  let n := code c in
  if n <? 0x80 then inr n
  else if n <? 0xC0 then inr replacement
  else if n <? 0xE0 then inl (1%nat, n - 0xC0)
  else if n <? 0xF0 then inl (2%nat, n - 0xE0)
  else if n <? 0xF8 then inl (3%nat, n - 0xF0)
  else inr replacement.

(** The code points of a text, [need] bytes short of the one that has
    gathered the bits [acc]. *)
Fixpoint scan (need : nat) (acc : N) (s : string) : list N :=
  match s with
  | EmptyString => match need with O => [] | S _ => [replacement] end
  | String c s' =>
      match need with
      | O =>
          match lead c with
          | inr n => n :: scan 0 0 s'
          | inl (k, a) => scan k a s'
          end
      | S k =>
          if is_cont c then
            let a := acc * 0x40 + (code c - 0x80) in
            match k with
            | O => a :: scan 0 0 s'
            | S _ => scan k a s'
            end
          else
            replacement ::
              match lead c with
              | inr n => n :: scan 0 0 s'
              | inl (k', a') => scan k' a' s'
              end
      end
  end.

Definition decode (s : string) : list N := scan 0 0 s.

Definition is_code_point (n : N) : bool := n <? 0x110000.
Definition is_high (n : N) : bool := (0xD800 <=? n) && (n <? 0xDC00).
Definition is_low (n : N) : bool := (0xDC00 <=? n) && (n <? 0xE000).
Definition is_surrogate (n : N) : bool := (0xD800 <=? n) && (n <? 0xE000).

(** No high surrogate stands right before a low one.  A text that comes out
    of a JSON parser has this: the parser joins such a pair into the one
    code point it means. *)
Fixpoint no_pair (l : list N) : bool :=
  match l with
  | a :: ((b :: _) as l') => negb (is_high a && is_low b) && no_pair l'
  | _ => true
  end.

(** The texts that are the bytes of code points, each in its shortest form. *)
Definition valid (s : string) : bool :=
  String.eqb (encode_all (decode s)) s && forallb is_code_point (decode s).

(** The texts of strings a JSON parser can have built. *)
Definition parsed (s : string) : bool := valid s && no_pair (decode s).

(** The texts without a surrogate. *)
Definition clean (s : string) : bool :=
  valid s && forallb (fun n => negb (is_surrogate n)) (decode s).

Definition is_ascii (c : ascii) : bool := code c <? 0x80.

End Utf8.

(* ===================================================================== *)
(** ** Python values *)
(* ===================================================================== *)

Module Py.

(** Values as [json.load] builds them.  A [dict] keeps insertion order, so
    it is an association list; [get] and subscripting read the first binding
    of a key.  A [float] is carried by the text [repr] prints for it
    ([40.7128], [1e+16], [nan], [inf]), which identifies the float and is
    all the program ever does with one: it copies, prints and dumps them.
    A string is carried by its UTF-8 bytes, see [Utf8]. *)
#[warnings="-register-all"] Inductive value : Type :=
| PyNone
| PyBool (b : bool)
| PyInt (z : Z)
| PyFloat (repr : string)
| PyStr (s : string)
| PyList (l : list value)
| PyDict (d : list (string * value)).

(** The exceptions the program can meet. *)
Inductive exn : Type :=
| KeyError (key : string)
| TypeError
| AttributeError
| ValueError (msg : string)
| HTTPError (msg : string)
| JSONDecodeError
| ConnectionError
| OSError.

Inductive result (A : Type) : Type :=
| Ok (a : A)
| Raise (e : exn).
Arguments Ok {A} a.
Arguments Raise {A} e.

Definition rbind {A B} (r : result A) (k : A -> result B) : result B :=
  match r with
  | Ok a => k a
  | Raise e => Raise e
  end.

(** [d.get(k)] on the association list: the first binding of [k]. *)
Fixpoint dict_get (d : list (string * value)) (k : string) : option value :=
  match d with
  | [] => None
  | (k', v) :: d' => if String.eqb k k' then Some v else dict_get d' k
  end.

Definition keys (d : list (string * value)) : list string := map fst d.

(** [obj.get(k, default)]: only a dict has the method. *)
Definition get (obj : value) (k : string) (default : value) : result value :=
  match obj with
  | PyDict d => Ok (match dict_get d k with Some v => v | None => default end)
  | _ => Raise AttributeError
  end.

(** [obj[k]] with a string key: [KeyError] on a dict without the key,
    [TypeError] on every other value (lists and strings want integer
    indices, the rest is not subscriptable). *)
Definition subscript (obj : value) (k : string) : result value :=
  match obj with
  | PyDict d => match dict_get d k with Some v => Ok v | None => Raise (KeyError k) end
  | _ => Raise TypeError
  end.

(** Truth value testing: [None], [False], zero and empty containers are
    false, everything else (a NaN included) is true. *)
Definition truthy (v : value) : bool :=
  match v with
  | PyNone => false
  | PyBool b => b
  | PyInt z => negb (Z.eqb z 0)
  | PyFloat r => negb (String.eqb r "0.0" || String.eqb r "-0.0")
  | PyStr s => negb (String.eqb s "")
  | PyList l => match l with [] => false | _ => true end
  | PyDict d => match d with [] => false | _ => true end
  end.

(** [for x in obj]: a list yields its elements, a dict its keys, a string
    its code points; the other values are not iterable. *)
Definition iter (obj : value) : result (list value) :=
  match obj with
  | PyList l => Ok l
  | PyDict d => Ok (map (fun kv => PyStr (fst kv)) d)
  | PyStr s => Ok (map (fun n => PyStr (Utf8.encode n)) (Utf8.decode s))
  | _ => Raise TypeError
  end.

(** *** Text of a value: [str] and [repr] *)

Definition str_of_Z (z : Z) : string := NilEmpty.string_of_int (Z.to_int z).
Definition str_of_nat (n : nat) : string := str_of_Z (Z.of_nat n).

Fixpoint join (sep : string) (l : list string) : string :=
  match l with
  | [] => ""
  | [x] => x
  | x :: l' => x ++ sep ++ join sep l'
  end.

Definition hex_digit (n : N) : ascii :=
  match n with
  | 0 => "0" | 1 => "1" | 2 => "2" | 3 => "3" | 4 => "4" | 5 => "5" | 6 => "6"
  | 7 => "7" | 8 => "8" | 9 => "9" | 10 => "a" | 11 => "b" | 12 => "c"
  | 13 => "d" | 14 => "e" | _ => "f"
  end%N%char.

Definition hex2 (n : N) : string :=
  String (hex_digit (n / 16)) (String (hex_digit (n mod 16)) "").

Definition hex4 (n : N) : string := hex2 (n / 256) ++ hex2 (n mod 256).

Definition hex8 (n : N) : string := hex4 (n / 65536) ++ hex4 (n mod 65536).

Definition dquote : ascii := ascii_of_nat 34.
Definition squote : ascii := ascii_of_nat 39.
Definition backslash : ascii := ascii_of_nat 92.

Fixpoint has_char (c : ascii) (s : string) : bool :=
  match s with
  | EmptyString => false
  | String c' s' => Ascii.eqb c c' || has_char c s'
  end.

(** The code points [str.isprintable] accepts, as ranges: the letters,
    marks, numbers, punctuation and symbols of Unicode 14.0 (CPython 3.11)
    and the ASCII space. *)
Definition printable_ranges : list (N * N) :=
  [(32, 126); (161, 172); (174, 887); (890, 895); (900, 906); (908, 908);
   (910, 929); (931, 1327); (1329, 1366); (1369, 1418); (1421, 1423); (1425, 1479);
   (1488, 1514); (1519, 1524); (1542, 1563); (1565, 1756); (1758, 1805);
   (1808, 1866); (1869, 1969); (1984, 2042); (2045, 2093); (2096, 2110);
   (2112, 2139); (2142, 2142); (2144, 2154); (2160, 2190); (2200, 2273);
   (2275, 2435); (2437, 2444); (2447, 2448); (2451, 2472); (2474, 2480);
   (2482, 2482); (2486, 2489); (2492, 2500); (2503, 2504); (2507, 2510);
   (2519, 2519); (2524, 2525); (2527, 2531); (2534, 2558); (2561, 2563);
   (2565, 2570); (2575, 2576); (2579, 2600); (2602, 2608); (2610, 2611);
   (2613, 2614); (2616, 2617); (2620, 2620); (2622, 2626); (2631, 2632);
   (2635, 2637); (2641, 2641); (2649, 2652); (2654, 2654); (2662, 2678);
   (2689, 2691); (2693, 2701); (2703, 2705); (2707, 2728); (2730, 2736);
   (2738, 2739); (2741, 2745); (2748, 2757); (2759, 2761); (2763, 2765);
   (2768, 2768); (2784, 2787); (2790, 2801); (2809, 2815); (2817, 2819);
   (2821, 2828); (2831, 2832); (2835, 2856); (2858, 2864); (2866, 2867);
   (2869, 2873); (2876, 2884); (2887, 2888); (2891, 2893); (2901, 2903);
   (2908, 2909); (2911, 2915); (2918, 2935); (2946, 2947); (2949, 2954);
   (2958, 2960); (2962, 2965); (2969, 2970); (2972, 2972); (2974, 2975);
   (2979, 2980); (2984, 2986); (2990, 3001); (3006, 3010); (3014, 3016);
   (3018, 3021); (3024, 3024); (3031, 3031); (3046, 3066); (3072, 3084);
   (3086, 3088); (3090, 3112); (3114, 3129); (3132, 3140); (3142, 3144);
   (3146, 3149); (3157, 3158); (3160, 3162); (3165, 3165); (3168, 3171);
   (3174, 3183); (3191, 3212); (3214, 3216); (3218, 3240); (3242, 3251);
   (3253, 3257); (3260, 3268); (3270, 3272); (3274, 3277); (3285, 3286);
   (3293, 3294); (3296, 3299); (3302, 3311); (3313, 3314); (3328, 3340);
   (3342, 3344); (3346, 3396); (3398, 3400); (3402, 3407); (3412, 3427);
   (3430, 3455); (3457, 3459); (3461, 3478); (3482, 3505); (3507, 3515);
   (3517, 3517); (3520, 3526); (3530, 3530); (3535, 3540); (3542, 3542);
   (3544, 3551); (3558, 3567); (3570, 3572); (3585, 3642); (3647, 3675);
   (3713, 3714); (3716, 3716); (3718, 3722); (3724, 3747); (3749, 3749);
   (3751, 3773); (3776, 3780); (3782, 3782); (3784, 3789); (3792, 3801);
   (3804, 3807); (3840, 3911); (3913, 3948); (3953, 3991); (3993, 4028);
   (4030, 4044); (4046, 4058); (4096, 4293); (4295, 4295); (4301, 4301);
   (4304, 4680); (4682, 4685); (4688, 4694); (4696, 4696); (4698, 4701);
   (4704, 4744); (4746, 4749); (4752, 4784); (4786, 4789); (4792, 4798);
   (4800, 4800); (4802, 4805); (4808, 4822); (4824, 4880); (4882, 4885);
   (4888, 4954); (4957, 4988); (4992, 5017); (5024, 5109); (5112, 5117);
   (5120, 5759); (5761, 5788); (5792, 5880); (5888, 5909); (5919, 5942);
   (5952, 5971); (5984, 5996); (5998, 6000); (6002, 6003); (6016, 6109);
   (6112, 6121); (6128, 6137); (6144, 6157); (6159, 6169); (6176, 6264);
   (6272, 6314); (6320, 6389); (6400, 6430); (6432, 6443); (6448, 6459);
   (6464, 6464); (6468, 6509); (6512, 6516); (6528, 6571); (6576, 6601);
   (6608, 6618); (6622, 6683); (6686, 6750); (6752, 6780); (6783, 6793);
   (6800, 6809); (6816, 6829); (6832, 6862); (6912, 6988); (6992, 7038);
   (7040, 7155); (7164, 7223); (7227, 7241); (7245, 7304); (7312, 7354);
   (7357, 7367); (7376, 7418); (7424, 7957); (7960, 7965); (7968, 8005);
   (8008, 8013); (8016, 8023); (8025, 8025); (8027, 8027); (8029, 8029);
   (8031, 8061); (8064, 8116); (8118, 8132); (8134, 8147); (8150, 8155);
   (8157, 8175); (8178, 8180); (8182, 8190); (8208, 8231); (8240, 8286);
   (8304, 8305); (8308, 8334); (8336, 8348); (8352, 8384); (8400, 8432);
   (8448, 8587); (8592, 9254); (9280, 9290); (9312, 11123); (11126, 11157);
   (11159, 11507); (11513, 11557); (11559, 11559); (11565, 11565); (11568, 11623);
   (11631, 11632); (11647, 11670); (11680, 11686); (11688, 11694); (11696, 11702);
   (11704, 11710); (11712, 11718); (11720, 11726); (11728, 11734); (11736, 11742);
   (11744, 11869); (11904, 11929); (11931, 12019); (12032, 12245); (12272, 12283);
   (12289, 12351); (12353, 12438); (12441, 12543); (12549, 12591); (12593, 12686);
   (12688, 12771); (12784, 12830); (12832, 42124); (42128, 42182); (42192, 42539);
   (42560, 42743); (42752, 42954); (42960, 42961); (42963, 42963); (42965, 42969);
   (42994, 43052); (43056, 43065); (43072, 43127); (43136, 43205); (43214, 43225);
   (43232, 43347); (43359, 43388); (43392, 43469); (43471, 43481); (43486, 43518);
   (43520, 43574); (43584, 43597); (43600, 43609); (43612, 43714); (43739, 43766);
   (43777, 43782); (43785, 43790); (43793, 43798); (43808, 43814); (43816, 43822);
   (43824, 43883); (43888, 44013); (44016, 44025); (44032, 55203); (55216, 55238);
   (55243, 55291); (63744, 64109); (64112, 64217); (64256, 64262); (64275, 64279);
   (64285, 64310); (64312, 64316); (64318, 64318); (64320, 64321); (64323, 64324);
   (64326, 64450); (64467, 64911); (64914, 64967); (64975, 64975); (65008, 65049);
   (65056, 65106); (65108, 65126); (65128, 65131); (65136, 65140); (65142, 65276);
   (65281, 65470); (65474, 65479); (65482, 65487); (65490, 65495); (65498, 65500);
   (65504, 65510); (65512, 65518); (65532, 65533); (65536, 65547); (65549, 65574);
   (65576, 65594); (65596, 65597); (65599, 65613); (65616, 65629); (65664, 65786);
   (65792, 65794); (65799, 65843); (65847, 65934); (65936, 65948); (65952, 65952);
   (66000, 66045); (66176, 66204); (66208, 66256); (66272, 66299); (66304, 66339);
   (66349, 66378); (66384, 66426); (66432, 66461); (66463, 66499); (66504, 66517);
   (66560, 66717); (66720, 66729); (66736, 66771); (66776, 66811); (66816, 66855);
   (66864, 66915); (66927, 66938); (66940, 66954); (66956, 66962); (66964, 66965);
   (66967, 66977); (66979, 66993); (66995, 67001); (67003, 67004); (67072, 67382);
   (67392, 67413); (67424, 67431); (67456, 67461); (67463, 67504); (67506, 67514);
   (67584, 67589); (67592, 67592); (67594, 67637); (67639, 67640); (67644, 67644);
   (67647, 67669); (67671, 67742); (67751, 67759); (67808, 67826); (67828, 67829);
   (67835, 67867); (67871, 67897); (67903, 67903); (67968, 68023); (68028, 68047);
   (68050, 68099); (68101, 68102); (68108, 68115); (68117, 68119); (68121, 68149);
   (68152, 68154); (68159, 68168); (68176, 68184); (68192, 68255); (68288, 68326);
   (68331, 68342); (68352, 68405); (68409, 68437); (68440, 68466); (68472, 68497);
   (68505, 68508); (68521, 68527); (68608, 68680); (68736, 68786); (68800, 68850);
   (68858, 68903); (68912, 68921); (69216, 69246); (69248, 69289); (69291, 69293);
   (69296, 69297); (69376, 69415); (69424, 69465); (69488, 69513); (69552, 69579);
   (69600, 69622); (69632, 69709); (69714, 69749); (69759, 69820); (69822, 69826);
   (69840, 69864); (69872, 69881); (69888, 69940); (69942, 69959); (69968, 70006);
   (70016, 70111); (70113, 70132); (70144, 70161); (70163, 70206); (70272, 70278);
   (70280, 70280); (70282, 70285); (70287, 70301); (70303, 70313); (70320, 70378);
   (70384, 70393); (70400, 70403); (70405, 70412); (70415, 70416); (70419, 70440);
   (70442, 70448); (70450, 70451); (70453, 70457); (70459, 70468); (70471, 70472);
   (70475, 70477); (70480, 70480); (70487, 70487); (70493, 70499); (70502, 70508);
   (70512, 70516); (70656, 70747); (70749, 70753); (70784, 70855); (70864, 70873);
   (71040, 71093); (71096, 71133); (71168, 71236); (71248, 71257); (71264, 71276);
   (71296, 71353); (71360, 71369); (71424, 71450); (71453, 71467); (71472, 71494);
   (71680, 71739); (71840, 71922); (71935, 71942); (71945, 71945); (71948, 71955);
   (71957, 71958); (71960, 71989); (71991, 71992); (71995, 72006); (72016, 72025);
   (72096, 72103); (72106, 72151); (72154, 72164); (72192, 72263); (72272, 72354);
   (72368, 72440); (72704, 72712); (72714, 72758); (72760, 72773); (72784, 72812);
   (72816, 72847); (72850, 72871); (72873, 72886); (72960, 72966); (72968, 72969);
   (72971, 73014); (73018, 73018); (73020, 73021); (73023, 73031); (73040, 73049);
   (73056, 73061); (73063, 73064); (73066, 73102); (73104, 73105); (73107, 73112);
   (73120, 73129); (73440, 73464); (73648, 73648); (73664, 73713); (73727, 74649);
   (74752, 74862); (74864, 74868); (74880, 75075); (77712, 77810); (77824, 78894);
   (82944, 83526); (92160, 92728); (92736, 92766); (92768, 92777); (92782, 92862);
   (92864, 92873); (92880, 92909); (92912, 92917); (92928, 92997); (93008, 93017);
   (93019, 93025); (93027, 93047); (93053, 93071); (93760, 93850); (93952, 94026);
   (94031, 94087); (94095, 94111); (94176, 94180); (94192, 94193); (94208, 100343);
   (100352, 101589); (101632, 101640); (110576, 110579); (110581, 110587);
   (110589, 110590); (110592, 110882); (110928, 110930); (110948, 110951);
   (110960, 111355); (113664, 113770); (113776, 113788); (113792, 113800);
   (113808, 113817); (113820, 113823); (118528, 118573); (118576, 118598);
   (118608, 118723); (118784, 119029); (119040, 119078); (119081, 119154);
   (119163, 119274); (119296, 119365); (119520, 119539); (119552, 119638);
   (119648, 119672); (119808, 119892); (119894, 119964); (119966, 119967);
   (119970, 119970); (119973, 119974); (119977, 119980); (119982, 119993);
   (119995, 119995); (119997, 120003); (120005, 120069); (120071, 120074);
   (120077, 120084); (120086, 120092); (120094, 120121); (120123, 120126);
   (120128, 120132); (120134, 120134); (120138, 120144); (120146, 120485);
   (120488, 120779); (120782, 121483); (121499, 121503); (121505, 121519);
   (122624, 122654); (122880, 122886); (122888, 122904); (122907, 122913);
   (122915, 122916); (122918, 122922); (123136, 123180); (123184, 123197);
   (123200, 123209); (123214, 123215); (123536, 123566); (123584, 123641);
   (123647, 123647); (124896, 124902); (124904, 124907); (124909, 124910);
   (124912, 124926); (124928, 125124); (125127, 125142); (125184, 125259);
   (125264, 125273); (125278, 125279); (126065, 126132); (126209, 126269);
   (126464, 126467); (126469, 126495); (126497, 126498); (126500, 126500);
   (126503, 126503); (126505, 126514); (126516, 126519); (126521, 126521);
   (126523, 126523); (126530, 126530); (126535, 126535); (126537, 126537);
   (126539, 126539); (126541, 126543); (126545, 126546); (126548, 126548);
   (126551, 126551); (126553, 126553); (126555, 126555); (126557, 126557);
   (126559, 126559); (126561, 126562); (126564, 126564); (126567, 126570);
   (126572, 126578); (126580, 126583); (126585, 126588); (126590, 126590);
   (126592, 126601); (126603, 126619); (126625, 126627); (126629, 126633);
   (126635, 126651); (126704, 126705); (126976, 127019); (127024, 127123);
   (127136, 127150); (127153, 127167); (127169, 127183); (127185, 127221);
   (127232, 127405); (127462, 127490); (127504, 127547); (127552, 127560);
   (127568, 127569); (127584, 127589); (127744, 128727); (128733, 128748);
   (128752, 128764); (128768, 128883); (128896, 128984); (128992, 129003);
   (129008, 129008); (129024, 129035); (129040, 129095); (129104, 129113);
   (129120, 129159); (129168, 129197); (129200, 129201); (129280, 129619);
   (129632, 129645); (129648, 129652); (129656, 129660); (129664, 129670);
   (129680, 129708); (129712, 129722); (129728, 129733); (129744, 129753);
   (129760, 129767); (129776, 129782); (129792, 129938); (129940, 129994);
   (130032, 130041); (131072, 173791); (173824, 177976); (177984, 178205);
   (178208, 183969); (183984, 191456); (194560, 195101); (196608, 201546);
   (917760, 917999)]%N.

Definition printable (n : N) : bool :=
  existsb (fun r => N.leb (fst r) n && N.leb n (snd r)) printable_ranges.

(** One code point in [repr]: the quote and the backslash behind a backslash,
    the short escapes, a printable code point as it is, [\xhh], [\uhhhh] or
    [\Uhhhhhhhh] for the rest. *)
Definition repr_code (quote : ascii) (n : N) : string :=
  if N.eqb n (Utf8.code quote) || N.eqb n 92 then String backslash (Utf8.encode n)
  else if N.eqb n 9 then String backslash "t"
  else if N.eqb n 10 then String backslash "n"
  else if N.eqb n 13 then String backslash "r"
  else if N.ltb n 32 || N.eqb n 127 then String backslash (String "x" (hex2 n))
  else if N.ltb n 127 then Utf8.encode n
  else if printable n then Utf8.encode n
  else if N.ltb n 256 then String backslash (String "x" (hex2 n))
  else if N.ltb n 65536 then String backslash (String "u" (hex4 n))
  else String backslash (String "U" (hex8 n)).

Fixpoint repr_codes (quote : ascii) (l : list N) : string :=
  match l with
  | [] => ""
  | n :: l' => repr_code quote n ++ repr_codes quote l'
  end.

Definition repr_chars (quote : ascii) (s : string) : string :=
  repr_codes quote (Utf8.decode s).

(** [repr] of a string: single quotes, unless the text has a single quote and
    no double quote. *)
Definition repr_str (s : string) : string :=
  let quote := if has_char squote s && negb (has_char dquote s) then dquote else squote in
  String quote (repr_chars quote s ++ String quote "").

Fixpoint repr (v : value) : string :=
  match v with
  | PyNone => "None"
  | PyBool true => "True"
  | PyBool false => "False"
  | PyInt z => str_of_Z z
  | PyFloat r => r
  | PyStr s => repr_str s
  | PyList l => "[" ++ join ", " (map repr l) ++ "]"
  | PyDict d =>
      "{" ++ join ", " (map (fun kv => repr_str (fst kv) ++ ": " ++ repr (snd kv)) d) ++ "}"
  end.

(** [str(v)], which is also what an f-string field [{v}] inserts: the text
    itself for a string, [repr] for the rest. *)
Definition str (v : value) : string :=
  match v with
  | PyStr s => s
  | _ => repr v
  end.

End Py.

Import Py.

Notation "x <- r ;; k" := (rbind r (fun x => k))
  (at level 61, r at next level, right associativity).

(* ===================================================================== *)
(** ** [format_observation] *)
(* ===================================================================== *)

Definition checklist_prefix : string := "https://ebird.org/checklist/".
Definition species_prefix : string := "https://ebird.org/species/".

(** The conditional expression [f"{prefix}{obs.get(k, '')}" if obs.get(k) else None]. *)
Definition derived_url (prefix : string) (obs : value) (k : string) : result value :=
  test <- get obs k PyNone ;;
  if truthy test
  then (v <- get obs k (PyStr "") ;; Ok (PyStr (prefix ++ str v)))
  else Ok PyNone.

Definition format_observation (obs : value) : result value :=
  species <- get obs "comName" (PyStr "Unknown") ;;
  scientific_name <- get obs "sciName" (PyStr "") ;;
  count <- get obs "howMany" (PyStr "X") ;;
  location <- get obs "locName" (PyStr "Unknown location") ;;
  date <- get obs "obsDt" (PyStr "") ;;
  lat <- get obs "lat" PyNone ;;
  lng <- get obs "lng" PyNone ;;
  checklist_url <- derived_url checklist_prefix obs "subId" ;;
  species_url <- derived_url species_prefix obs "speciesCode" ;;
  location_id <- get obs "locId" (PyStr "") ;;
  observer <- get obs "userDisplayName" (PyStr "") ;;
  is_valid <- get obs "obsValid" (PyBool true) ;;
  is_reviewed <- get obs "obsReviewed" (PyBool false) ;;
  Ok (PyDict
        [ ("species", species);
          ("scientific_name", scientific_name);
          ("count", count);
          ("location", location);
          ("date", date);
          ("lat", lat);
          ("lng", lng);
          ("checklist_url", checklist_url);
          ("species_url", species_url);
          ("location_id", location_id);
          ("observer", observer);
          ("is_valid", is_valid);
          ("is_reviewed", is_reviewed) ]).

(** The keys of a formatted observation, in the order of the dict display. *)
Definition output_keys : list string :=
  ["species"; "scientific_name"; "count"; "location"; "date"; "lat"; "lng";
   "checklist_url"; "species_url"; "location_id"; "observer"; "is_valid";
   "is_reviewed"].

Definition or_default (o : option value) (default : value) : value :=
  match o with
  | Some v => v
  | None => default
  end.

(** The value of a derived link, from what [obs.get(k)] finds. *)
Definition url_of (prefix : string) (o : option value) : value :=
  match o with
  | Some v => if truthy v then PyStr (prefix ++ str v) else PyNone
  | None => PyNone
  end.

(* ===================================================================== *)
(** ** [generate_html] *)
(* ===================================================================== *)

(** The templates are copied from the f-strings of the source.  A Rocq
    string literal cannot hold a double quote, so the literals below are
    written with a backquote in its place (the source has none) and [q]
    puts the double quotes back. *)
Definition q_char (c : ascii) : ascii :=
  if Ascii.eqb c "`"%char then dquote else c.

Fixpoint q (s : string) : string :=
  match s with
  | EmptyString => EmptyString
  | String c s' => String (q_char c) (q s')
  end.
Arguments q : simpl never.

(** [v == "..."] against a string literal: only an equal string is equal. *)
Definition eq_str (v : value) (s : string) : bool :=
  match v with
  | PyStr s' => String.eqb s' s
  | _ => false
  end.

Definition checklist_anchor (href : string) : string :=
  q "<a href=`" ++ href ++ q "` target=`_blank`>View checklist</a>".

Definition species_anchor (href species : string) : string :=
  q "<a href=`" ++ href ++ q "` target=`_blank`>" ++ species ++ "</a>".

(** The f-string appended to [obs_items] for one observation. *)
Definition observation_block
  (species_link scientific_name count_str location date checklist_link : string) : string :=
  q "
                <div class=`observation`>
                    <div class=`species-name`>"
  ++ species_link ++
  q "</div>
                    <div class=`species-scientific`>"
  ++ scientific_name ++
  q "</div>
                    <div class=`details`>
                        <span class=`count`>"
  ++ count_str ++
  q "</span> at
                        <span class=`location`>"
  ++ location ++
  q "</span>
                    </div>
                    <div class=`meta`>
                        <span class=`date`>"
  ++ date ++
  "</span>
                        "
  ++ checklist_link ++
  "
                    </div>
                </div>
                ".

Definition placeholder : string := "<p>No notable sightings in the past week.</p>".

(** The f-string appended to [regions_html] for one region. *)
Definition region_section (region_name obs_html : string) : string :=
  q "
        <section class=`region`>
            <h2>"
  ++ region_name ++
  q "</h2>
            <div class=`observations`>
                "
  ++ obs_html ++
  "
            </div>
        </section>
        ".

(** The page around the regions. *)
Definition page (last_updated regions_html : string) : string :=
  q "<!DOCTYPE html>
<html lang=`en`>
<head>
    <meta charset=`UTF-8`>
    <meta name=`viewport` content=`width=device-width, initial-scale=1.0`>
    <title>eBird Notable Sightings</title>
    <style>
        :root {
            --primary: #2e7d32;
            --primary-light: #4caf50;
            --bg: #f5f5f5;
            --card-bg: #ffffff;
            --text: #333333;
            --text-light: #666666;
            --border: #e0e0e0;
        }

        * {
            box-sizing: border-box;
            margin: 0;
            padding: 0;
        }

        body {
            font-family: -apple-system, BlinkMacSystemFont, 'Segoe UI', Roboto, Oxygen, Ubuntu, sans-serif;
            background: var(--bg);
            color: var(--text);
            line-height: 1.6;
            padding: 20px;
        }

        .container {
            max-width: 900px;
            margin: 0 auto;
        }

        header {
            text-align: center;
            padding: 30px 0;
            border-bottom: 2px solid var(--primary);
            margin-bottom: 30px;
        }

        h1 {
            color: var(--primary);
            font-size: 2rem;
            margin-bottom: 10px;
        }

        .last-updated {
            color: var(--text-light);
            font-size: 0.9rem;
        }

        .region {
            margin-bottom: 40px;
        }

        .region h2 {
            color: var(--primary);
            border-bottom: 1px solid var(--border);
            padding-bottom: 10px;
            margin-bottom: 20px;
        }

        .observation {
            background: var(--card-bg);
            border-radius: 8px;
            padding: 15px 20px;
            margin-bottom: 15px;
            box-shadow: 0 2px 4px rgba(0,0,0,0.1);
            border-left: 4px solid var(--primary-light);
        }

        .species-name {
            font-size: 1.2rem;
            font-weight: 600;
            color: var(--primary);
        }

        .species-name a {
            color: inherit;
            text-decoration: none;
        }

        .species-name a:hover {
            text-decoration: underline;
        }

        .species-scientific {
            font-style: italic;
            color: var(--text-light);
            font-size: 0.9rem;
            margin-bottom: 8px;
        }

        .details {
            margin: 8px 0;
        }

        .count {
            font-weight: 600;
            background: var(--primary-light);
            color: white;
            padding: 2px 8px;
            border-radius: 4px;
            font-size: 0.85rem;
        }

        .location {
            color: var(--text);
        }

        .meta {
            display: flex;
            justify-content: space-between;
            align-items: center;
            margin-top: 10px;
            font-size: 0.85rem;
            color: var(--text-light);
        }

        .meta a {
            color: var(--primary);
            text-decoration: none;
        }

        .meta a:hover {
            text-decoration: underline;
        }

        footer {
            text-align: center;
            padding: 30px 0;
            color: var(--text-light);
            font-size: 0.85rem;
            border-top: 1px solid var(--border);
            margin-top: 40px;
        }

        footer a {
            color: var(--primary);
        }

        @media (max-width: 600px) {
            body {
                padding: 10px;
            }

            h1 {
                font-size: 1.5rem;
            }

            .observation {
                padding: 12px 15px;
            }
        }
    </style>
</head>
<body>
    <div class=`container`>
        <header>
            <h1>Notable Bird Sightings</h1>
            <p class=`last-updated`>Last updated: "
  ++ last_updated ++
  "</p>
        </header>

        <main>
            "
  ++ regions_html ++
  q "
        </main>

        <footer>
            <p>Data from <a href=`https://ebird.org` target=`_blank`>eBird</a> |
            Updated automatically via GitHub Actions</p>
        </footer>
    </div>
</body>
</html>
".

(** One pass of the inner loop: the three conditional expressions, then the
    f-string, each subscript in the order Python evaluates it. *)
Definition render_observation (obs : value) : result string :=
  count <- subscript obs "count" ;;
  count_str <- (if negb (eq_str count "X")
                then (c <- subscript obs "count" ;; Ok (str c))
                else Ok "present") ;;
  checklist_url <- subscript obs "checklist_url" ;;
  checklist_link <- (if truthy checklist_url
                     then (u <- subscript obs "checklist_url" ;; Ok (checklist_anchor (str u)))
                     else Ok "") ;;
  species_url <- subscript obs "species_url" ;;
  species_link <- (if truthy species_url
                   then (u <- subscript obs "species_url" ;;
                         s <- subscript obs "species" ;;
                         Ok (species_anchor (str u) (str s)))
                   else (s <- subscript obs "species" ;; Ok (str s))) ;;
  scientific_name <- subscript obs "scientific_name" ;;
  location <- subscript obs "location" ;;
  date <- subscript obs "date" ;;
  Ok (observation_block species_link (str scientific_name) count_str
        (str location) (str date) checklist_link).

(** [for obs in observations: obs_items += ...] *)
Fixpoint render_observations (obs_items : string) (observations : list value)
  : result string :=
  match observations with
  | [] => Ok obs_items
  | obs :: rest =>
      item <- render_observation obs ;;
      render_observations (obs_items ++ item) rest
  end.

(** The body of the outer loop for one entry of [all_observations]. *)
Definition render_region (region_data : value) : result string :=
  region_name <- subscript region_data "name" ;;
  observations <- subscript region_data "observations" ;;
  obs_html <- (if negb (truthy observations)
               then Ok placeholder
               else (l <- iter observations ;; render_observations "" l)) ;;
  Ok (region_section (str region_name) obs_html).

(** [for region_data in all_observations: regions_html += ...] *)
Fixpoint render_regions (regions_html : string) (all_observations : list value)
  : result string :=
  match all_observations with
  | [] => Ok regions_html
  | region_data :: rest =>
      section <- render_region region_data ;;
      render_regions (regions_html ++ section) rest
  end.

Definition generate_html (all_observations : list value) (config : value)
  (last_updated : string) : result string :=
  regions_html <- render_regions "" all_observations ;;
  Ok (page last_updated regions_html).

(* ===================================================================== *)
(** ** Floats *)
(* ===================================================================== *)

(** [float(text)] and [repr(x)] for the 64-bit floats of Python: reading a
    decimal rounds to the nearest double, a tie to the even mantissa, and
    [repr] prints the shortest decimal that reads back as the same double
    (the nearest one to the double, where several are as short). *)
Module Double.

Local Open Scope Z_scope.

Fixpoint span_digits (s : string) : string * string :=
  match s with
  | EmptyString => ("", "")
  | String c s' =>
      if Nat.leb 48 (nat_of_ascii c) && Nat.leb (nat_of_ascii c) 57
      then let (t, r) := span_digits s' in (String c t, r)
      else ("", s)
  end.

(** A double that is no NaN: a finite one is [m * 2^e] with
    [0 <= m < 2^53] and [-1074 <= e <= 971], signed. *)
Inductive double : Type :=
| Finite (neg : bool) (m e : Z)
| Infinite (neg : bool).

(** The quotient of [num] by [den] to the nearest integer, a tie to the even
    one. *)
Definition div_half_even (num den : Z) : Z :=
  let q := num / den in
  let r := num mod den in
  if 2 * r <? den then q
  else if den <? 2 * r then q + 1
  else if Z.even q then q else q + 1.

(** [b ^ p] by squaring. *)
Fixpoint pow_pos (b : Z) (p : positive) : Z :=
  match p with
  | xH => b
  | xO p' => let h := pow_pos b p' in h * h
  | xI p' => let h := pow_pos b p' in b * (h * h)
  end.

Definition pow (b x : Z) : Z :=
  match x with
  | Zpos p => pow_pos b p
  | _ => 1
  end.

(** [num / den >= b ^ x] *)
Definition ge_pow (b num den x : Z) : bool :=
  if 0 <=? x then den * pow b x <=? num else den <=? num * pow b (- x).

(** The double nearest to [num / den], which is positive. *)
Definition of_ratio (neg : bool) (num den : Z) : double :=
  let l0 := Z.log2 num - Z.log2 den in
  let l := if ge_pow 2 num den l0 then l0 else l0 - 1 in
  let e := Z.max (l - 52) (-1074) in
  let m := if 0 <=? e then div_half_even num (Z.shiftl den e)
           else div_half_even (Z.shiftl num (- e)) den in
  let e' := if m =? 9007199254740992 then e + 1 else e in
  let m' := if m =? 9007199254740992 then 4503599627370496 else m in
  if 971 <? e' then Infinite neg else Finite neg m' e'.

(** [d * 10^k] as a double. *)
Definition of_decimal (neg : bool) (d k : Z) : double :=
  if d =? 0 then Finite neg 0 (-1074)
  else if 0 <=? k then of_ratio neg (d * pow 10 k) 1
  else of_ratio neg d (pow 10 (- k)).

Definition eqb (a b : double) : bool :=
  match a, b with
  | Finite s m e, Finite s' m' e' => Bool.eqb s s' && (m =? m') && (e =? e')
  | Infinite s, Infinite s' => Bool.eqb s s'
  | _, _ => false
  end.

Definition digits_value (s : string) : Z :=
  match NilEmpty.uint_of_string s with
  | Some u => Z.of_uint u
  | None => 0
  end.

(** [float(token)] for a token of the JSON grammar: an optional minus, the
    integer digits, an optional fraction, an optional exponent. *)
Definition parse (token : string) : double :=
  let neg := match token with String "-" _ => true | _ => false end in
  let body := match token with String "-" t => t | _ => token end in
  let (int_digits, r) := span_digits body in
  let (frac_digits, r') :=
    match r with
    | String "." r1 => span_digits r1
    | _ => ("", r)
    end in
  let exponent :=
    match r' with
    | String _ (String "-" ds) => - digits_value ds
    | String _ (String "+" ds) => digits_value ds
    | String _ ds => digits_value ds
    | EmptyString => 0
    end in
  of_decimal neg (digits_value (int_digits ++ frac_digits))
    (exponent - Z.of_nat (String.length frac_digits)).

(** The exponent [x] with [10^x <= num / den < 10^(x+1)]: an estimate from
    the binary logarithms, off by two at most, then made exact. *)
Fixpoint step_down (fuel : nat) (num den x : Z) : Z :=
  match fuel with
  | O => x
  | S fuel' => if ge_pow 10 num den x then x else step_down fuel' num den (x - 1)
  end.

Fixpoint step_up (fuel : nat) (num den x : Z) : Z :=
  match fuel with
  | O => x
  | S fuel' => if ge_pow 10 num den (x + 1) then step_up fuel' num den (x + 1) else x
  end.

Definition log10_floor (num den : Z) : Z :=
  let x0 := (Z.log2 num - Z.log2 den) * 1233 / 4096 in
  step_up 4 num den (step_down 4 num den x0).

(** The decimal [k * 10^q] of [p] digits that [repr] would print for
    [m * 2^e], if one of the two decimals of [p] digits around it reads back
    as the same double. *)
Definition shortest_at (m e : Z) (p : Z) : option (Z * Z) :=
  let num := if 0 <=? e then Z.shiftl m e else m in
  let den := if 0 <=? e then 1 else Z.shiftl 1 (- e) in
  let q := log10_floor num den - p + 1 in
  let num' := if 0 <=? q then num else num * pow 10 (- q) in
  let den' := if 0 <=? q then den * pow 10 q else den in
  let lo := num' / den' in
  let hi := lo + 1 in
  let ok k := eqb (of_decimal false k q) (Finite false m e) in
  match ok lo, ok hi with
  | true, true =>
      let twice := 2 * (num' mod den') in
      if twice <? den' then Some (lo, q)
      else if den' <? twice then Some (hi, q)
      else Some (if Z.even lo then lo else hi, q)
  | true, false => Some (lo, q)
  | false, true => Some (hi, q)
  | false, false => None
  end.

Fixpoint shortest (fuel : nat) (m e p : Z) : Z * Z :=
  match fuel with
  | O => (m, 0)
  | S fuel' =>
      match shortest_at m e p with
      | Some kq => kq
      | None => shortest fuel' m e (p + 1)
      end
  end.

Fixpoint strip_zeros (fuel : nat) (k q : Z) : Z * Z :=
  match fuel with
  | O => (k, q)
  | S fuel' => if k mod 10 =? 0 then strip_zeros fuel' (k / 10) (q + 1) else (k, q)
  end.

Fixpoint zeros (n : nat) : string :=
  match n with
  | O => ""
  | S n' => String "0" (zeros n')
  end.

(** The digits [digits] with the decimal point after the first [decpt] of
    them, as [repr] lays them out. *)
Definition layout (digits : string) (decpt : Z) : string :=
  let n := Z.of_nat (String.length digits) in
  if (16 <? decpt) || (decpt <? -3) then
    let x := decpt - 1 in
    substring 0 1 digits
      ++ (if 1 <? n then "." ++ substring 1 (String.length digits - 1) digits else "")
      ++ "e" ++ (if x <? 0 then "-" else "+")
      ++ (if Z.abs x <? 10 then "0" else "") ++ str_of_Z (Z.abs x)
  else if decpt <=? 0 then
    "0." ++ zeros (Z.to_nat (- decpt)) ++ digits
  else if n <=? decpt then
    digits ++ zeros (Z.to_nat (decpt - n)) ++ ".0"
  else
    substring 0 (Z.to_nat decpt) digits ++ "."
      ++ substring (Z.to_nat decpt) (String.length digits - Z.to_nat decpt) digits.

(** [repr] of a double. *)
Definition repr (d : double) : string :=
  match d with
  | Infinite neg => if neg then "-inf" else "inf"
  | Finite neg m e =>
      (if neg then "-" else "") ++
      if m =? 0 then "0.0"
      else
        let (k0, q0) := shortest 17 m e 1 in
        let (k, q) := strip_zeros 20 k0 q0 in
        let digits := str_of_Z k in
        layout digits (Z.of_nat (String.length digits) + q)
  end.

End Double.

(* ===================================================================== *)
(** ** [json.dump(..., indent=2)] *)
(* ===================================================================== *)

Module Json.

(** One code point of a string under [ensure_ascii]: the short escapes, the
    printable ASCII characters as they are, [\uXXXX] for the rest, a code
    point of 65536 or more as the two surrogates of UTF-16. *)
Definition escape_code (n : N) : string :=
  if N.eqb n 34 then String backslash (String dquote "")
  else if N.eqb n 92 then String backslash (String backslash "")
  else if N.eqb n 10 then String backslash "n"
  else if N.eqb n 13 then String backslash "r"
  else if N.eqb n 9 then String backslash "t"
  else if N.eqb n 12 then String backslash "f"
  else if N.eqb n 8 then String backslash "b"
  else if N.leb 32 n && N.leb n 126 then String (Utf8.byte n) ""
  else if N.ltb n 65536 then String backslash (String "u" (hex4 n))
  else
    String backslash (String "u" (hex4 (55296 + (n - 65536) / 1024)))
      ++ String backslash (String "u" (hex4 (56320 + (n - 65536) mod 1024))).

Fixpoint escape_codes (l : list N) : string :=
  match l with
  | [] => ""
  | n :: l' => escape_code n ++ escape_codes l'
  end.

Definition escape (s : string) : string := escape_codes (Utf8.decode s).

Definition encode_str (s : string) : string :=
  String dquote (escape s ++ String dquote "").

(** A float is written as [repr] prints it, the three non-finite ones by
    their JavaScript names. *)
Definition encode_float (r : string) : string :=
  if String.eqb r "nan" then "NaN"
  else if String.eqb r "inf" then "Infinity"
  else if String.eqb r "-inf" then "-Infinity"
  else r.

Fixpoint spaces (n : nat) : string :=
  match n with
  | O => ""
  | S n' => String " " (spaces n')
  end.

Definition newline_indent (level : nat) : string :=
  String (ascii_of_nat 10) (spaces (2 * level)).

(** The encoder at nesting depth [level]: an empty container on one line,
    otherwise one item per line, two spaces deeper, separated by a comma. *)
Fixpoint encode (level : nat) (v : value) : string :=
  match v with
  | PyNone => "null"
  | PyBool true => "true"
  | PyBool false => "false"
  | PyInt z => str_of_Z z
  | PyFloat r => encode_float r
  | PyStr s => encode_str s
  | PyList [] => "[]"
  | PyList l =>
      "[" ++ newline_indent (S level)
          ++ join ("," ++ newline_indent (S level)) (map (encode (S level)) l)
          ++ newline_indent level ++ "]"
  | PyDict [] => "{}"
  | PyDict d =>
      "{" ++ newline_indent (S level)
          ++ join ("," ++ newline_indent (S level))
               (map (fun kv => encode_str (fst kv) ++ ": " ++ encode (S level) (snd kv)) d)
          ++ newline_indent level ++ "}"
  end.

Definition dumps (v : value) : string := encode 0 v.

(** *** Reading a document back

    A reader of JSON text as [json.load] is one: the grammar of RFC 8259
    and the three names [NaN], [Infinity] and [-Infinity]; an object becomes
    a dict, a later member replacing an earlier one of the same key. A
    number with a fraction or an exponent is a float: the double nearest to
    it, carried by its [repr]. *)

Definition is_ws (c : ascii) : bool :=
  let n := nat_of_ascii c in
  Nat.eqb n 32 || Nat.eqb n 10 || Nat.eqb n 13 || Nat.eqb n 9.

Fixpoint skip_ws (s : string) : string :=
  match s with
  | EmptyString => s
  | String c s' => if is_ws c then skip_ws s' else s
  end.

Definition is_digit (c : ascii) : bool :=
  let n := nat_of_ascii c in Nat.leb 48 n && Nat.leb n 57.

Definition unhex (c : ascii) : option N :=
  let n := Utf8.code c in
  if N.leb 48 n && N.leb n 57 then Some (n - 48)%N
  else if N.leb 97 n && N.leb n 102 then Some (n - 87)%N
  else if N.leb 65 n && N.leb n 70 then Some (n - 55)%N
  else None.

Definition unhex4 (a b c d : ascii) : option N :=
  match unhex a, unhex b, unhex c, unhex d with
  | Some x, Some y, Some z, Some t => Some (((x * 16 + y) * 16 + z) * 16 + t)%N
  | _, _, _, _ => None
  end.

(** The character after a backslash, [u] apart. *)
Definition unescape (c : ascii) : option ascii :=
  if Ascii.eqb c dquote then Some dquote
  else if Ascii.eqb c backslash then Some backslash
  else if Ascii.eqb c "/" then Some "/"%char
  else if Ascii.eqb c "b" then Some (ascii_of_nat 8)
  else if Ascii.eqb c "f" then Some (ascii_of_nat 12)
  else if Ascii.eqb c "n" then Some (ascii_of_nat 10)
  else if Ascii.eqb c "r" then Some (ascii_of_nat 13)
  else if Ascii.eqb c "t" then Some (ascii_of_nat 9)
  else None.

Definition consing (c : ascii) (r : option (string * string)) : option (string * string) :=
  match r with
  | Some (t, rest) => Some (String c t, rest)
  | None => None
  end.

Definition prepending (p : string) (r : option (string * string))
  : option (string * string) :=
  match r with
  | Some (t, rest) => Some (p ++ t, rest)
  | None => None
  end.

(** The code point a high and a low surrogate stand for. *)
Definition join_surrogates (high low : N) : N :=
  (65536 + (high - 55296) * 1024 + (low - 56320))%N.

(** What has been read, after a high surrogate that waits for its low one. *)
Definition flushing (pending : option N) (r : option (string * string))
  : option (string * string) :=
  match pending with
  | Some high => prepending (Utf8.encode high) r
  | None => r
  end.

(** The characters of a string up to its closing quote, and what follows
    the quote. A control character must be escaped. [\uXXXX] stands for a
    code point; a high surrogate written so and a low one right behind it
    stand for one code point together, any other surrogate for itself.
    [pending] is the high surrogate just read, if any. *)
Fixpoint decode_chars_from (pending : option N) (s : string)
  : option (string * string) :=
  match s with
  | EmptyString => None
  | String c s' =>
      if Ascii.eqb c dquote then flushing pending (Some ("", s'))
      else if Ascii.eqb c backslash then
        match s' with
        | EmptyString => None
        | String e s'' =>
            if Ascii.eqb e "u" then
              match s'' with
              | String h1 (String h2 (String h3 (String h4 s3))) =>
                  match unhex4 h1 h2 h3 h4 with
                  | Some n =>
                      match pending with
                      | Some high =>
                          if Utf8.is_low n
                          then prepending (Utf8.encode (join_surrogates high n))
                                 (decode_chars_from None s3)
                          else prepending (Utf8.encode high)
                                 (if Utf8.is_high n then decode_chars_from (Some n) s3
                                  else prepending (Utf8.encode n)
                                         (decode_chars_from None s3))
                      | None =>
                          if Utf8.is_high n then decode_chars_from (Some n) s3
                          else prepending (Utf8.encode n) (decode_chars_from None s3)
                      end
                  | None => None
                  end
              | _ => None
              end
            else
              match unescape e with
              | Some c' => flushing pending (consing c' (decode_chars_from None s''))
              | None => None
              end
        end
      else if N.ltb (Utf8.code c) 32 then None
      else flushing pending (consing c (decode_chars_from None s'))
  end.

Definition decode_chars (s : string) : option (string * string) :=
  decode_chars_from None s.

Definition is_number_char (c : ascii) : bool :=
  is_digit c || Ascii.eqb c "-" || Ascii.eqb c "+" || Ascii.eqb c "."
  || Ascii.eqb c "e" || Ascii.eqb c "E".

(** The longest run of characters a number can be made of. *)
Fixpoint span_number (s : string) : string * string :=
  match s with
  | EmptyString => ("", "")
  | String c s' =>
      if is_number_char c
      then let (t, r) := span_number s' in (String c t, r)
      else ("", s)
  end.

Fixpoint take_digits (s : string) : string * string :=
  match s with
  | EmptyString => ("", "")
  | String c s' =>
      if is_digit c
      then let (t, r) := take_digits s' in (String c t, r)
      else ("", s)
  end.

Fixpoint all_digits (s : string) : bool :=
  match s with
  | EmptyString => true
  | String c s' => is_digit c && all_digits s'
  end.

Definition is_digits (s : string) : bool :=
  match s with
  | EmptyString => false
  | _ => all_digits s
  end.

(** [0 | [1-9][0-9]*] *)
Definition is_int_part (s : string) : bool :=
  match s with
  | EmptyString => false
  | String c s' =>
      if Ascii.eqb c "0" then String.eqb s' "" else is_digit c && all_digits s'
  end.

Definition strip_minus (s : string) : string :=
  match s with
  | String c s' => if Ascii.eqb c "-" then s' else s
  | EmptyString => s
  end.

Definition strip_sign (s : string) : string :=
  match s with
  | String c s' => if Ascii.eqb c "-" || Ascii.eqb c "+" then s' else s
  | EmptyString => s
  end.

(** [[eE][-+]?[0-9]+] *)
Definition is_exponent (s : string) : bool :=
  match s with
  | String c s' => (Ascii.eqb c "e" || Ascii.eqb c "E") && is_digits (strip_sign s')
  | EmptyString => false
  end.

Definition is_int_token (s : string) : bool := is_int_part (strip_minus s).

(** An integer part with a fraction, an exponent or both. *)
Definition is_float_token (s : string) : bool :=
  let (i, r) := take_digits (strip_minus s) in
  is_int_part i &&
  match r with
  | String c r1 =>
      if Ascii.eqb c "." then
        let (f, r2) := take_digits r1 in
        is_digits f && (String.eqb r2 "" || is_exponent r2)
      else is_exponent r
  | EmptyString => false
  end.

Definition decode_number (s : string) : option (value * string) :=
  let (token, rest) := span_number s in
  if is_int_token token then
    match NilEmpty.int_of_string token with
    | Some d => Some (PyInt (Z.of_int d), rest)
    | None => None
    end
  else if is_float_token token
       then Some (PyFloat (Double.repr (Double.parse token)), rest)
  else None.

Fixpoint strip_prefix (p s : string) : option string :=
  match p with
  | EmptyString => Some s
  | String c p' =>
      match s with
      | EmptyString => None
      | String c' s' => if Ascii.eqb c c' then strip_prefix p' s' else None
      end
  end.

(** [d[k] = v] *)
Fixpoint dict_set (d : list (string * value)) (k : string) (v : value)
  : list (string * value) :=
  match d with
  | [] => [(k, v)]
  | (k', v') :: d' =>
      if String.eqb k k' then (k', v) :: d' else (k', v') :: dict_set d' k v
  end.

Definition dict_of_pairs (pairs : list (string * value)) : list (string * value) :=
  fold_left (fun d kv => dict_set d (fst kv) (snd kv)) pairs [].

(** The value at the head of [s], which begins with no blank, and the rest
    of [s]. [fuel] bounds the depth of nesting plus the number of items. *)
Fixpoint decode (fuel : nat) (s : string) : option (value * string) :=
  match fuel with
  | O => None
  | S fuel =>
      match s with
      | EmptyString => None
      | String c rest =>
          if Ascii.eqb c dquote then
            match decode_chars rest with
            | Some (t, r) => Some (PyStr t, r)
            | None => None
            end
          else if Ascii.eqb c "[" then
            match skip_ws rest with
            | EmptyString => None
            | String c' r =>
                if Ascii.eqb c' "]" then Some (PyList [], r)
                else match decode_items fuel (String c' r) with
                     | Some (l, r') => Some (PyList l, r')
                     | None => None
                     end
            end
          else if Ascii.eqb c "{" then
            match skip_ws rest with
            | EmptyString => None
            | String c' r =>
                if Ascii.eqb c' "}" then Some (PyDict [], r)
                else match decode_members fuel (String c' r) with
                     | Some (pairs, r') => Some (PyDict (dict_of_pairs pairs), r')
                     | None => None
                     end
            end
          else
            match strip_prefix "null" s with
            | Some r => Some (PyNone, r)
            | None =>
            match strip_prefix "true" s with
            | Some r => Some (PyBool true, r)
            | None =>
            match strip_prefix "false" s with
            | Some r => Some (PyBool false, r)
            | None =>
            match strip_prefix "NaN" s with
            | Some r => Some (PyFloat "nan", r)
            | None =>
            match strip_prefix "Infinity" s with
            | Some r => Some (PyFloat "inf", r)
            | None =>
            match strip_prefix "-Infinity" s with
            | Some r => Some (PyFloat "-inf", r)
            | None => decode_number s
            end end end end end end
      end
  end

with decode_items (fuel : nat) (s : string) : option (list value * string) :=
  match fuel with
  | O => None
  | S fuel =>
      match decode fuel s with
      | Some (v, r) =>
          match skip_ws r with
          | EmptyString => None
          | String c r' =>
              if Ascii.eqb c "," then
                match decode_items fuel (skip_ws r') with
                | Some (l, r'') => Some (v :: l, r'')
                | None => None
                end
              else if Ascii.eqb c "]" then Some ([v], r')
              else None
          end
      | None => None
      end
  end

with decode_members (fuel : nat) (s : string)
  : option (list (string * value) * string) :=
  match fuel with
  | O => None
  | S fuel =>
      match s with
      | EmptyString => None
      | String c rest =>
          if Ascii.eqb c dquote then
            match decode_chars rest with
            | Some (k, r) =>
                match skip_ws r with
                | EmptyString => None
                | String c1 r1 =>
                    if Ascii.eqb c1 ":" then
                      match decode fuel (skip_ws r1) with
                      | Some (v, r2) =>
                          match skip_ws r2 with
                          | EmptyString => None
                          | String c3 r3 =>
                              if Ascii.eqb c3 "," then
                                match decode_members fuel (skip_ws r3) with
                                | Some (pairs, r4) => Some ((k, v) :: pairs, r4)
                                | None => None
                                end
                              else if Ascii.eqb c3 "}" then Some ([(k, v)], r3)
                              else None
                          end
                      | None => None
                      end
                    else None
                end
            | None => None
            end
          else None
      end
  end.

(** [json.loads]: one value, blanks around it, nothing else. *)
Definition loads (s : string) : option value :=
  match decode (S (String.length s)) (skip_ws s) with
  | Some (v, r) => if String.eqb (skip_ws r) "" then Some v else None
  | None => None
  end.

(** The texts [repr] gives a float: the three names, or the decimal of a
    double, which is the text [repr] gives the double that text reads as. *)
Definition is_float_repr (r : string) : bool :=
  String.eqb r "nan" || String.eqb r "inf" || String.eqb r "-inf"
  || (is_float_token r && String.eqb (Double.repr (Double.parse r)) r).

Fixpoint nodup_keys (ks : list string) : bool :=
  match ks with
  | [] => true
  | k :: ks' => negb (existsb (String.eqb k) ks') && nodup_keys ks'
  end.

(** The values a JSON parser can have built: a dict has each key once, a
    float is named by its [repr], a string is the text of code points with
    no surrogate pair left apart. *)
Fixpoint well_formed (v : value) : bool :=
  match v with
  | PyFloat r => is_float_repr r
  | PyStr s => Utf8.parsed s
  | PyList l => forallb well_formed l
  | PyDict d =>
      nodup_keys (map fst d)
      && forallb (fun kv => Utf8.parsed (fst kv) && well_formed (snd kv)) d
  | _ => true
  end.

(** *** What the round trip is stated with *)

Fixpoint all_chars (f : ascii -> bool) (s : string) : bool :=
  match s with
  | EmptyString => true
  | String c s' => f c && all_chars f s'
  end.

(** A text that continues no number. *)
Definition delimited (rest : string) : bool :=
  match rest with
  | EmptyString => true
  | String c _ => negb (is_number_char c)
  end.

(** A text that begins like a number: a digit, or a minus and a digit. *)
Definition number_head (s : string) : bool :=
  match s with
  | String c s' =>
      is_digit c
      || (Ascii.eqb c "-" && match s' with String c' _ => is_digit c' | EmptyString => false end)
  | EmptyString => false
  end.

(** A text that begins like a value: no blank, and not the end of an array. *)
Definition value_head (s : string) : bool :=
  match s with
  | String c _ => negb (is_ws c) && negb (Ascii.eqb c "]")
  | EmptyString => false
  end.

(** The text between two items of a container at depth [lvl]. *)
Definition separator (lvl : nat) : string := "," ++ newline_indent (S lvl).

(** The text of one member of an object at depth [lvl]. *)
Definition member (lvl : nat) (kv : string * value) : string :=
  encode_str (fst kv) ++ ": " ++ encode (S lvl) (snd kv).

(** What the induction proves of a value: its text, at any depth and before
    any text that continues no number, reads back as the value. *)
Definition reads_back (v : value) : Prop :=
  well_formed v = true ->
  forall lvl fuel rest,
    String.length (encode lvl v) < fuel ->
    delimited rest = true ->
    decode fuel (encode lvl v ++ rest) = Some (v, rest).

End Json.

(* ===================================================================== *)
(** ** The world around [main] *)
(* ===================================================================== *)

Record request : Type := {
  req_url : string;
  req_headers : list (string * string);
  req_params : list (string * value)
}.

(** What [requests.get] hands back: the status line, the final URL and what
    [response.json()] makes of the body. *)
Record response : Type := {
  status_code : Z;
  reason : string;
  url : string;
  json_body : result value
}.

Record datetime : Type := {
  year : nat; month : nat; day : nat; hour : nat; minute : nat
}.

(** Everything the run reads from outside. [http_get n r] answers the
    request [r] when it is the [n]-th one of the run. [open_w path] is the
    exception that ends the writing of the file at [path], if one does, and
    [written path] tells how much of the text had reached the file by then:
    that many bytes, or nothing at all, the file not even opened. *)
Record Env : Type := {
  environ : string -> option string;
  script_dir : string;
  config_json : result value;
  http_get : nat -> request -> result response;
  utcnow : datetime;
  mkdir : string -> option exn;
  open_w : string -> option exn;
  written : string -> option nat
}.

(** Everything the run has done so far, each list in the order of time. *)
Record World : Type := {
  stdout : list string;
  sent : list request;
  dirs : list string;
  files : list (string * string)
}.

Definition initial : World :=
  {| stdout := []; sent := []; dirs := []; files := [] |}.

Definition M (A : Type) : Type := World -> World * result A.

Definition mret {A} (a : A) : M A := fun w => (w, Ok a).

Definition mraise {A} (e : exn) : M A := fun w => (w, Raise e).

Definition mbind {A B} (m : M A) (k : A -> M B) : M B :=
  fun w =>
    match m w with
    | (w', Ok a) => k a w'
    | (w', Raise e) => (w', Raise e)
    end.

Definition lift {A} (r : result A) : M A := fun w => (w, r).

Notation "'do' x <- m ;; k" := (mbind m (fun x => k))
  (at level 61, x name, m at next level, right associativity).

(** [print(line)]. Standard output is taken to accept every line. *)
Definition print (line : string) : M unit :=
  fun w => ({| stdout := (stdout w ++ [line])%list; sent := sent w;
               dirs := dirs w; files := files w |}, Ok tt).

Section Run.

Variable env : Env.

Definition requests_get (url : string) (headers : list (string * string))
  (params : list (string * value)) : M response :=
  fun w =>
    let r := {| req_url := url; req_headers := headers; req_params := params |} in
    ({| stdout := stdout w; sent := (sent w ++ [r])%list;
        dirs := dirs w; files := files w |},
     http_get env (List.length (sent w)) r).

Definition mkdir_exist_ok (path : string) : M unit :=
  fun w =>
    match mkdir env path with
    | Some e => (w, Raise e)
    | None => ({| stdout := stdout w; sent := sent w;
                  dirs := (dirs w ++ [path])%list; files := files w |}, Ok tt)
    end.

(** [with open(path, "w") as f: f.write(content)], and the same around
    [json.dump]. The block can fail before the file is opened, which leaves
    no file, or later, which leaves the file with a beginning of the text. *)
Definition write_file (path content : string) : M unit :=
  fun w =>
    match open_w env path with
    | Some e =>
        (match written env path with
         | Some n => {| stdout := stdout w; sent := sent w; dirs := dirs w;
                        files := (files w ++ [(path, substring 0 n content)])%list |}
         | None => w
         end, Raise e)
    | None => ({| stdout := stdout w; sent := sent w; dirs := dirs w;
                  files := (files w ++ [(path, content)])%list |}, Ok tt)
    end.

(** [Response.raise_for_status] of the requests library: a 4xx or 5xx status
    raises [HTTPError] with the message the library builds. *)
Definition raise_for_status (r : response) : result unit :=
  if (400 <=? status_code r)%Z && (status_code r <? 500)%Z then
    Raise (HTTPError (str_of_Z (status_code r) ++ " Client Error: " ++ reason r
                        ++ " for url: " ++ url r))
  else if (500 <=? status_code r)%Z && (status_code r <? 600)%Z then
    Raise (HTTPError (str_of_Z (status_code r) ++ " Server Error: " ++ reason r
                        ++ " for url: " ++ url r))
  else Ok tt.

(** [load_config]: the parsed content of [config.json], or the exception of
    [open] or of [json.load]. *)
Definition load_config : M value := lift (config_json env).

Definition fetch_notable_observations (api_key : string) (region_code : value)
  (days_back max_results : value) : M value :=
  let url := "https://api.ebird.org/v2/data/obs/" ++ str region_code ++ "/recent/notable" in
  let headers := [("X-eBirdApiToken", api_key)] in
  let params := [("back", days_back); ("maxResults", max_results);
                 ("detail", PyStr "full")] in
  do response <- requests_get url headers params ;;
  do _ <- lift (raise_for_status response) ;;
  lift (json_body response).

(** [[format_observation(obs) for obs in raw_obs]] over the items of [raw_obs]. *)
Fixpoint format_all (items : list value) : result (list value) :=
  match items with
  | [] => Ok []
  | obs :: rest =>
      o <- format_observation obs ;;
      os <- format_all rest ;;
      Ok (o :: os)
  end.

(** The [try] block of the loop body. *)
Definition try_region (api_key : string) (config region : value)
  (all_observations : list value) : M (list value) :=
  do code <- lift (subscript region "code") ;;
  do days_back <- lift (get config "days_back" (PyInt 7)) ;;
  do max_results <- lift (get config "max_results" (PyInt 100)) ;;
  do raw_obs <- fetch_notable_observations api_key code days_back max_results ;;
  do items <- lift (iter raw_obs) ;;
  do formatted <- lift (format_all items) ;;
  do code <- lift (subscript region "code") ;;
  do name <- lift (subscript region "name") ;;
  let all_observations :=
    (all_observations ++
       [PyDict [("code", code); ("name", name); ("observations", PyList formatted)]])%list in
  do _ <- print ("  Found " ++ str_of_nat (List.length formatted) ++ " notable sightings") ;;
  mret all_observations.

(** The [except requests.exceptions.HTTPError as e] block. *)
Definition except_http (msg : string) (region : value) (all_observations : list value)
  : M (list value) :=
  do code <- lift (subscript region "code") ;;
  do _ <- print ("  Error fetching " ++ str code ++ ": " ++ msg) ;;
  do code <- lift (subscript region "code") ;;
  do name <- lift (subscript region "name") ;;
  mret (all_observations ++
          [PyDict [("code", code); ("name", name); ("observations", PyList []);
                   ("error", PyStr msg)]])%list.

(** One pass of the loop over the regions. *)
Definition process_region (api_key : string) (config region : value)
  (all_observations : list value) : M (list value) :=
  do name <- lift (subscript region "name") ;;
  do code <- lift (subscript region "code") ;;
  do _ <- print ("Fetching notable observations for " ++ str name ++ " (" ++ str code ++ ")...") ;;
  fun w =>
    match try_region api_key config region all_observations w with
    | (w', Raise (HTTPError msg)) => except_http msg region all_observations w'
    | outcome => outcome
    end.

Fixpoint process_regions (api_key : string) (config : value) (regions : list value)
  (all_observations : list value) : M (list value) :=
  match regions with
  | [] => mret all_observations
  | region :: rest =>
      do all_observations <- process_region api_key config region all_observations ;;
      process_regions api_key config rest all_observations
  end.

Definition pad (width n : nat) : string :=
  let s := str_of_nat n in
  (fix zeros (k : nat) : string :=
     match k with O => s | S k' => String "0" (zeros k') end)
    (width - String.length s).

(** [strftime("%Y-%m-%d %H:%M UTC")] *)
Definition strftime (t : datetime) : string :=
  pad 4 (year t) ++ "-" ++ pad 2 (month t) ++ "-" ++ pad 2 (day t) ++ " "
    ++ pad 2 (hour t) ++ ":" ++ pad 2 (minute t) ++ " UTC".

Fixpoint ends_in_slash (s : string) : bool :=
  match s with
  | EmptyString => false
  | String c EmptyString => Ascii.eqb c "/"
  | String _ s' => ends_in_slash s'
  end.

(** [Path(dir) / name], as the path prints on POSIX. [dir] is the text of a
    path as [str] gives it: [.] for the empty path, and no slash at the end
    unless the path is a root, which takes no second slash. *)
Definition path_join (dir name : string) : string :=
  if String.eqb dir "." || String.eqb dir "" then name
  else if ends_in_slash dir then dir ++ name
  else dir ++ "/" ++ name.

Definition json_output (last_updated : string) (config : value)
  (all_observations : list value) : value :=
  PyDict [("last_updated", PyStr last_updated);
          ("config", config);
          ("regions", PyList all_observations)].

Definition main : M unit :=
  let api_key := environ env "EBIRD_API_KEY" in
  match api_key with
  | None | Some "" => mraise (ValueError "EBIRD_API_KEY environment variable not set")
  | Some api_key =>
      do config <- load_config ;;
      do regions_v <- lift (subscript config "regions") ;;
      do regions <- lift (iter regions_v) ;;
      do all_observations <- process_regions api_key config regions [] ;;
      let last_updated := strftime (utcnow env) in
      let output_dir := path_join (script_dir env) "docs" in
      do _ <- mkdir_exist_ok output_dir ;;
      do _ <- write_file (path_join output_dir "data.json")
           (Json.dumps (json_output last_updated config all_observations)) ;;
      do _ <- print ("Saved data to " ++ path_join output_dir "data.json") ;;
      do html <- lift (generate_html all_observations config last_updated) ;;
      do _ <- write_file (path_join output_dir "index.html") html ;;
      print ("Saved HTML to " ++ path_join output_dir "index.html")
  end.

End Run.

(** The exit status of the interpreter: 0 when [main] returns, 1 when an
    exception leaves it. *)
Definition exit_status (r : result unit) : Z :=
  match r with
  | Ok _ => 0
  | Raise _ => 1
  end.

(* ===================================================================== *)
(** ** What a run leaves behind, region by region *)
(* ===================================================================== *)

(** The world after one more request, and after one more line. *)
Definition sending (r : request) (w : World) : World :=
  {| stdout := stdout w; sent := (sent w ++ [r])%list; dirs := dirs w; files := files w |}.

Definition printing (line : string) (w : World) : World :=
  {| stdout := (stdout w ++ [line])%list; sent := sent w; dirs := dirs w;
     files := files w |}.

(** The request [fetch_notable_observations] sends. *)
Definition notable_request (api_key : string) (region_code days_back max_results : value)
  : request :=
  {| req_url := "https://api.ebird.org/v2/data/obs/" ++ str region_code ++ "/recent/notable";
     req_headers := [("X-eBirdApiToken", api_key)];
     req_params := [("back", days_back); ("maxResults", max_results);
                    ("detail", PyStr "full")] |}.

(** The request for a region under a configuration dict. *)
Definition region_request (api_key : string) (config : list (string * value))
  (region_code : value) : request :=
  notable_request api_key region_code
    (match dict_get config "days_back" with Some v => v | None => PyInt 7 end)
    (match dict_get config "max_results" with Some v => v | None => PyInt 100 end).

(** What the fetch returns or raises when its request is the [n]-th of the run. *)
Definition fetch_result (env : Env) (n : nat) (r : request) : result value :=
  response <- http_get env n r ;;
  _ <- raise_for_status response ;;
  json_body response.

Definition success_entry (code name : value) (formatted : list value) : value :=
  PyDict [("code", code); ("name", name); ("observations", PyList formatted)].

Definition error_entry (code name : value) (msg : string) : value :=
  PyDict [("code", code); ("name", name); ("observations", PyList []);
          ("error", PyStr msg)].

(** The entry of [all_observations] for a region whose request was the
    [n]-th: the formatted answer, or the message of the HTTP error. *)
Definition entry_for (env : Env) (api_key : string) (config : list (string * value))
  (n : nat) (region entry : value) : Prop :=
  exists code name,
    subscript region "code" = Ok code
    /\ subscript region "name" = Ok name
    /\ match fetch_result env n (region_request api_key config code) with
       | Ok raw_obs =>
           exists items formatted,
             iter raw_obs = Ok items
             /\ format_all items = Ok formatted
             /\ entry = success_entry code name formatted
       | Raise (HTTPError msg) => entry = error_entry code name msg
       | Raise _ => False
       end.

Inductive entries_from (env : Env) (api_key : string) (config : list (string * value))
  : nat -> list value -> list value -> Prop :=
| entries_nil n : entries_from env api_key config n [] []
| entries_cons n region entry regions entries :
    entry_for env api_key config n region entry ->
    entries_from env api_key config (S n) regions entries ->
    entries_from env api_key config n (region :: regions) (entry :: entries).

(** [k in entry] *)
Definition has_key (entry : value) (k : string) : bool :=
  match entry with
  | PyDict d => existsb (String.eqb k) (keys d)
  | _ => false
  end.

Definition is_dict (v : value) : Prop := exists d, v = PyDict d.

(** A fetch that succeeds with an array of objects, or fails with an HTTP error. *)
Definition answers_or_http_error (r : result value) : Prop :=
  (exists msg, r = Raise (HTTPError msg))
  \/ (exists items, r = Ok (PyList items) /\ Forall is_dict items).

(** A region of the configuration: an object with a code and a name. *)
Definition is_region (region : value) : Prop :=
  exists code name, subscript region "code" = Ok code /\ subscript region "name" = Ok name.



(** The request parameters carry the configured value, or the default. *)
Definition carries_window (config : list (string * value)) (r : request) : Prop :=
  dict_get (req_params r) "back"
    = Some (match dict_get config "days_back" with Some v => v | None => PyInt 7 end)
  /\ dict_get (req_params r) "maxResults"
    = Some (match dict_get config "max_results" with Some v => v | None => PyInt 100 end).

Definition data_path (env : Env) : string :=
  path_join (path_join (script_dir env) "docs") "data.json".

Definition index_path (env : Env) : string :=
  path_join (path_join (script_dir env) "docs") "index.html".

(** A run to try things on: two regions, the first answered with a 404, the
    second with one sighting; no window in the configuration. *)
Definition two_regions : list value :=
  [PyDict [("code", PyStr "US-NY"); ("name", PyStr "New York")];
   PyDict [("code", PyStr "US-CA"); ("name", PyStr "California")]].

Definition two_regions_config : list (string * value) :=
  [("regions", PyList two_regions)].

Definition two_regions_env : Env :=
  {| environ := fun k => if String.eqb k "EBIRD_API_KEY" then Some "secret" else None;
     script_dir := "/srv/ebird";
     config_json := Ok (PyDict two_regions_config);
     http_get := fun n r =>
       match n with
       | O => Ok {| status_code := 404; reason := "Not Found"; url := req_url r;
                    json_body := Raise JSONDecodeError |}
       | _ => Ok {| status_code := 200; reason := "OK"; url := req_url r;
                    json_body :=
                      Ok (PyList [PyDict [("comName", PyStr "Snowy Owl");
                                          ("howMany", PyInt 2);
                                          ("subId", PyStr "S1234");
                                          ("lat", PyFloat "37.77")]]) |}
       end;
     utcnow := {| year := 2024; month := 3; day := 7; hour := 9; minute := 5 |};
     mkdir := fun _ => None;
     open_w := fun _ => None;
     written := fun _ => None |}.

(** A page to try things on: one region, one sighting, markup in two fields. *)
Definition zed_observations : list value :=
  [PyDict [("code", PyStr "US-NY"); ("name", PyStr "New York");
           ("observations",
             PyList [PyDict [("species", PyStr "Snowy <i>Owl</i>");
                             ("scientific_name", PyStr "Bubo scandiacus");
                             ("count", PyInt 3);
                             ("location", PyStr "Jones Beach");
                             ("date", PyStr "2024-01-15 08:30");
                             ("lat", PyFloat "40.59");
                             ("lng", PyFloat "-73.51");
                             ("checklist_url", PyNone);
                             ("species_url", PyNone);
                             ("location_id", PyStr "L109");
                             ("observer", PyStr "<b>Zed</b>");
                             ("is_valid", PyBool true);
                             ("is_reviewed", PyBool false)]])]].

(* ===================================================================== *)
(** ** Occurrences of a text in a text *)
(* ===================================================================== *)

(** [p] stands in [s], character for character. *)
Definition Occurs (p s : string) : Prop := exists l r, s = l ++ p ++ r.

Fixpoint contains (p s : string) : bool :=
  String.prefix p s ||
  match s with
  | EmptyString => false
  | String _ s' => contains p s'
  end.

Fixpoint ends_with (p s : string) : bool :=
  String.eqb p s ||
  match s with
  | EmptyString => false
  | String _ s' => ends_with p s'
  end.

(** Every way to cut [s] in two. *)
Fixpoint splits (s : string) : list (string * string) :=
  ("", s) ::
  match s with
  | EmptyString => []
  | String c s' => map (fun lr => (String c (fst lr), snd lr)) (splits s')
  end.

Definition nonempty (s : string) : bool := negb (String.eqb s "").

(** [p] cannot begin inside [a] whatever follows [a], and cannot end inside
    [b] whatever stands before [b]. *)
Definition isolated (a p b : string) : bool :=
  negb (contains p a)
  && forallb (fun lr => negb (nonempty (fst lr) && ends_with (fst lr) a)) (splits p)
  && negb (contains p b)
  && forallb (fun lr => negb (nonempty (fst lr) && nonempty (snd lr)
                               && String.prefix (snd lr) b)) (splits p).

(** The opening tag of an observation card. *)
Definition observation_div : string := q "<div class=`observation`>".

(** Two entries of [all_observations] that [generate_html] cannot tell apart. *)
Definition same_name_and_observations (a b : value) : Prop :=
  subscript a "name" = subscript b "name"
  /\ subscript a "observations" = subscript b "observations".


(** A run to try the round trip on: names outside Latin-1 and outside the
    basic plane, two floats, and a region that fails. *)
Definition hawaii_regions : list value :=
  [PyDict [("code", PyStr "US-HI"); ("name", PyStr "Hawaiʻi")];
   PyDict [("code", PyStr "US-AK"); ("name", PyStr "Alaska")]].

Definition hawaii_config : list (string * value) :=
  [("regions", PyList hawaii_regions); ("days_back", PyInt 3)].

Definition hawaii_env : Env :=
  {| environ := fun k => if String.eqb k "EBIRD_API_KEY" then Some "secret" else None;
     script_dir := "/srv/ebird";
     config_json := Ok (PyDict hawaii_config);
     http_get := fun n r =>
       match n with
       | O => Ok {| status_code := 200; reason := "OK"; url := req_url r;
                    json_body :=
                      Ok (PyList [PyDict [("comName", PyStr "ʻIo 🦅");
                                          ("howMany", PyInt 2);
                                          ("locName", PyStr "Hāmākua");
                                          ("lat", PyFloat "19.7");
                                          ("lng", PyFloat "-155.09");
                                          ("subId", PyStr "S1234")]]) |}
       | _ => Ok {| status_code := 503; reason := "Service Unavailable";
                    url := req_url r; json_body := Raise JSONDecodeError |}
       end;
     utcnow := {| year := 2024; month := 3; day := 7; hour := 9; minute := 5 |};
     mkdir := fun _ => None;
     open_w := fun _ => None;
     written := fun _ => None |}.

(* ===================================================================== *)
(** ** What the further properties are stated with *)
(* ===================================================================== *)

(** [400 <= status < 600], as [raise_for_status] tests it. *)
Definition is_error_status (r : response) : bool :=
  ((400 <=? status_code r)%Z && (status_code r <? 500)%Z)
  || ((500 <=? status_code r)%Z && (status_code r <? 600)%Z).

(** The fields [format_observation] copies, source key and output key. *)
Definition copied_fields : list (string * string) :=
  [("comName", "species"); ("sciName", "scientific_name"); ("howMany", "count");
   ("locName", "location"); ("obsDt", "date"); ("lat", "lat"); ("lng", "lng");
   ("locId", "location_id"); ("userDisplayName", "observer");
   ("obsValid", "is_valid"); ("obsReviewed", "is_reviewed")].

(** The keys [format_observation] reads. *)
Definition source_keys : list string :=
  ["comName"; "sciName"; "howMany"; "locName"; "obsDt"; "lat"; "lng"; "subId";
   "speciesCode"; "locId"; "userDisplayName"; "obsValid"; "obsReviewed"].

(** The text of the count span of a raw observation. *)
Definition count_text (d : list (string * value)) : string :=
  match dict_get d "howMany" with
  | Some v => if eq_str v "X" then "present" else str v
  | None => "present"
  end.

(** The species name of a raw observation as the page shows it. *)
Definition species_text (d : list (string * value)) : string :=
  match dict_get d "comName" with
  | Some v => str v
  | None => "Unknown"
  end.

(** The content of the species-name cell of a raw observation. *)
Definition species_cell (d : list (string * value)) : string :=
  match dict_get d "speciesCode" with
  | Some c =>
      if truthy c
      then species_anchor ("https://ebird.org/species/" ++ str c) (species_text d)
      else species_text d
  | None => species_text d
  end.

(** The checklist link of a raw observation, or nothing. *)
Definition checklist_cell (d : list (string * value)) : string :=
  match dict_get d "subId" with
  | Some c =>
      if truthy c
      then checklist_anchor ("https://ebird.org/checklist/" ++ str c)
      else ""
  | None => ""
  end.

(** Texts one after the other. *)
Definition concat_all (l : list string) : string := fold_right String.append "" l.

(** The two lines a region leaves on the console, read off its entry. *)
Definition region_lines (region entry : value) : list string :=
  match subscript region "name", subscript region "code" with
  | Ok name, Ok code =>
      [ "Fetching notable observations for " ++ str name ++ " (" ++ str code ++ ")...";
        match subscript entry "error", subscript entry "observations" with
        | Ok msg, _ => "  Error fetching " ++ str code ++ ": " ++ str msg
        | _, Ok (PyList formatted) =>
            "  Found " ++ str_of_nat (List.length formatted) ++ " notable sightings"
        | _, _ => ""
        end ]
  | _, _ => []
  end.

Fixpoint console_lines (regions entries : list value) : list string :=
  match regions, entries with
  | region :: regions', entry :: entries' =>
      (region_lines region entry ++ console_lines regions' entries')%list
  | _, _ => []
  end.

(** Two environments that differ in the API key at most, and where
    [requests.get] answers a request under the one key as it answers the
    same request under the other: the client takes both keys as a header
    value and the server both as a token. *)
Definition same_but_key (env env' : Env) (api_key api_key' : string) : Prop :=
  script_dir env = script_dir env'
  /\ config_json env = config_json env'
  /\ utcnow env = utcnow env'
  /\ (forall path, mkdir env path = mkdir env' path)
  /\ (forall path, open_w env path = open_w env' path)
  /\ (forall path, written env path = written env' path)
  /\ (forall n url params,
        http_get env n {| req_url := url;
                          req_headers := [("X-eBirdApiToken", api_key)];
                          req_params := params |}
        = http_get env' n {| req_url := url;
                             req_headers := [("X-eBirdApiToken", api_key')];
                             req_params := params |}).

(** Two worlds that show the same to everyone but the network's headers. *)
Definition same_but_headers (w w' : World) : Prop :=
  stdout w = stdout w'
  /\ dirs w = dirs w'
  /\ files w = files w'
  /\ map req_url (sent w) = map req_url (sent w')
  /\ map req_params (sent w) = map req_params (sent w').


(** Two outcomes that end the same way in worlds that show the same. *)
Definition agree {A : Type} (x y : World * result A) : Prop :=
  snd x = snd y /\ same_but_headers (fst x) (fst y).

(** A run whose second region cannot be reached. *)
Definition unreachable_env : Env :=
  {| environ := environ two_regions_env;
     script_dir := script_dir two_regions_env;
     config_json := config_json two_regions_env;
     http_get := fun n r =>
       match n with
       | O => http_get two_regions_env O r
       | _ => Raise ConnectionError
       end;
     utcnow := utcnow two_regions_env;
     mkdir := mkdir two_regions_env;
     open_w := open_w two_regions_env;
     written := written two_regions_env |}.

(** The two-region run under another key. *)
Definition other_key_env : Env :=
  {| environ := fun k => if String.eqb k "EBIRD_API_KEY" then Some "another" else None;
     script_dir := script_dir two_regions_env;
     config_json := config_json two_regions_env;
     http_get := http_get two_regions_env;
     utcnow := utcnow two_regions_env;
     mkdir := mkdir two_regions_env;
     open_w := open_w two_regions_env;
     written := written two_regions_env |}.

(* ===================================================================== *)
(** ** Induction on values *)
(* ===================================================================== *)

(** Induction with the hypotheses for the elements of lists and dicts. *)
Lemma value_ind' (P : value -> Prop)
  (HNone : P PyNone)
  (HBool : forall b, P (PyBool b))
  (HInt : forall z, P (PyInt z))
  (HFloat : forall r, P (PyFloat r))
  (HStr : forall s, P (PyStr s))
  (HList : forall l, Forall P l -> P (PyList l))
  (HDict : forall d, Forall (fun kv => P (snd kv)) d -> P (PyDict d)) :
  forall v, P v.
Proof.
  fix IH 1. intros [ | b | z | r | s | l | d ].
  - exact HNone.
  - apply HBool.
  - apply HInt.
  - apply HFloat.
  - apply HStr.
  - apply HList. induction l as [ | x l IHl ]; constructor; [ apply IH | exact IHl ].
  - apply HDict. induction d as [ | [k x] d IHd ]; constructor; [ apply IH | exact IHd ].
Qed.

(* ===================================================================== *)
(** ** Properties of [format_observation] *)
(* ===================================================================== *)

Lemma derived_url_dict prefix d k :
  derived_url prefix (PyDict d) k = Ok (url_of prefix (dict_get d k)).
Proof.
  unfold derived_url, url_of; simpl.
  destruct (dict_get d k) as [v | ]; simpl; [ | reflexivity ].
  destruct (truthy v); reflexivity.
Qed.

(** On a dict the function is a dict display: thirteen bindings, each read
    from the input with its default. *)
Lemma format_observation_dict d :
  format_observation (PyDict d) =
    Ok (PyDict
          [ ("species", or_default (dict_get d "comName") (PyStr "Unknown"));
            ("scientific_name", or_default (dict_get d "sciName") (PyStr ""));
            ("count", or_default (dict_get d "howMany") (PyStr "X"));
            ("location", or_default (dict_get d "locName") (PyStr "Unknown location"));
            ("date", or_default (dict_get d "obsDt") (PyStr ""));
            ("lat", or_default (dict_get d "lat") PyNone);
            ("lng", or_default (dict_get d "lng") PyNone);
            ("checklist_url", url_of checklist_prefix (dict_get d "subId"));
            ("species_url", url_of species_prefix (dict_get d "speciesCode"));
            ("location_id", or_default (dict_get d "locId") (PyStr ""));
            ("observer", or_default (dict_get d "userDisplayName") (PyStr ""));
            ("is_valid", or_default (dict_get d "obsValid") (PyBool true));
            ("is_reviewed", or_default (dict_get d "obsReviewed") (PyBool false)) ]).
Proof.
  unfold format_observation.
  rewrite !derived_url_dict. reflexivity.
Qed.

(** A value without the [get] method is the one way to fail. *)
Lemma format_observation_not_dict obs :
  (forall d, obs <> PyDict d) -> format_observation obs = Raise AttributeError.
Proof.
  intros H. destruct obs; try reflexivity. now elim (H d).
Qed.

(** C2. [format_observation] is total on mappings: whatever subset of the raw
    fields the input dict holds, it returns a dict with exactly the thirteen
    fixed keys, and a field that is absent from the input shows its documented
    default: species "Unknown", scientific_name "", count "X", location
    "Unknown location", date "", observer "", is_valid true, is_reviewed false. *)
Theorem format_observation_total :
  forall d : list (string * value),
  exists out,
    format_observation (PyDict d) = Ok (PyDict out)
    /\ keys out = output_keys
    /\ List.length (keys out) = 13
    /\ NoDup (keys out)
    /\ (dict_get d "comName" = None -> dict_get out "species" = Some (PyStr "Unknown"))
    /\ (dict_get d "sciName" = None -> dict_get out "scientific_name" = Some (PyStr ""))
    /\ (dict_get d "howMany" = None -> dict_get out "count" = Some (PyStr "X"))
    /\ (dict_get d "locName" = None ->
        dict_get out "location" = Some (PyStr "Unknown location"))
    /\ (dict_get d "obsDt" = None -> dict_get out "date" = Some (PyStr ""))
    /\ (dict_get d "userDisplayName" = None -> dict_get out "observer" = Some (PyStr ""))
    /\ (dict_get d "obsValid" = None -> dict_get out "is_valid" = Some (PyBool true))
    /\ (dict_get d "obsReviewed" = None ->
        dict_get out "is_reviewed" = Some (PyBool false)).
Proof.
  intros d. eexists. split; [ apply format_observation_dict | ].
  split; [ reflexivity | ].
  split; [ reflexivity | ].
  split.
  { unfold keys; simpl.
    repeat (constructor; [ simpl; intuition discriminate | ]). constructor. }
  repeat split; intros ->; reflexivity.
Qed.

(** C3. The two derived links. [checklist_url] is non-null exactly when
    [subId] is present with a non-empty value, where non-empty is Python's
    truth test (for an id string: the string is not [""]), and it is then
    the checklist prefix followed by the text of the id; [species_url] is
    the same over [speciesCode] and the species prefix. For a string id the
    link is the prefix followed by the id itself. *)
Theorem derived_urls :
  forall d : list (string * value),
  exists out,
    format_observation (PyDict d) = Ok (PyDict out)
    /\ (dict_get out "checklist_url" <> Some PyNone <->
        exists v, dict_get d "subId" = Some v /\ truthy v = true)
    /\ (forall v, dict_get d "subId" = Some v -> truthy v = true ->
        dict_get out "checklist_url" = Some (PyStr ("https://ebird.org/checklist/" ++ str v)))
    /\ (forall s, dict_get d "subId" = Some (PyStr s) -> s <> "" ->
        dict_get out "checklist_url" = Some (PyStr ("https://ebird.org/checklist/" ++ s)))
    /\ (dict_get out "species_url" <> Some PyNone <->
        exists v, dict_get d "speciesCode" = Some v /\ truthy v = true)
    /\ (forall v, dict_get d "speciesCode" = Some v -> truthy v = true ->
        dict_get out "species_url" = Some (PyStr ("https://ebird.org/species/" ++ str v)))
    /\ (forall s, dict_get d "speciesCode" = Some (PyStr s) -> s <> "" ->
        dict_get out "species_url" = Some (PyStr ("https://ebird.org/species/" ++ s))).
Proof.
  intros d. eexists. split; [ apply format_observation_dict | ].
  assert (iff_url : forall prefix o,
             Some (url_of prefix o) <> Some PyNone <->
             exists v, o = Some v /\ truthy v = true).
  { intros prefix [v | ]; simpl.
    - destruct (truthy v) eqn:T; split.
      + intros _. now exists v.
      + intros _. discriminate.
      + intros H. now elim H.
      + intros [v' [E T']]. injection E as <-. congruence.
    - split; [ intros H; now elim H | intros [v [E _]]; discriminate ]. }
  assert (str_truthy : forall s, s <> "" -> truthy (PyStr s) = true).
  { intros s Hs. simpl. destruct (String.eqb_spec s ""); [ contradiction | reflexivity ]. }
  repeat split.
  - apply (iff_url checklist_prefix).
  - apply (iff_url checklist_prefix).
  - intros v E T. cbn. rewrite E. simpl. now rewrite T.
  - intros s E Hs. cbn. rewrite E. unfold url_of. now rewrite (str_truthy s Hs).
  - apply (iff_url species_prefix).
  - apply (iff_url species_prefix).
  - intros v E T. cbn. rewrite E. simpl. now rewrite T.
  - intros s E Hs. cbn. rewrite E. unfold url_of. now rewrite (str_truthy s Hs).
Qed.

(* ===================================================================== *)
(** ** Texts *)
(* ===================================================================== *)

Lemma append_nil_r s : s ++ "" = s.
Proof. induction s as [ | c s IH ]; simpl; [ reflexivity | now rewrite IH ]. Qed.

Lemma append_assoc s1 s2 s3 : (s1 ++ s2) ++ s3 = s1 ++ (s2 ++ s3).
Proof. induction s1 as [ | c s1 IH ]; simpl; [ reflexivity | now rewrite IH ]. Qed.

Lemma append_length s1 s2 :
  String.length (s1 ++ s2) = String.length s1 + String.length s2.
Proof. induction s1 as [ | c s1 IH ]; simpl; [ reflexivity | now rewrite IH ]. Qed.

Lemma append_inv_head s s1 s2 : s ++ s1 = s ++ s2 -> s1 = s2.
Proof. induction s as [ | c s IH ]; simpl; intros H; [ exact H | injection H; auto ]. Qed.

(** Two ways to cut one text: one cut is inside the other's first part. *)
Lemma append_eq_append a b c d :
  a ++ b = c ++ d ->
  (exists m, a = c ++ m /\ d = m ++ b) \/ (exists m, c = a ++ m /\ b = m ++ d).
Proof.
  revert c. induction a as [ | x a IH ]; intros c H.
  - right. exists c. split; [ reflexivity | exact H ].
  - destruct c as [ | y c ].
    + left. exists (String x a). split; [ reflexivity | simpl in H; now rewrite <- H ].
    + simpl in H. injection H as -> H. destruct (IH c H) as [[m [-> ->]] | [m [-> ->]]].
      * left. now exists m.
      * right. now exists m.
Qed.

Lemma prefix_append p r : String.prefix p (p ++ r) = true.
Proof.
  induction p as [ | c p IH ]; simpl.
  - now destruct r.
  - destruct (ascii_dec c c); [ exact IH | contradiction ].
Qed.

Lemma prefix_inv p s : String.prefix p s = true -> exists r, s = p ++ r.
Proof.
  revert s. induction p as [ | c p IH ]; intros s H.
  - now exists s.
  - destruct s as [ | c' s ]; simpl in H; [ discriminate | ].
    destruct (ascii_dec c c') as [ <- | ]; [ | discriminate ].
    destruct (IH s H) as [r ->]. now exists r.
Qed.

Lemma contains_spec p s : contains p s = true <-> Occurs p s.
Proof.
  split.
  - induction s as [ | c s IH ]; cbn [contains]; intros H.
    + rewrite orb_false_r in H. destruct (prefix_inv _ _ H) as [r E].
      exists "", r. exact E.
    + apply orb_true_iff in H as [H | H].
      * destruct (prefix_inv _ _ H) as [r E]. exists "", r. exact E.
      * destruct (IH H) as [l [r ->]]. now exists (String c l), r.
  - intros [l [r ->]]. induction l as [ | c l IH ].
    + change ("" ++ p ++ r) with (p ++ r).
      destruct (p ++ r) eqn:E; cbn [contains]; rewrite <- E, prefix_append; reflexivity.
    + change (String c l ++ p ++ r) with (String c (l ++ p ++ r)).
      cbn [contains]. rewrite IH. apply orb_true_r.
Qed.

Lemma not_contains p s : contains p s = false -> ~ Occurs p s.
Proof. intros H O. apply contains_spec in O. congruence. Qed.

Lemma ends_with_append l p : ends_with p (l ++ p) = true.
Proof.
  induction l as [ | c l IH ]; simpl.
  - destruct p; simpl; rewrite ?String.eqb_refl, ?Ascii.eqb_refl; reflexivity.
  - rewrite IH. apply orb_true_r.
Qed.

Lemma splits_complete s1 s2 : In (s1, s2) (splits (s1 ++ s2)).
Proof.
  induction s1 as [ | c s1 IH ]; simpl.
  - destruct s2; left; reflexivity.
  - right. apply in_map_iff. exists (s1, s2). split; [ reflexivity | exact IH ].
Qed.

Lemma nonempty_true s : s <> "" -> nonempty s = true.
Proof. intros H. unfold nonempty. now destruct (String.eqb_spec s ""). Qed.

Lemma occurs_refl p : Occurs p p.
Proof. exists "", "". simpl. now rewrite append_nil_r. Qed.

Lemma occurs_app_l p a b : Occurs p a -> Occurs p (a ++ b).
Proof.
  intros [l [r ->]]. exists l, (r ++ b). now rewrite !append_assoc.
Qed.

Lemma occurs_app_r p a b : Occurs p b -> Occurs p (a ++ b).
Proof.
  intros [l [r ->]]. exists (a ++ l), r. now rewrite !append_assoc.
Qed.

Lemma occurs_trans a b c : Occurs a b -> Occurs b c -> Occurs a c.
Proof.
  intros [l [r ->]] [l' [r' ->]]. exists (l' ++ l), (r ++ r').
  now rewrite !append_assoc.
Qed.

Create HintDb occurs.
#[local] Hint Resolve occurs_refl occurs_app_l occurs_app_r : occurs.

(** A text between two constant texts it is isolated from: an occurrence in
    the whole is an occurrence in the middle. *)
Lemma occurs_between a p b x :
  isolated a p b = true -> Occurs p (a ++ x ++ b) -> Occurs p x.
Proof.
  unfold isolated. intros H.
  apply andb_true_iff in H as [H R2]. apply andb_true_iff in H as [H R1].
  apply andb_true_iff in H as [L1 L2].
  apply negb_true_iff in L1, R1.
  rewrite forallb_forall in L2, R2.
  intros [l [r E]].
  (* the occurrence does not begin inside [a] *)
  assert (exists l', x ++ b = l' ++ p ++ r) as [l' E'].
  { destruct (append_eq_append _ _ _ _ E) as [[m [Ea Ep]] | [m [-> Ey]]].
    - symmetry in Ep. destruct (append_eq_append _ _ _ _ Ep) as [[m' [Em Er]] | [m' [Em Er]]].
      + exfalso. apply (not_contains _ _ L1). exists l, m'.
        now rewrite Ea, Em.
      + destruct (String.eqb_spec m "") as [-> | Hm].
        * exists "". simpl in Ep. now rewrite Ep.
        * exfalso. specialize (L2 (m, m')). rewrite Em in L2.
          specialize (L2 (splits_complete m m')). simpl in L2.
          rewrite (nonempty_true _ Hm), Ea, ends_with_append in L2. discriminate.
    - now exists m. }
  clear E. rename E' into E.
  (* and does not end inside [b] *)
  destruct (append_eq_append _ _ _ _ E) as [[m [Ex Ep]] | [m [-> Eb]]].
  - symmetry in Ep. destruct (append_eq_append _ _ _ _ Ep) as [[m' [Em Er]] | [m' [Em Er]]].
    + exists l', m'. now rewrite Ex, Em.
    + destruct (String.eqb_spec m' "") as [-> | Hm'].
      * exists l', "". rewrite Ex, Em. now rewrite !append_nil_r.
      * destruct (String.eqb_spec m "") as [-> | Hm].
        -- exfalso. apply (not_contains _ _ R1). exists "", r. simpl in *. now rewrite Er, <- Em.
        -- exfalso. specialize (R2 (m, m')). rewrite Em in R2.
           specialize (R2 (splits_complete m m')). simpl in R2.
           rewrite (nonempty_true _ Hm), (nonempty_true _ Hm'), Er, prefix_append in R2.
           discriminate.
  - exfalso. apply (not_contains _ _ R1). exists m, r. exact Eb.
Qed.

(* ===================================================================== *)
(** ** Properties of [generate_html] *)
(* ===================================================================== *)

Ltac step_subscripts H :=
  repeat match type of H with
         | context [subscript ?o ?k] =>
             let E := fresh "E" in
             destruct (subscript o k) eqn:E; simpl in H; try discriminate H
         end.

Lemma render_observations_prefix l :
  forall acc out, render_observations acc l = Ok out -> exists r, out = acc ++ r.
Proof.
  induction l as [ | obs l IH ]; simpl; intros acc out H.
  - injection H as <-. exists "". now rewrite append_nil_r.
  - destruct (render_observation obs) as [item | e]; simpl in H; [ | discriminate ].
    destruct (IH _ _ H) as [r ->]. exists (item ++ r). now rewrite append_assoc.
Qed.

(** Each observation of the list leaves its card in the accumulated text. *)
Lemma render_observations_item l :
  forall acc out obs,
    render_observations acc l = Ok out -> In obs l ->
    exists item, render_observation obs = Ok item /\ Occurs item out.
Proof.
  induction l as [ | o l IH ]; simpl; intros acc out obs H HIn; [ contradiction | ].
  destruct (render_observation o) as [item | e] eqn:E; simpl in H; [ | discriminate ].
  destruct HIn as [-> | HIn].
  - exists item. split; [ exact E | ].
    destruct (render_observations_prefix _ _ _ H) as [r ->].
    apply occurs_app_l, occurs_app_r, occurs_refl.
  - eapply IH; eassumption.
Qed.

Lemma render_regions_prefix l :
  forall acc out, render_regions acc l = Ok out -> exists r, out = acc ++ r.
Proof.
  induction l as [ | x l IH ]; simpl; intros acc out H.
  - injection H as <-. exists "". now rewrite append_nil_r.
  - destruct (render_region x) as [section | e]; simpl in H; [ | discriminate ].
    destruct (IH _ _ H) as [r ->]. exists (section ++ r). now rewrite append_assoc.
Qed.

(** Each entry of [all_observations] leaves its section in [regions_html]. *)
Lemma render_regions_section l :
  forall acc out region,
    render_regions acc l = Ok out -> In region l ->
    exists section, render_region region = Ok section /\ Occurs section out.
Proof.
  induction l as [ | x l IH ]; simpl; intros acc out region H HIn; [ contradiction | ].
  destruct (render_region x) as [section | e] eqn:E; simpl in H; [ | discriminate ].
  destruct HIn as [-> | HIn].
  - exists section. split; [ exact E | ].
    destruct (render_regions_prefix _ _ _ H) as [r ->].
    apply occurs_app_l, occurs_app_r, occurs_refl.
  - eapply IH; eassumption.
Qed.

(** The section of every entry stands in the page. *)
Lemma section_in_page all_observations config last_updated html region :
  generate_html all_observations config last_updated = Ok html ->
  In region all_observations ->
  exists section, render_region region = Ok section /\ Occurs section html.
Proof.
  unfold generate_html. intros H HIn.
  destruct (render_regions "" all_observations) as [regions_html | e] eqn:E;
    simpl in H; [ | discriminate ].
  injection H as <-.
  destruct (render_regions_section _ _ _ _ E HIn) as [section [Hs Ho]].
  exists section. split; [ exact Hs | ].
  unfold page. eauto 10 with occurs.
Qed.

(** The card of an observation shows the text of four of its fields as it is. *)
Lemma render_observation_verbatim obs item field v :
  render_observation obs = Ok item ->
  In field ["species"; "scientific_name"; "location"; "date"] ->
  subscript obs field = Ok v ->
  Occurs (str v) item.
Proof.
  unfold render_observation. intros H HIn Hv.
  step_subscripts H.
  all: repeat match type of H with
         | context [if ?b then _ else _] => destruct b; simpl in H
         end; try discriminate H; injection H as <-.
  all: simpl in HIn; destruct HIn as [<- | [<- | [<- | [<- | []]]]];
    match goal with
    | E : subscript ?o ?f = Ok ?a, Hv : subscript ?o ?f = Ok ?v |- _ =>
        rewrite Hv in E; injection E as ->
    end;
    unfold observation_block, species_anchor; eauto 20 with occurs.
Qed.

(** The card depends on seven keys of the observation and on nothing else:
    [observer], [lat], [lng], [location_id], [is_valid] and [is_reviewed]
    are never read. *)
Lemma render_observation_ext obs obs' :
  (forall k, In k ["count"; "checklist_url"; "species_url"; "species";
                   "scientific_name"; "location"; "date"] ->
             subscript obs k = subscript obs' k) ->
  render_observation obs = render_observation obs'.
Proof.
  intros H. unfold render_observation.
  rewrite !(H "count"), !(H "checklist_url"), !(H "species_url"), !(H "species"),
    !(H "scientific_name"), !(H "location"), !(H "date");
    try reflexivity; simpl; intuition.
Qed.

Lemma render_region_same a b :
  same_name_and_observations a b -> render_region a = render_region b.
Proof. intros [Hn Ho]. unfold render_region. now rewrite Hn, Ho. Qed.

Lemma render_regions_same rs1 rs2 :
  Forall2 same_name_and_observations rs1 rs2 ->
  forall acc, render_regions acc rs1 = render_regions acc rs2.
Proof.
  induction 1 as [ | a b rs1 rs2 Hab _ IH ]; intros acc; simpl; [ reflexivity | ].
  rewrite (render_region_same _ _ Hab).
  destruct (render_region b); simpl; [ apply IH | reflexivity ].
Qed.

(** A region whose fetch failed renders as one that answered with nothing. *)
Lemma failed_region_renders_as_empty code name msg :
  render_region (PyDict [("code", code); ("name", name); ("observations", PyList []);
                         ("error", PyStr msg)])
  = render_region (PyDict [("code", code); ("name", name); ("observations", PyList [])]).
Proof. reflexivity. Qed.

Lemma render_region_empty region name :
  subscript region "name" = Ok name ->
  subscript region "observations" = Ok (PyList []) ->
  render_region region = Ok (region_section (str name) placeholder).
Proof. intros Hn Ho. unfold render_region. now rewrite Hn, Ho. Qed.

Lemma observation_div_isolated :
  isolated (q "
        <section class=`region`>
            <h2>")
    observation_div
    (q "</h2>
            <div class=`observations`>
                "
     ++ placeholder ++
     "
            </div>
        </section>
        ") = true.
Proof. vm_compute. reflexivity. Qed.

(** C6 (as amended). [generate_html] escapes nothing: for every observation
    of every region on the page, the text of its species, scientific_name,
    location and date stands in the document character for character,
    markup included. (The observer is not among them: the page never shows
    it.) *)
Theorem observation_text_is_not_escaped :
  forall all_observations config last_updated html region observations obs field v,
    generate_html all_observations config last_updated = Ok html ->
    In region all_observations ->
    subscript region "observations" = Ok (PyList observations) ->
    In obs observations ->
    In field ["species"; "scientific_name"; "location"; "date"] ->
    subscript obs field = Ok v ->
    Occurs (str v) html.
Proof.
  intros all_observations config last_updated html region observations obs field v
    Hhtml Hregion Hobs HIn Hfield Hv.
  destruct (section_in_page _ _ _ _ _ Hhtml Hregion) as [section [Hs Hpage]].
  apply occurs_trans with (2 := Hpage).
  unfold render_region in Hs. rewrite Hobs in Hs.
  destruct (subscript region "name") as [name | e]; simpl in Hs; [ | discriminate ].
  destruct observations as [ | o l ]; [ contradiction | ].
  simpl in Hs.
  destruct (render_observation o) as [item0 | e] eqn:E0; simpl in Hs; [ | discriminate ].
  destruct (render_observations item0 l) as [obs_html | e] eqn:E; simpl in Hs;
    [ | discriminate ].
  injection Hs as <-.
  assert (Hall : render_observations "" (o :: l) = Ok obs_html)
    by (simpl; rewrite E0; exact E).
  destruct (render_observations_item _ _ _ _ Hall HIn) as [item [Hitem Hocc]].
  apply occurs_trans with item.
  - eapply render_observation_verbatim; eassumption.
  - unfold region_section. eauto 10 with occurs.
Qed.

Lemma observation_text_is_not_escaped_witness :
  exists html,
    generate_html zed_observations PyNone "2024-01-15 09:00 UTC" = Ok html
    /\ Occurs "Snowy <i>Owl</i>" html.
Proof.
  eexists. split; [ vm_compute; reflexivity | ].
  eapply (observation_text_is_not_escaped zed_observations PyNone
            "2024-01-15 09:00 UTC" _ _ _ _ "species" (PyStr "Snowy <i>Owl</i>")).
  - vm_compute; reflexivity.
  - left; reflexivity.
  - reflexivity.
  - left; reflexivity.
  - simpl; tauto.
  - reflexivity.
Defined.

(** C6 as first written fails on the observer: here is a page with an
    observation whose observer is [<b>Zed</b>], and the text is nowhere in
    the document. *)
Lemma observer_is_not_rendered :
  exists html region observations obs,
    generate_html zed_observations PyNone "2024-01-15 09:00 UTC" = Ok html
    /\ In region zed_observations
    /\ subscript region "observations" = Ok (PyList observations)
    /\ In obs observations
    /\ subscript obs "observer" = Ok (PyStr "<b>Zed</b>")
    /\ ~ Occurs (str (PyStr "<b>Zed</b>")) html.
Proof.
  eexists. eexists. eexists. eexists.
  split; [ vm_compute; reflexivity | ].
  split; [ left; reflexivity | ].
  split; [ reflexivity | ].
  split; [ left; reflexivity | ].
  split; [ reflexivity | ].
  apply not_contains. vm_compute. reflexivity.
Qed.

(** C8 (as amended). The section of a region with an empty observations list,
    which stands in the page of every list the region is in, shows the
    placeholder sentence, and the opening tag of an observation card stands
    in it exactly when the region's own name, which is inserted as it is,
    carries that tag: the renderer emits no card. *)
Theorem empty_region_section :
  forall region name,
    subscript region "name" = Ok name ->
    subscript region "observations" = Ok (PyList []) ->
    exists section,
      render_region region = Ok section
      /\ (forall all_observations config last_updated html,
            In region all_observations ->
            generate_html all_observations config last_updated = Ok html ->
            Occurs section html)
      /\ Occurs "No notable sightings in the past week." section
      /\ (Occurs observation_div section <-> Occurs observation_div (str name)).
Proof.
  intros region name Hn Ho.
  exists (region_section (str name) placeholder).
  split; [ now apply render_region_empty | ].
  split.
  { intros all_observations config last_updated html HIn Hhtml.
    destruct (section_in_page _ _ _ _ _ Hhtml HIn) as [section [Hs Hocc]].
    rewrite (render_region_empty _ _ Hn Ho) in Hs. now injection Hs as <-. }
  split.
  - unfold region_section. do 3 apply occurs_app_r. apply occurs_app_l.
    exists "<p>", "</p>". reflexivity.
  - split.
    + unfold region_section. apply occurs_between, observation_div_isolated.
    + intros H. unfold region_section. auto with occurs.
Qed.

Lemma empty_region_section_witness :
  exists section,
    render_region (PyDict [("code", PyStr "US-NY-047"); ("name", PyStr "Kings County");
                           ("observations", PyList [])]) = Ok section
    /\ Occurs "No notable sightings in the past week." section
    /\ (Occurs observation_div section <-> Occurs observation_div "Kings County").
Proof.
  destruct (empty_region_section
              (PyDict [("code", PyStr "US-NY-047"); ("name", PyStr "Kings County");
                       ("observations", PyList [])])
              (PyStr "Kings County") eq_refl eq_refl)
    as [section [Hs [_ [Hp Hd]]]].
  exists section. auto.
Defined.

(** C8 as first written fails when the region's name carries the tag: the
    section of this region, whose observations list is empty, has both the
    placeholder and an observation card's opening tag. *)
Lemma empty_region_with_markup_in_name :
  exists section,
    subscript (PyDict [("code", PyStr "US-NY-047"); ("name", PyStr observation_div);
                       ("observations", PyList [])]) "observations" = Ok (PyList [])
    /\ render_region (PyDict [("code", PyStr "US-NY-047"); ("name", PyStr observation_div);
                              ("observations", PyList [])]) = Ok section
    /\ Occurs "No notable sightings in the past week." section
    /\ Occurs observation_div section.
Proof.
  eexists. split; [ reflexivity | ]. split; [ reflexivity | ].
  split; apply contains_spec; vm_compute; reflexivity.
Qed.

(** C10. The page is a function of the [name] and the [observations] of each
    entry: two lists of entries that agree on these two keys, entry by
    entry, give the same document, whatever their [code] and [error] keys,
    the configuration included. So a failed region renders as one with no
    sightings, and an error message has no way into the page. *)
Theorem page_depends_on_name_and_observations :
  forall rs1 rs2 config1 config2 last_updated,
    Forall2 same_name_and_observations rs1 rs2 ->
    generate_html rs1 config1 last_updated = generate_html rs2 config2 last_updated.
Proof.
  intros rs1 rs2 config1 config2 last_updated H.
  unfold generate_html. now rewrite (render_regions_same _ _ H).
Qed.

Lemma page_depends_on_name_and_observations_witness :
  generate_html
    [PyDict [("code", PyStr "US-NY"); ("name", PyStr "New York");
             ("observations", PyList []);
             ("error", PyStr "404 Client Error: Not Found for url: https://api.ebird.org/")]]
    (PyDict [("regions", PyList [])]) "2024-01-15 09:00 UTC"
  = generate_html
      [PyDict [("code", PyStr "US-CA"); ("name", PyStr "New York");
               ("observations", PyList [])]]
      PyNone "2024-01-15 09:00 UTC".
Proof.
  apply page_depends_on_name_and_observations.
  constructor; [ split; reflexivity | constructor ].
Defined.

(* ===================================================================== *)
(** ** Reading back what [json.dump] wrote *)
(* ===================================================================== *)

Import Json.

Lemma skip_ws_spaces n t : skip_ws (spaces n ++ t) = skip_ws t.
Proof. induction n as [ | n IH ]; simpl; [ reflexivity | exact IH ]. Qed.

Lemma skip_ws_newline_indent n t : skip_ws (newline_indent n ++ t) = skip_ws t.
Proof. unfold newline_indent. simpl. apply skip_ws_spaces. Qed.

Lemma skip_ws_head c t : is_ws c = false -> skip_ws (String c t) = String c t.
Proof. intros H. simpl. now rewrite H. Qed.

Lemma all_chars_append f a b : all_chars f (a ++ b) = all_chars f a && all_chars f b.
Proof. induction a as [ | c a IH ]; simpl; [ reflexivity | now rewrite IH, andb_assoc ]. Qed.

(** *** Code points and their bytes *)

Section CodePoints.

Import Utf8.
Local Open Scope N_scope.

#[local] Ltac Zify.zify_post_hook ::= Z.to_euclidean_division_equations.

Lemma code_byte n : n < 256 -> code (byte n) = n.
Proof. intros H. unfold code, byte. now apply N_ascii_embedding. Qed.

Lemma byte_code c : byte (code c) = c.
Proof. apply ascii_N_embedding. Qed.

Lemma code_bound c : code c < 256.
Proof. apply N_ascii_bounded. Qed.

Ltac decide_test :=
  match goal with
  | |- context [?a <? ?b] =>
      first [ replace (a <? b) with true by (symmetry; apply N.ltb_lt; lia)
            | replace (a <? b) with false by (symmetry; apply N.ltb_ge; lia) ]
  | |- context [?a <=? ?b] =>
      first [ replace (a <=? b) with true by (symmetry; apply N.leb_le; lia)
            | replace (a <=? b) with false by (symmetry; apply N.leb_gt; lia) ]
  | |- context [?a =? ?b] =>
      first [ replace (a =? b) with true by (symmetry; apply N.eqb_eq; lia)
            | replace (a =? b) with false by (symmetry; apply N.eqb_neq; lia) ]
  end.

(** The bytes of a code point read back as the code point. *)
Lemma scan_encode n rest :
  is_code_point n = true -> scan 0 0 (encode n ++ rest) = n :: scan 0 0 rest.
Proof.
  unfold is_code_point. intros Hn. apply N.ltb_lt in Hn. unfold encode.
  destruct (n <? 0x80) eqn:E1; [ apply N.ltb_lt in E1 | apply N.ltb_ge in E1 ].
  { cbn [append scan]. unfold lead. rewrite code_byte by lia.
    repeat decide_test. reflexivity. }
  destruct (n <? 0x800) eqn:E2; [ apply N.ltb_lt in E2 | apply N.ltb_ge in E2 ].
  { cbn [append scan]. unfold lead, is_cont. rewrite !code_byte by lia.
    repeat decide_test. cbn [andb]. f_equal. lia. }
  destruct (n <? 0x10000) eqn:E3; [ apply N.ltb_lt in E3 | apply N.ltb_ge in E3 ].
  { cbn [append scan]. unfold lead, is_cont. rewrite !code_byte by lia.
    repeat decide_test. cbn [andb]. f_equal. lia. }
  cbn [append scan]. unfold lead, is_cont. rewrite !code_byte by lia.
  repeat decide_test. cbn [andb]. f_equal. lia.
Qed.

Lemma decode_encode_all l rest :
  forallb is_code_point l = true ->
  decode (encode_all l ++ rest) = (l ++ decode rest)%list.
Proof.
  unfold decode. induction l as [ | n l IH ]; simpl; intros H; [ reflexivity | ].
  apply andb_true_iff in H as [Hn Hl].
  now rewrite append_assoc, scan_encode, IH.
Qed.

Lemma valid_parts s :
  valid s = true -> encode_all (decode s) = s /\ forallb is_code_point (decode s) = true.
Proof.
  unfold valid. intros H. apply andb_true_iff in H as [H1 H2].
  apply String.eqb_eq in H1. now split.
Qed.

Lemma valid_intro l :
  forallb is_code_point l = true -> valid (encode_all l) = true.
Proof.
  intros H. unfold valid.
  pose proof (decode_encode_all l "" H) as E. rewrite append_nil_r in E.
  change (decode "") with (@nil N) in E. rewrite app_nil_r in E.
  rewrite E, H, String.eqb_refl. reflexivity.
Qed.

Lemma decode_encode_all' l :
  forallb is_code_point l = true -> decode (encode_all l) = l.
Proof.
  intros H. pose proof (decode_encode_all l "" H) as E. rewrite append_nil_r in E.
  change (decode "") with (@nil N) in E. now rewrite app_nil_r in E.
Qed.

(** A valid text is read code point by code point, whatever follows. *)
Lemma decode_append a b :
  valid a = true -> decode (a ++ b) = (decode a ++ decode b)%list.
Proof.
  intros H. destruct (valid_parts _ H) as [E Hc].
  rewrite <- E at 1. now apply decode_encode_all.
Qed.

Lemma encode_all_app l1 l2 : encode_all (l1 ++ l2) = encode_all l1 ++ encode_all l2.
Proof.
  induction l1 as [ | n l1 IH ]; simpl; [ reflexivity | ].
  now rewrite IH, append_assoc.
Qed.

Lemma valid_append a b : valid a = true -> valid b = true -> valid (a ++ b) = true.
Proof.
  intros Ha Hb. unfold valid. rewrite (decode_append _ _ Ha).
  destruct (valid_parts _ Ha) as [Ea Hca]. destruct (valid_parts _ Hb) as [Eb Hcb].
  rewrite encode_all_app, Ea, Eb, String.eqb_refl, forallb_app, Hca, Hcb. reflexivity.
Qed.

Lemma clean_parts s :
  clean s = true ->
  valid s = true /\ forallb (fun n => negb (is_surrogate n)) (decode s) = true.
Proof. unfold clean. intros H. now apply andb_true_iff in H. Qed.

Lemma parsed_parts s : parsed s = true -> valid s = true /\ no_pair (decode s) = true.
Proof. unfold parsed. intros H. now apply andb_true_iff in H. Qed.

Lemma clean_append a b : clean a = true -> clean b = true -> clean (a ++ b) = true.
Proof.
  intros Ha Hb. destruct (clean_parts _ Ha) as [Va Sa]. destruct (clean_parts _ Hb) as [Vb Sb].
  unfold clean. rewrite valid_append, decode_append, forallb_app, Sa, Sb by assumption.
  reflexivity.
Qed.

Lemma high_is_surrogate n : is_high n = true -> is_surrogate n = true.
Proof.
  unfold is_high, is_surrogate. intros H. apply andb_true_iff in H as [H1 H2].
  apply N.ltb_lt in H2. rewrite H1. apply N.ltb_lt. lia.
Qed.

Lemma low_is_surrogate n : is_low n = true -> is_surrogate n = true.
Proof.
  unfold is_low, is_surrogate. intros H. apply andb_true_iff in H as [H1 H2].
  apply N.leb_le in H1. rewrite H2, andb_true_r. apply N.leb_le. lia.
Qed.

Lemma no_pair_no_surrogate l :
  forallb (fun n => negb (is_surrogate n)) l = true -> no_pair l = true.
Proof.
  induction l as [ | a l IH ]; [ reflexivity | ].
  intros H. simpl in H. apply andb_true_iff in H as [Ha Hl].
  destruct l as [ | b l ]; [ reflexivity | ].
  change (no_pair (a :: b :: l)) with (negb (is_high a && is_low b) && no_pair (b :: l)).
  rewrite (IH Hl), andb_true_r.
  destruct (is_high a) eqn:E; [ | reflexivity ].
  apply high_is_surrogate in E. now rewrite E in Ha.
Qed.

Lemma clean_parsed s : clean s = true -> parsed s = true.
Proof.
  intros H. destruct (clean_parts _ H) as [V S]. unfold parsed.
  now rewrite V, no_pair_no_surrogate.
Qed.

Lemma no_pair_app_l l1 l2 :
  forallb (fun n => negb (is_surrogate n)) l1 = true -> no_pair l2 = true ->
  no_pair (l1 ++ l2) = true.
Proof.
  induction l1 as [ | a l1 IH ]; [ now simpl | ].
  intros H H2. simpl in H. apply andb_true_iff in H as [Ha Hl].
  specialize (IH Hl H2).
  change ((a :: l1) ++ l2)%list with (a :: (l1 ++ l2))%list.
  destruct (l1 ++ l2)%list as [ | b l ] eqn:E; [ reflexivity | ].
  change (no_pair (a :: b :: l)) with (negb (is_high a && is_low b) && no_pair (b :: l)).
  rewrite IH, andb_true_r.
  destruct (is_high a) eqn:Eh; [ | reflexivity ].
  apply high_is_surrogate in Eh. now rewrite Eh in Ha.
Qed.

(** A text without a surrogate before a parsed one. *)
Lemma parsed_append a b : clean a = true -> parsed b = true -> parsed (a ++ b) = true.
Proof.
  intros Ha Hb. destruct (clean_parts _ Ha) as [Va Sa].
  destruct (parsed_parts _ Hb) as [Vb Pb].
  unfold parsed. rewrite valid_append, decode_append by assumption.
  now rewrite no_pair_app_l.
Qed.

Lemma no_pair_app_clean l1 l2 :
  no_pair l1 = true ->
  forallb (fun n => negb (is_surrogate n)) l2 = true ->
  no_pair (l1 ++ l2) = true.
Proof.
  intros H1 H2. induction l1 as [ | a l1 IH ]; [ now apply no_pair_no_surrogate | ].
  destruct l1 as [ | b l1 ].
  - destruct l2 as [ | c l2 ]; [ reflexivity | ].
    change (no_pair ([a] ++ c :: l2))
      with (negb (is_high a && is_low c) && no_pair (c :: l2)).
    rewrite (no_pair_no_surrogate _ H2), andb_true_r.
    cbn [forallb] in H2. apply andb_true_iff in H2 as [Hc _].
    destruct (is_low c) eqn:E; [ | now rewrite andb_false_r ].
    apply low_is_surrogate in E. now rewrite E in Hc.
  - change (no_pair (a :: b :: l1))
      with (negb (is_high a && is_low b) && no_pair (b :: l1)) in H1.
    apply andb_true_iff in H1 as [Hab H1].
    change (no_pair ((a :: b :: l1) ++ l2))
      with (negb (is_high a && is_low b) && no_pair ((b :: l1) ++ l2)).
    now rewrite Hab, IH.
Qed.

(** A parsed text before one without a surrogate. *)
Lemma parsed_append_clean a b :
  parsed a = true -> clean b = true -> parsed (a ++ b) = true.
Proof.
  intros Ha Hb. destruct (parsed_parts _ Ha) as [Va Pa].
  destruct (clean_parts _ Hb) as [Vb Sb].
  unfold parsed. rewrite valid_append, decode_append by assumption.
  now rewrite no_pair_app_clean.
Qed.

(** ASCII *)

Lemma encode_ascii c : is_ascii c = true -> encode (code c) = String c "".
Proof. unfold is_ascii, encode. intros ->. now rewrite byte_code. Qed.

Lemma decode_ascii c s : is_ascii c = true -> decode (String c s) = code c :: decode s.
Proof. unfold is_ascii, decode. intros H. cbn [scan]. unfold lead. now rewrite H. Qed.

Lemma ascii_clean s : all_chars is_ascii s = true -> clean s = true.
Proof.
  unfold clean, valid.
  induction s as [ | c s IH ]; [ reflexivity | ].
  simpl. intros H. apply andb_true_iff in H as [Hc Hs].
  specialize (IH Hs). apply andb_true_iff in IH as [IH1 IH3].
  apply andb_true_iff in IH1 as [IH1 IH2]. apply String.eqb_eq in IH1.
  rewrite (decode_ascii _ _ Hc). cbn [encode_all forallb].
  rewrite (encode_ascii _ Hc). cbn [append]. rewrite IH1, String.eqb_refl, IH2, IH3.
  unfold is_ascii in Hc. apply N.ltb_lt in Hc.
  unfold is_code_point, is_surrogate.
  replace (code c <? 0x110000) with true by (symmetry; apply N.ltb_lt; lia).
  replace (0xD800 <=? code c) with false by (symmetry; apply N.leb_gt; lia).
  reflexivity.
Qed.

(** The code points of a valid text *)

Lemma encode_clean n :
  is_code_point n = true -> is_surrogate n = false -> clean (encode n) = true.
Proof.
  intros Hn Hs. unfold clean.
  pose proof (valid_intro [n]) as V. simpl in V. rewrite append_nil_r, Hn in V.
  rewrite (V eq_refl).
  pose proof (decode_encode_all' [n]) as D. simpl in D. rewrite append_nil_r, Hn in D.
  rewrite (D eq_refl). simpl. now rewrite Hs.
Qed.

Lemma encode_parsed n : is_code_point n = true -> parsed (encode n) = true.
Proof.
  intros Hn. unfold parsed.
  pose proof (valid_intro [n]) as V. simpl in V. rewrite append_nil_r, Hn in V.
  rewrite (V eq_refl).
  pose proof (decode_encode_all' [n]) as D. simpl in D. rewrite append_nil_r, Hn in D.
  now rewrite (D eq_refl).
Qed.

(** Every sequence of code points is the text of its bytes. *)
Lemma parsed_intro l :
  forallb is_code_point l = true -> no_pair l = true -> parsed (encode_all l) = true.
Proof.
  intros H P. unfold parsed. now rewrite (valid_intro _ H), (decode_encode_all' _ H).
Qed.

(** *** Strings *)

Lemma unhex_hex_digit d : d < 16 -> unhex (hex_digit d) = Some d.
Proof.
  intros H.
  assert (E : d = 0 \/ d = 1 \/ d = 2 \/ d = 3 \/ d = 4 \/ d = 5 \/ d = 6 \/ d = 7
              \/ d = 8 \/ d = 9 \/ d = 10 \/ d = 11 \/ d = 12 \/ d = 13 \/ d = 14
              \/ d = 15) by lia.
  repeat (destruct E as [-> | E]; [ reflexivity | ]). subst. reflexivity.
Qed.

Lemma hex4_chars n :
  hex4 n = String (hex_digit (n / 256 / 16)) (String (hex_digit ((n / 256) mod 16))
             (String (hex_digit (n mod 256 / 16))
                (String (hex_digit ((n mod 256) mod 16)) ""))).
Proof. reflexivity. Qed.

Lemma unhex4_hex4 n :
  n < 65536 ->
  unhex4 (hex_digit (n / 256 / 16)) (hex_digit ((n / 256) mod 16))
    (hex_digit (n mod 256 / 16)) (hex_digit ((n mod 256) mod 16)) = Some n.
Proof.
  intros H. unfold unhex4. rewrite !unhex_hex_digit by lia. f_equal. lia.
Qed.

(** Reading [\uXXXX]. *)
Lemma decode_chars_u pending n t :
  n < 65536 ->
  decode_chars_from pending (String backslash (String "u" (hex4 n ++ t)))
  = match pending with
    | Some high =>
        if is_low n
        then prepending (encode (join_surrogates high n)) (decode_chars_from None t)
        else prepending (encode high)
               (if is_high n then decode_chars_from (Some n) t
                else prepending (encode n) (decode_chars_from None t))
    | None =>
        if is_high n then decode_chars_from (Some n) t
        else prepending (encode n) (decode_chars_from None t)
    end.
Proof.
  intros H. rewrite hex4_chars. cbn [append decode_chars_from].
  change (Ascii.eqb backslash dquote) with false.
  change (Ascii.eqb backslash backslash) with true.
  change (Ascii.eqb "u" "u") with true. cbv iota.
  now rewrite unhex4_hex4.
Qed.

Lemma consing_prepending c r : consing c r = prepending (String c "") r.
Proof. destruct r as [[t rest] | ]; reflexivity. Qed.

(** Reading what [escape_code] writes for an ASCII character. *)
Lemma decode_chars_ascii pending c t :
  is_ascii c = true ->
  decode_chars_from pending (escape_code (code c) ++ t)
  = flushing pending (consing c (decode_chars_from None t)).
Proof.
  destruct c as [[|] [|] [|] [|] [|] [|] [|] [|]];
    try discriminate; intros _; reflexivity.
Qed.

Lemma escape_code_bmp n :
  128 <= n -> n < 65536 -> escape_code n = String backslash (String "u" (hex4 n)).
Proof. intros H1 H2. unfold escape_code. repeat decide_test. reflexivity. Qed.

Lemma escape_code_astral n :
  65536 <= n ->
  escape_code n
  = String backslash (String "u" (hex4 (55296 + (n - 65536) / 1024)))
      ++ String backslash (String "u" (hex4 (56320 + (n - 65536) mod 1024))).
Proof. intros H. unfold escape_code. repeat decide_test. reflexivity. Qed.

Lemma flushing_prepending pending p r :
  flushing pending (prepending p r)
  = match pending with
    | Some high => prepending (encode high) (prepending p r)
    | None => prepending p r
    end.
Proof. reflexivity. Qed.

(** One code point read back, in each state of the reader. *)
Lemma decode_chars_code pending n t :
  is_code_point n = true ->
  decode_chars_from pending (escape_code n ++ t)
  = if is_high n then flushing pending (decode_chars_from (Some n) t)
    else if is_low n then
      match pending with
      | Some high =>
          prepending (encode (join_surrogates high n)) (decode_chars_from None t)
      | None => prepending (encode n) (decode_chars_from None t)
      end
    else flushing pending (prepending (encode n) (decode_chars_from None t)).
Proof.
  unfold is_code_point. intros Hn. apply N.ltb_lt in Hn.
  destruct (N.ltb n 128) eqn:E1; [ apply N.ltb_lt in E1 | apply N.ltb_ge in E1 ].
  { rewrite <- (code_byte n) by lia.
    assert (Ha : is_ascii (byte n) = true)
      by (unfold is_ascii; rewrite code_byte by lia; now apply N.ltb_lt).
    rewrite (decode_chars_ascii _ _ _ Ha), (encode_ascii _ Ha), consing_prepending.
    rewrite code_byte by lia. unfold is_high, is_low.
    repeat decide_test. reflexivity. }
  destruct (N.ltb n 65536) eqn:E2; [ apply N.ltb_lt in E2 | apply N.ltb_ge in E2 ].
  { rewrite escape_code_bmp by assumption. cbn [append].
    rewrite decode_chars_u by assumption.
    destruct (is_high n) eqn:Eh.
    - assert (El : is_low n = false).
      { unfold is_high in Eh. apply andb_true_iff in Eh as [_ Eh].
        apply N.ltb_lt in Eh. unfold is_low. repeat decide_test; reflexivity. }
      rewrite El. destruct pending; reflexivity.
    - destruct (is_low n); destruct pending; reflexivity. }
  rewrite escape_code_astral by assumption.
  rewrite append_assoc. cbn [append].
  rewrite decode_chars_u by lia.
  assert (Eh : is_high (55296 + (n - 65536) / 1024) = true)
    by (unfold is_high; repeat decide_test; reflexivity).
  assert (El : is_low (55296 + (n - 65536) / 1024) = false)
    by (unfold is_low; repeat decide_test; reflexivity).
  rewrite Eh, El.
  replace (match pending with
           | Some high =>
               prepending (encode high)
                 (decode_chars_from (Some (55296 + (n - 65536) / 1024))
                    (String backslash
                       (String "u" (hex4 (56320 + (n - 65536) mod 1024) ++ t))))
           | None =>
               decode_chars_from (Some (55296 + (n - 65536) / 1024))
                 (String backslash
                    (String "u" (hex4 (56320 + (n - 65536) mod 1024) ++ t)))
           end)
    with (flushing pending
            (decode_chars_from (Some (55296 + (n - 65536) / 1024))
               (String backslash
                  (String "u" (hex4 (56320 + (n - 65536) mod 1024) ++ t)))))
    by (destruct pending; reflexivity).
  rewrite decode_chars_u by lia.
  assert (El' : is_low (56320 + (n - 65536) mod 1024) = true)
    by (unfold is_low; repeat decide_test; reflexivity).
  rewrite El'.
  replace (join_surrogates (55296 + (n - 65536) / 1024) (56320 + (n - 65536) mod 1024))
    with n by (unfold join_surrogates; lia).
  unfold is_high, is_low. repeat decide_test. reflexivity.
Qed.

Lemma prepending_prepending a b r :
  prepending a (prepending b r) = prepending (a ++ b) r.
Proof. destruct r as [[t rest] | ]; simpl; [ now rewrite append_assoc | reflexivity ]. Qed.

(** The code points of a string read back, in each state of the reader:
    after a high surrogate as long as no low one comes first. *)
Lemma decode_chars_codes l :
  forall pending rest,
    forallb is_code_point l = true ->
    no_pair l = true ->
    match pending, l with
    | Some _, n :: _ => is_low n = false
    | _, _ => True
    end ->
    decode_chars_from pending (escape_codes l ++ String dquote rest)
    = flushing pending (Some (encode_all l, rest)).
Proof.
  induction l as [ | n l IH ]; intros pending rest Hc Hp Hh.
  - cbn [escape_codes append decode_chars_from].
    change (Ascii.eqb dquote dquote) with true. reflexivity.
  - cbn [forallb] in Hc. apply andb_true_iff in Hc as [Hn Hl].
    assert (Hp' : no_pair l = true).
    { destruct l as [ | b l ]; [ reflexivity | ].
      change (no_pair (n :: b :: l)) with (negb (is_high n && is_low b) && no_pair (b :: l))
        in Hp.
      now apply andb_true_iff in Hp. }
    cbn [escape_codes encode_all]. rewrite append_assoc, (decode_chars_code _ _ _ Hn).
    destruct (is_high n) eqn:Eh.
    + rewrite IH; [ | assumption | assumption | ].
      * destruct pending; reflexivity.
      * destruct l as [ | b l ]; [ exact I | ].
        change (no_pair (n :: b :: l))
          with (negb (is_high n && is_low b) && no_pair (b :: l)) in Hp.
        apply andb_true_iff in Hp as [Hp _]. rewrite Eh in Hp.
        now destruct (is_low b).
    + destruct (is_low n) eqn:El.
      * destruct pending as [ high | ]; [ discriminate | ].
        rewrite IH by (assumption || exact I). reflexivity.
      * rewrite IH by (assumption || exact I).
        destruct pending; cbn [flushing prepending]; now rewrite ?append_assoc.
Qed.

(** A string reads back as it was written. *)
Lemma decode_chars_escape s rest :
  parsed s = true ->
  decode_chars (escape s ++ String dquote rest) = Some (s, rest).
Proof.
  intros H. destruct (parsed_parts _ H) as [V P]. destruct (valid_parts _ V) as [E C].
  unfold decode_chars, escape.
  rewrite (decode_chars_codes _ None rest C P I). cbn [flushing]. now rewrite E.
Qed.

End CodePoints.

Lemma decode_string fuel rest :
  decode (S fuel) (String dquote rest)
  = match decode_chars rest with
    | Some (t, r) => Some (PyStr t, r)
    | None => None
    end.
Proof. reflexivity. Qed.

Lemma decode_encode_str fuel s rest :
  Utf8.parsed s = true ->
  decode (S fuel) (encode_str s ++ rest) = Some (PyStr s, rest).
Proof.
  intros Hs. unfold encode_str.
  change (String dquote (escape s ++ String dquote "") ++ rest)
    with (String dquote ((escape s ++ String dquote "") ++ rest)).
  rewrite decode_string, append_assoc. simpl append.
  now rewrite decode_chars_escape.
Qed.

(** *** Numbers *)

Lemma all_digits_chars s : all_digits s = all_chars is_digit s.
Proof. induction s as [ | c s IH ]; simpl; [ reflexivity | now rewrite IH ]. Qed.

Lemma digit_is_number_char c : is_digit c = true -> is_number_char c = true.
Proof. intros H. unfold is_number_char. now rewrite H. Qed.

Lemma all_chars_weaken (f g : ascii -> bool) s :
  (forall c, f c = true -> g c = true) -> all_chars f s = true -> all_chars g s = true.
Proof.
  intros Hfg. induction s as [ | c s IH ]; simpl; [ reflexivity | ].
  intros H. apply andb_true_iff in H as [Hc Hs]. now rewrite (Hfg _ Hc), IH.
Qed.

Lemma span_number_token tok rest :
  all_chars is_number_char tok = true -> delimited rest = true ->
  span_number (tok ++ rest) = (tok, rest).
Proof.
  intros Ht Hr. induction tok as [ | c tok IH ]; simpl in *.
  - destruct rest as [ | c r ]; [ reflexivity | ].
    simpl in Hr. apply negb_true_iff in Hr. simpl. now rewrite Hr.
  - apply andb_true_iff in Ht as [Hc Ht]. now rewrite Hc, (IH Ht).
Qed.

Lemma uint_digits d : all_digits (NilEmpty.string_of_uint d) = true.
Proof. induction d; simpl; auto. Qed.

Lemma nzhead_head d : match Decimal.nzhead d with Decimal.D0 _ => False | _ => True end.
Proof. induction d; simpl; auto. Qed.

Lemma to_uint_unorm p : Decimal.unorm (Pos.to_uint p) = Pos.to_uint p.
Proof.
  rewrite <- (DecimalPos.Unsigned.to_of (Pos.to_uint p)).
  now rewrite DecimalPos.Unsigned.of_to.
Qed.

Lemma to_uint_int_part p : is_int_part (NilEmpty.string_of_uint (Pos.to_uint p)) = true.
Proof.
  pose proof (to_uint_unorm p) as Hn.
  pose proof (DecimalPos.Unsigned.to_uint_nonzero p) as Hz.
  pose proof (uint_digits (Pos.to_uint p)) as Hd.
  pose proof (nzhead_head (Pos.to_uint p)) as Hh.
  unfold Decimal.unorm in Hn.
  destruct (Pos.to_uint p) as [ | d | d | d | d | d | d | d | d | d | d ] eqn:E;
    simpl in *; try exact Hd.
  - discriminate.
  - destruct (Decimal.nzhead d) eqn:En; try contradiction; try discriminate.
    injection Hn as <-. now elim Hz.
Qed.

Lemma str_of_Z_int_token z : is_int_token (str_of_Z z) = true.
Proof.
  destruct z as [ | p | p ]; unfold str_of_Z, is_int_token; simpl.
  - reflexivity.
  - pose proof (to_uint_int_part p) as H.
    destruct (NilEmpty.string_of_uint (Pos.to_uint p)) as [ | c s ] eqn:E; [ discriminate | ].
    unfold strip_minus. destruct (Ascii.eqb_spec c "-") as [-> | _]; [ | exact H ].
    discriminate.
  - apply to_uint_int_part.
Qed.

Lemma str_of_Z_number_chars z : all_chars is_number_char (str_of_Z z) = true.
Proof.
  assert (H : forall d, all_chars is_number_char (NilEmpty.string_of_uint d) = true).
  { intros d. apply all_chars_weaken with (f := is_digit); [ apply digit_is_number_char | ].
    rewrite <- all_digits_chars. apply uint_digits. }
  destruct z; unfold str_of_Z; simpl; auto.
Qed.

Lemma int_part_head s : is_int_part s = true -> number_head s = true.
Proof.
  destruct s as [ | c s ]; simpl; [ discriminate | ].
  destruct (Ascii.eqb_spec c "0") as [-> | _]; [ reflexivity | ].
  intros H. apply andb_true_iff in H as [-> _]. reflexivity.
Qed.

Lemma number_head_append s rest : number_head s = true -> number_head (s ++ rest) = true.
Proof.
  destruct s as [ | c [ | c' s ] ]; simpl; try discriminate.
  - rewrite andb_false_r, orb_false_r. intros ->. reflexivity.
  - auto.
Qed.

Lemma int_part_digit c s : is_int_part (String c s) = true -> is_digit c = true.
Proof.
  simpl. destruct (Ascii.eqb_spec c "0") as [-> | _]; [ reflexivity | ].
  intros H. now apply andb_true_iff in H as [-> _].
Qed.

Lemma int_token_head s : is_int_token s = true -> number_head s = true.
Proof.
  unfold is_int_token, strip_minus. destruct s as [ | c s ]; [ discriminate | ].
  destruct (Ascii.eqb_spec c "-") as [-> | _].
  - destruct s as [ | c' s ]; [ discriminate | ].
    intros H. apply int_part_digit in H. simpl. now rewrite H.
  - apply int_part_head.
Qed.

Lemma decode_number_head fuel s :
  number_head s = true -> decode (S fuel) s = decode_number s.
Proof.
  destruct s as [ | c s ]; [ discriminate | ].
  destruct c as [[|] [|] [|] [|] [|] [|] [|] [|]]; try discriminate; try reflexivity.
  destruct s as [ | c s ]; [ discriminate | ].
  destruct c as [[|] [|] [|] [|] [|] [|] [|] [|]]; try discriminate; reflexivity.
Qed.

Lemma decode_number_int z rest :
  delimited rest = true ->
  decode_number (str_of_Z z ++ rest) = Some (PyInt z, rest).
Proof.
  intros Hr. unfold decode_number.
  rewrite (span_number_token _ _ (str_of_Z_number_chars z) Hr).
  rewrite str_of_Z_int_token. unfold str_of_Z.
  now rewrite NilEmpty.isi, DecimalZ.of_to.
Qed.

Lemma decode_encode_int fuel z rest :
  delimited rest = true ->
  decode (S fuel) (str_of_Z z ++ rest) = Some (PyInt z, rest).
Proof.
  intros Hr. rewrite decode_number_head.
  - now apply decode_number_int.
  - apply number_head_append, int_token_head, str_of_Z_int_token.
Qed.

(** *** Floats *)

Lemma take_digits_spec s :
  let (i, r) := take_digits s in
  s = i ++ r /\ all_digits i = true
  /\ match r with String c _ => is_digit c = false | EmptyString => True end.
Proof.
  induction s as [ | c s IH ]; simpl; [ auto | ].
  destruct (is_digit c) eqn:E.
  - destruct (take_digits s) as [i r]. destruct IH as [-> [Hi Hr]].
    simpl. rewrite E, Hi. auto.
  - simpl. auto.
Qed.

Lemma int_part_digits s : is_int_part s = true -> all_digits s = true.
Proof.
  destruct s as [ | c s ]; simpl; [ discriminate | ].
  destruct (Ascii.eqb_spec c "0") as [-> | _]; [ | auto ].
  intros H. apply String.eqb_eq in H. now subst.
Qed.

Lemma is_digits_all s : is_digits s = true -> all_digits s = true.
Proof. destruct s; [ discriminate | auto ]. Qed.

Lemma exponent_chars s : is_exponent s = true -> all_chars is_number_char s = true.
Proof.
  destruct s as [ | c s ]; [ discriminate | ].
  unfold is_exponent. intros H. apply andb_true_iff in H as [Hc Hs].
  simpl. replace (is_number_char c) with true.
  2: { unfold is_number_char. apply orb_true_iff in Hc as [-> | ->];
       now rewrite ?orb_true_r. }
  simpl. apply is_digits_all in Hs. rewrite all_digits_chars in Hs.
  apply all_chars_weaken with (g := is_number_char) in Hs; [ | apply digit_is_number_char ].
  unfold strip_sign in Hs. destruct s as [ | c' s ]; [ reflexivity | ].
  destruct (Ascii.eqb c' "-" || Ascii.eqb c' "+") eqn:E; [ | exact Hs ].
  simpl. rewrite Hs, andb_true_r. unfold is_number_char.
  apply orb_true_iff in E as [-> | ->]; now rewrite ?orb_true_r.
Qed.

(** What [is_float_token] knows of a text: the text after the sign is an
    integer part and then a tail that starts with no digit. *)
Lemma float_token_shape r :
  is_float_token r = true ->
  exists i tail c,
    strip_minus r = i ++ String c tail
    /\ is_int_part i = true
    /\ is_digit c = false
    /\ all_chars is_number_char (String c tail) = true.
Proof.
  unfold is_float_token.
  pose proof (take_digits_spec (strip_minus r)) as H.
  destruct (take_digits (strip_minus r)) as [i rem]. destruct H as [E [Hi Hrem]].
  intros H. apply andb_true_iff in H as [Hint H].
  destruct rem as [ | c tail ]; [ discriminate | ].
  exists i, tail, c. repeat split; auto.
  destruct (Ascii.eqb_spec c ".") as [-> | _].
  - pose proof (take_digits_spec tail) as H'.
    destruct (take_digits tail) as [f r2]. destruct H' as [-> [Hf _]].
    apply andb_true_iff in H as [_ H].
    cbn [all_chars]. rewrite all_chars_append. simpl.
    rewrite all_digits_chars in Hf.
    rewrite (all_chars_weaken _ _ _ digit_is_number_char Hf). simpl.
    apply orb_true_iff in H as [H | H].
    + apply String.eqb_eq in H. now subst.
    + now apply exponent_chars.
  - now apply exponent_chars.
Qed.

Lemma strip_minus_cases r :
  r = strip_minus r \/ r = String "-" (strip_minus r).
Proof.
  destruct r as [ | c r ]; [ now left | ]. unfold strip_minus.
  destruct (Ascii.eqb_spec c "-") as [-> | _]; [ now right | now left ].
Qed.

Lemma float_token_head r : is_float_token r = true -> number_head r = true.
Proof.
  intros H. destruct (float_token_shape r H) as [i [tail [c [E [Hi _]]]]].
  destruct i as [ | d i ]; [ discriminate | ].
  pose proof (int_part_digit _ _ Hi) as Hd.
  destruct (strip_minus_cases r) as [Hr | Hr]; rewrite Hr, E; simpl.
  - now rewrite Hd.
  - now rewrite Hd.
Qed.

Lemma float_token_chars r :
  is_float_token r = true -> all_chars is_number_char r = true.
Proof.
  intros H. destruct (float_token_shape r H) as [i [tail [c [E [Hi [_ Ht]]]]]].
  assert (Hs : all_chars is_number_char (strip_minus r) = true).
  { rewrite E, all_chars_append, Ht, andb_true_r.
    apply int_part_digits in Hi. rewrite all_digits_chars in Hi.
    exact (all_chars_weaken _ _ _ digit_is_number_char Hi). }
  destruct (strip_minus_cases r) as [Hr | Hr]; rewrite Hr; [ exact Hs | ].
  simpl. exact Hs.
Qed.

Lemma float_token_not_int r : is_float_token r = true -> is_int_token r = false.
Proof.
  intros H. destruct (float_token_shape r H) as [i [tail [c [E [_ [Hc _]]]]]].
  unfold is_int_token. rewrite E.
  destruct (is_int_part (i ++ String c tail)) eqn:Hint; [ | reflexivity ].
  apply int_part_digits in Hint. rewrite all_digits_chars, all_chars_append in Hint.
  simpl in Hint. rewrite Hc, andb_false_r in Hint. discriminate.
Qed.

Lemma decode_encode_float fuel r rest :
  is_float_repr r = true -> delimited rest = true ->
  decode (S fuel) (encode_float r ++ rest) = Some (PyFloat r, rest).
Proof.
  unfold is_float_repr, encode_float. intros Hr Hrest.
  destruct (String.eqb_spec r "nan") as [-> | _]; [ reflexivity | ].
  destruct (String.eqb_spec r "inf") as [-> | _]; [ reflexivity | ].
  destruct (String.eqb_spec r "-inf") as [-> | _]; [ reflexivity | ].
  simpl in Hr. apply andb_true_iff in Hr as [Hr Hsame].
  apply String.eqb_eq in Hsame.
  rewrite decode_number_head
    by (apply number_head_append, float_token_head, Hr).
  unfold decode_number.
  rewrite (span_number_token _ _ (float_token_chars _ Hr) Hrest).
  now rewrite (float_token_not_int _ Hr), Hr, Hsame.
Qed.

(** *** The first character of a value *)

Lemma number_head_value_head s : number_head s = true -> value_head s = true.
Proof.
  destruct s as [ | c s ]; [ discriminate | ].
  destruct c as [[|] [|] [|] [|] [|] [|] [|] [|]]; try discriminate; reflexivity.
Qed.

Lemma value_head_append s rest : value_head s = true -> value_head (s ++ rest) = true.
Proof. destruct s; [ discriminate | auto ]. Qed.

Lemma encode_head lvl v : well_formed v = true -> value_head (encode lvl v) = true.
Proof.
  destruct v as [ | [ | ] | z | r | s | [ | x l ] | [ | kv d ] ]; try reflexivity.
  - intros _. apply number_head_value_head, int_token_head, str_of_Z_int_token.
  - simpl. unfold is_float_repr, encode_float. intros H.
    destruct (String.eqb_spec r "nan") as [E | _]; [ reflexivity | ].
    destruct (String.eqb_spec r "inf") as [E | _]; [ reflexivity | ].
    destruct (String.eqb_spec r "-inf") as [E | _]; [ reflexivity | ].
    simpl in H. apply andb_true_iff in H as [H _].
    now apply number_head_value_head, float_token_head.
Qed.

Lemma skip_ws_value s : value_head s = true -> skip_ws s = s.
Proof.
  destruct s as [ | c s ]; [ discriminate | ]. simpl.
  intros H. apply andb_true_iff in H as [H _]. apply negb_true_iff in H. now rewrite H.
Qed.

Lemma delimited_newline_indent n t : delimited (newline_indent n ++ t) = true.
Proof. reflexivity. Qed.

Lemma newline_indent_length n : 1 <= String.length (newline_indent n).
Proof. unfold newline_indent. simpl. lia. Qed.

(** *** Dicts *)

Lemma dict_set_fresh d k v :
  existsb (String.eqb k) (map fst d) = false -> dict_set d k v = (d ++ [(k, v)])%list.
Proof.
  induction d as [ | [k' v'] d IH ]; simpl; [ reflexivity | ].
  intros H. apply orb_false_iff in H as [Hk Hd]. now rewrite Hk, (IH Hd).
Qed.

Lemma existsb_app_false {A} (f : A -> bool) l1 l2 :
  existsb f (l1 ++ l2)%list = false <-> existsb f l1 = false /\ existsb f l2 = false.
Proof. rewrite existsb_app. apply orb_false_iff. Qed.

Lemma dict_of_pairs_nodup pairs :
  forall acc,
    nodup_keys (map fst (acc ++ pairs)%list) = true ->
    fold_left (fun d kv => dict_set d (fst kv) (snd kv)) pairs acc = (acc ++ pairs)%list.
Proof.
  induction pairs as [ | [k v] pairs IH ]; intros acc H; simpl.
  - now rewrite app_nil_r.
  - assert (Hfresh : existsb (String.eqb k) (map fst acc) = false).
    { clear IH. induction acc as [ | [k' v'] acc IHacc ]; [ reflexivity | ].
      simpl in *. apply andb_true_iff in H as [Hk' H].
      apply negb_true_iff in Hk'. rewrite map_app in Hk'. simpl in Hk'.
      apply existsb_app_false in Hk' as [_ Hk']. simpl in Hk'.
      apply orb_false_iff in Hk' as [Hk' _].
      rewrite String.eqb_sym, Hk'. simpl. now apply IHacc. }
    rewrite (dict_set_fresh _ _ _ Hfresh).
    rewrite IH; rewrite <- app_assoc; [ reflexivity | exact H ].
Qed.

Lemma dict_of_pairs_id d : nodup_keys (map fst d) = true -> dict_of_pairs d = d.
Proof. intros H. unfold dict_of_pairs. now rewrite dict_of_pairs_nodup. Qed.

(** *** The reader, one step at a time *)

Lemma decode_list fuel rest :
  decode (S fuel) (String "[" rest)
  = match skip_ws rest with
    | EmptyString => None
    | String c' r =>
        if Ascii.eqb c' "]" then Some (PyList [], r)
        else match decode_items fuel (String c' r) with
             | Some (l, r') => Some (PyList l, r')
             | None => None
             end
    end.
Proof. reflexivity. Qed.

Lemma decode_dict fuel rest :
  decode (S fuel) (String "{" rest)
  = match skip_ws rest with
    | EmptyString => None
    | String c' r =>
        if Ascii.eqb c' "}" then Some (PyDict [], r)
        else match decode_members fuel (String c' r) with
             | Some (pairs, r') => Some (PyDict (dict_of_pairs pairs), r')
             | None => None
             end
    end.
Proof. reflexivity. Qed.

Lemma decode_items_step fuel s :
  decode_items (S fuel) s
  = match decode fuel s with
    | Some (v, r) =>
        match skip_ws r with
        | EmptyString => None
        | String c r' =>
            if Ascii.eqb c "," then
              match decode_items fuel (skip_ws r') with
              | Some (l, r'') => Some (v :: l, r'')
              | None => None
              end
            else if Ascii.eqb c "]" then Some ([v], r')
            else None
        end
    | None => None
    end.
Proof. reflexivity. Qed.

Lemma decode_members_step fuel rest :
  decode_members (S fuel) (String dquote rest)
  = match decode_chars rest with
    | Some (k, r) =>
        match skip_ws r with
        | EmptyString => None
        | String c1 r1 =>
            if Ascii.eqb c1 ":" then
              match decode fuel (skip_ws r1) with
              | Some (v, r2) =>
                  match skip_ws r2 with
                  | EmptyString => None
                  | String c3 r3 =>
                      if Ascii.eqb c3 "," then
                        match decode_members fuel (skip_ws r3) with
                        | Some (pairs, r4) => Some ((k, v) :: pairs, r4)
                        | None => None
                        end
                      else if Ascii.eqb c3 "}" then Some ([(k, v)], r3)
                      else None
                  end
              | None => None
              end
            else None
        end
    | None => None
    end.
Proof. reflexivity. Qed.

Lemma decode_items_last fuel s v r r' :
  decode fuel s = Some (v, r) -> skip_ws r = String "]" r' ->
  decode_items (S fuel) s = Some ([v], r').
Proof. intros H1 H2. now rewrite decode_items_step, H1, H2. Qed.

Lemma decode_items_more fuel s v r r' l r'' :
  decode fuel s = Some (v, r) -> skip_ws r = String "," r' ->
  decode_items fuel (skip_ws r') = Some (l, r'') ->
  decode_items (S fuel) s = Some (v :: l, r'').
Proof. intros H1 H2 H3. rewrite decode_items_step, H1, H2. simpl. now rewrite H3. Qed.

Lemma decode_members_last fuel rest k r r1 v r2 r3 :
  decode_chars rest = Some (k, r) -> skip_ws r = String ":" r1 ->
  decode fuel (skip_ws r1) = Some (v, r2) -> skip_ws r2 = String "}" r3 ->
  decode_members (S fuel) (String dquote rest) = Some ([(k, v)], r3).
Proof. intros H1 H2 H3 H4. rewrite decode_members_step, H1, H2. simpl. now rewrite H3, H4. Qed.

Lemma decode_members_more fuel rest k r r1 v r2 r3 pairs r4 :
  decode_chars rest = Some (k, r) -> skip_ws r = String ":" r1 ->
  decode fuel (skip_ws r1) = Some (v, r2) -> skip_ws r2 = String "," r3 ->
  decode_members fuel (skip_ws r3) = Some (pairs, r4) ->
  decode_members (S fuel) (String dquote rest) = Some ((k, v) :: pairs, r4).
Proof.
  intros H1 H2 H3 H4 H5. rewrite decode_members_step, H1, H2. simpl.
  rewrite H3, H4. simpl. now rewrite H5.
Qed.

Lemma join_cons sep x y l : join sep (x :: y :: l) = x ++ sep ++ join sep (y :: l).
Proof. reflexivity. Qed.

Lemma skip_ws_separator lvl t :
  skip_ws (separator lvl ++ t) = String "," (newline_indent (S lvl) ++ t).
Proof. reflexivity. Qed.

Lemma skip_ws_close lvl c t :
  is_ws c = false -> skip_ws (newline_indent lvl ++ String c t) = String c t.
Proof. intros H. rewrite skip_ws_newline_indent. now apply skip_ws_head. Qed.

Lemma items_read_back lvl l :
  Forall reads_back l ->
  forallb well_formed l = true ->
  forall x fuel rest,
    reads_back x -> well_formed x = true ->
    String.length (join (separator lvl) (map (encode (S lvl)) (x :: l))) + 1 < fuel ->
    decode_items fuel
      (join (separator lvl) (map (encode (S lvl)) (x :: l))
         ++ newline_indent lvl ++ String "]" rest)
    = Some (x :: l, rest).
Proof.
  induction 1 as [ | y l Hy _ IH ]; intros Hwf x fuel rest Hx Hwx Hfuel.
  - destruct fuel as [ | fuel ]; [ lia | ].
    simpl map in *. simpl join in *.
    eapply decode_items_last.
    + apply (Hx Hwx); [ lia | reflexivity ].
    + now apply skip_ws_close.
  - destruct fuel as [ | fuel ]; [ lia | ].
    simpl in Hwf. apply andb_true_iff in Hwf as [Hwy Hwl].
    change (map (encode (S lvl)) (x :: y :: l))
      with (encode (S lvl) x :: encode (S lvl) y :: map (encode (S lvl)) l) in *.
    rewrite join_cons in *.
    change (encode (S lvl) y :: map (encode (S lvl)) l)
      with (map (encode (S lvl)) (y :: l)) in *. rewrite !append_length in Hfuel.
    assert (Hsep : 2 <= String.length (separator lvl)) by (simpl; lia).
    rewrite !append_assoc.
    eapply decode_items_more.
    + apply (Hx Hwx); [ lia | reflexivity ].
    + apply skip_ws_separator.
    + rewrite skip_ws_newline_indent, skip_ws_value.
      * apply IH; auto. lia.
      * simpl map. destruct l; simpl join; rewrite ?append_assoc;
          apply value_head_append, encode_head, Hwy.
Qed.

Lemma member_append lvl k v tail :
  member lvl (k, v) ++ tail
  = String dquote
      (escape k ++ String dquote (String ":" (String " " (encode (S lvl) v ++ tail)))).
Proof.
  unfold member, encode_str. simpl fst. simpl snd.
  change (String dquote (escape k ++ String dquote "") ++ ": " ++ encode (S lvl) v)
    with (String dquote ((escape k ++ String dquote "") ++ ": " ++ encode (S lvl) v)).
  simpl. now rewrite !append_assoc.
Qed.

Lemma member_length lvl k v :
  String.length (encode (S lvl) v) < String.length (member lvl (k, v)).
Proof.
  unfold member. simpl fst. simpl snd. rewrite !append_length. simpl. lia.
Qed.

Lemma members_head lvl kv d t :
  exists t', join (separator lvl) (map (member lvl) (kv :: d)) ++ t = String dquote t'.
Proof.
  destruct kv as [k v]. destruct d as [ | kv' d ].
  - simpl map. simpl join. rewrite member_append. eauto.
  - change (map (member lvl) ((k, v) :: kv' :: d))
      with (member lvl (k, v) :: member lvl kv' :: map (member lvl) d).
    rewrite join_cons, append_assoc, member_append. eauto.
Qed.

Lemma value_head_dquote t : value_head (String dquote t) = true.
Proof. reflexivity. Qed.

Lemma members_read_back lvl d :
  Forall (fun kv => reads_back (snd kv)) d ->
  forallb (fun kv => Utf8.parsed (fst kv) && well_formed (snd kv)) d = true ->
  forall kv fuel rest,
    reads_back (snd kv) -> Utf8.parsed (fst kv) = true -> well_formed (snd kv) = true ->
    String.length (join (separator lvl) (map (member lvl) (kv :: d))) + 1 < fuel ->
    decode_members fuel
      (join (separator lvl) (map (member lvl) (kv :: d))
         ++ newline_indent lvl ++ String "}" rest)
    = Some (kv :: d, rest).
Proof.
  induction 1 as [ | kv' d Hkv' _ IH ]; intros Hwf [k v] fuel rest Hv Hk Hwv Hfuel;
    simpl snd in *; simpl fst in *.
  - destruct fuel as [ | fuel ]; [ lia | ].
    simpl map in *. simpl join in *.
    pose proof (member_length lvl k v).
    rewrite member_append.
    eapply decode_members_last.
    + now apply decode_chars_escape.
    + reflexivity.
    + cbn [skip_ws is_ws nat_of_ascii]. change (skip_ws (String " " ?t)) with (skip_ws t).
      rewrite skip_ws_value by (apply value_head_append, encode_head, Hwv).
      apply (Hv Hwv); [ lia | reflexivity ].
    + now apply skip_ws_close.
  - destruct fuel as [ | fuel ]; [ lia | ].
    cbn [forallb] in Hwf. apply andb_true_iff in Hwf as [Hwkv' Hwd].
    apply andb_true_iff in Hwkv' as [Hk' Hwkv'].
    change (map (member lvl) ((k, v) :: kv' :: d))
      with (member lvl (k, v) :: member lvl kv' :: map (member lvl) d) in *.
    rewrite join_cons in *.
    change (member lvl kv' :: map (member lvl) d)
      with (map (member lvl) (kv' :: d)) in *.
    rewrite !append_length in Hfuel.
    pose proof (member_length lvl k v).
    assert (Hsep : 2 <= String.length (separator lvl)) by (simpl; lia).
    rewrite !append_assoc, member_append.
    eapply decode_members_more.
    + now apply decode_chars_escape.
    + reflexivity.
    + change (skip_ws (String " " ?t)) with (skip_ws t).
      rewrite skip_ws_value by (apply value_head_append, encode_head, Hwv).
      apply (Hv Hwv); [ lia | reflexivity ].
    + apply skip_ws_separator.
    + rewrite skip_ws_newline_indent, skip_ws_value.
      * apply IH; auto. lia.
      * destruct (members_head lvl kv' d (newline_indent lvl ++ String "}" rest))
          as [t' ->].
        apply value_head_dquote.
Qed.

Lemma encode_list_cons lvl x l :
  encode lvl (PyList (x :: l))
  = "[" ++ newline_indent (S lvl)
        ++ join (separator lvl) (map (encode (S lvl)) (x :: l))
        ++ newline_indent lvl ++ "]".
Proof. reflexivity. Qed.

Lemma encode_dict_cons lvl kv d :
  encode lvl (PyDict (kv :: d))
  = "{" ++ newline_indent (S lvl)
        ++ join (separator lvl) (map (member lvl) (kv :: d))
        ++ newline_indent lvl ++ "}".
Proof. reflexivity. Qed.

Lemma bracket_append c a b : (String c "" ++ a) ++ b = String c (a ++ b).
Proof. reflexivity. Qed.

Lemma encode_list_append lvl x l rest :
  encode lvl (PyList (x :: l)) ++ rest
  = String "[" (newline_indent (S lvl)
                  ++ join (separator lvl) (map (encode (S lvl)) (x :: l))
                  ++ newline_indent lvl ++ String "]" rest).
Proof. now rewrite encode_list_cons, bracket_append, !append_assoc. Qed.

Lemma encode_dict_append lvl kv d rest :
  encode lvl (PyDict (kv :: d)) ++ rest
  = String "{" (newline_indent (S lvl)
                  ++ join (separator lvl) (map (member lvl) (kv :: d))
                  ++ newline_indent lvl ++ String "}" rest).
Proof. now rewrite encode_dict_cons, bracket_append, !append_assoc. Qed.

Lemma decode_list_items fuel rest s l r' :
  skip_ws rest = s -> value_head s = true ->
  decode_items fuel s = Some (l, r') ->
  decode (S fuel) (String "[" rest) = Some (PyList l, r').
Proof.
  intros <- Hs H. rewrite decode_list.
  destruct (skip_ws rest) as [ | c r ]; [ discriminate | ].
  simpl in Hs. apply andb_true_iff in Hs as [_ Hc]. apply negb_true_iff in Hc.
  now rewrite Hc, H.
Qed.

Lemma decode_dict_members fuel rest s pairs r' :
  skip_ws rest = String dquote s ->
  decode_members fuel (String dquote s) = Some (pairs, r') ->
  decode (S fuel) (String "{" rest) = Some (PyDict (dict_of_pairs pairs), r').
Proof.
  intros Hs H. rewrite decode_dict, Hs.
  change (Ascii.eqb dquote "}") with false. cbv iota. now rewrite H.
Qed.

(** Every well-formed value reads back from its text. *)
Lemma encode_reads_back : forall v, reads_back v.
Proof.
  induction v as [ | b | z | r | s | l IH | d IH ] using value_ind';
    intros Hwf lvl fuel rest Hfuel Hrest;
    (destruct fuel as [ | fuel ]; [ lia | ]).
  - reflexivity.
  - destruct b; reflexivity.
  - now apply decode_encode_int.
  - now apply decode_encode_float.
  - now apply decode_encode_str.
  - destruct l as [ | x l ]; [ reflexivity | ].
    inversion IH as [ | ? ? Hx Hl ]; subst.
    simpl in Hwf. apply andb_true_iff in Hwf as [Hwx Hwl].
    rewrite encode_list_append. rewrite encode_list_cons, !append_length in Hfuel.
    pose proof (newline_indent_length (S lvl)).
    change (String.length "[") with 1 in Hfuel.
    assert (Hhead : value_head
              (join (separator lvl) (map (encode (S lvl)) (x :: l))
                 ++ newline_indent lvl ++ String "]" rest) = true).
    { change (map (encode (S lvl)) (x :: l))
        with (encode (S lvl) x :: map (encode (S lvl)) l).
      destruct (map (encode (S lvl)) l); simpl join; rewrite ?append_assoc;
        apply value_head_append, encode_head, Hwx. }
    eapply decode_list_items.
    + rewrite skip_ws_newline_indent. now apply skip_ws_value.
    + exact Hhead.
    + apply items_read_back; auto. lia.
  - destruct d as [ | [k v] d ]; [ reflexivity | ].
    inversion IH as [ | ? ? Hv Hd ]; subst.
    pose proof Hwf as Hwf'.
    cbn [well_formed forallb fst snd] in Hwf. apply andb_true_iff in Hwf as [Hnd Hwf].
    apply andb_true_iff in Hwf as [Hwkv Hwd].
    apply andb_true_iff in Hwkv as [Hk Hwv].
    rewrite encode_dict_append. rewrite encode_dict_cons, !append_length in Hfuel.
    pose proof (newline_indent_length (S lvl)).
    change (String.length "{") with 1 in Hfuel.
    rewrite <- (dict_of_pairs_id ((k, v) :: d)) at 2 by exact Hnd.
    destruct (members_head lvl (k, v) d (newline_indent lvl ++ String "}" rest))
      as [t' Et'].
    eapply decode_dict_members.
    + rewrite skip_ws_newline_indent, Et'. apply skip_ws_value, value_head_dquote.
    + rewrite <- Et'.
      apply (members_read_back lvl d Hd Hwd (k, v)); auto. lia.
Qed.

(** [json.loads(json.dumps(v, indent=2)) == v] *)
Lemma loads_dumps v : well_formed v = true -> loads (dumps v) = Some v.
Proof.
  intros Hwf. unfold loads, dumps.
  rewrite skip_ws_value by now apply encode_head.
  rewrite <- (append_nil_r (encode 0 v)) at 2.
  rewrite (encode_reads_back v Hwf 0 _ ""); [ reflexivity | lia | reflexivity ].
Qed.

(** What Python writes and reads, on texts beyond ASCII and on numbers. *)
Example dumps_escapes_code_points :
  dumps (PyStr ("Hawaiʻi 🦅" ++ Utf8.encode 127))
  = q "`Hawai\u02bbi \ud83e\udd85\u007f`".
Proof. vm_compute. reflexivity. Qed.

Example loads_reads_python_text :
  loads (q "[`Hawai\u02bbi \ud83e\udd85`, `\ud83eA`, `\uD83E\u00e9`, 1.50, 1e22, 1E400, -0.0, 12345678901234567890, 0.1e-6]")
  = Some (PyList [PyStr "Hawaiʻi 🦅";
                  PyStr (Utf8.encode 55358 ++ "A");
                  PyStr (Utf8.encode 55358 ++ "é");
                  PyFloat "1.5"; PyFloat "1e+22"; PyFloat "inf"; PyFloat "-0.0";
                  PyInt 12345678901234567890; PyFloat "1e-07"]).
Proof. vm_compute. reflexivity. Qed.

Example repr_of_texts :
  repr (PyList [PyStr "Hawaiʻi"; PyStr ("a" ++ Utf8.encode 128);
                PyStr (Utf8.encode 55358); PyStr (Utf8.encode 888); PyStr "it's";
                PyStr (Utf8.encode 917505); PyStr (Utf8.encode 127); PyStr "é"])
  = "['Hawaiʻi', 'a\x80', '\ud83e', '\u0378', " ++ q "`it's`"
      ++ ", '\U000e0001', '\x7f', 'é']".
Proof. vm_compute. reflexivity. Qed.

(* ===================================================================== *)
(** ** The loop of [main] *)
(* ===================================================================== *)

Section Loop.

Variable env : Env.
Variable api_key : string.
Variable config : list (string * value).

Lemma fetch_spec code days_back max_results w :
  fetch_notable_observations env api_key code days_back max_results w
  = (sending (notable_request api_key code days_back max_results) w,
     fetch_result env (List.length (sent w))
       (notable_request api_key code days_back max_results)).
Proof.
  unfold fetch_notable_observations, fetch_result, mbind, requests_get, lift, sending,
    notable_request.
  destruct (http_get env _ _) as [response | e]; simpl; [ | reflexivity ].
  destruct (raise_for_status response); reflexivity.
Qed.

Lemma format_all_raise items e : format_all items = Raise e -> e = AttributeError.
Proof.
  induction items as [ | obs items IH ]; simpl; [ discriminate | ].
  destruct obs; simpl; try (intros H; injection H as <-; reflexivity).
  rewrite format_observation_dict. simpl.
  destruct (format_all items); simpl; [ discriminate | ].
  intros H. injection H as <-. now apply IH.
Qed.

Lemma iter_raise v e : iter v = Raise e -> e = TypeError.
Proof. destruct v; simpl; intros H; try discriminate; now injection H as <-. Qed.

(** One pass of the loop on a region with a code and a name. *)
Lemma process_region_spec region code name acc w :
  subscript region "code" = Ok code ->
  subscript region "name" = Ok name ->
  let r := region_request api_key config code in
  let w1 := sending r (printing ("Fetching notable observations for " ++ str name
                                   ++ " (" ++ str code ++ ")...") w) in
  process_region env api_key (PyDict config) region acc w =
    match fetch_result env (List.length (sent w)) r with
    | Raise (HTTPError msg) =>
        (printing ("  Error fetching " ++ str code ++ ": " ++ msg) w1,
         Ok (acc ++ [error_entry code name msg])%list)
    | Raise e => (w1, Raise e)
    | Ok raw_obs =>
        match items <- iter raw_obs ;; format_all items with
        | Ok formatted =>
            (printing ("  Found " ++ str_of_nat (List.length formatted)
                         ++ " notable sightings") w1,
             Ok (acc ++ [success_entry code name formatted])%list)
        | Raise e => (w1, Raise e)
        end
    end.
Proof.
  intros Hc Hn r w1. subst r w1.
  unfold process_region, try_region, except_http, mbind, lift, region_request.
  rewrite Hc, Hn. cbn [get print]. rewrite fetch_spec.
  cbn [sending printing sent stdout dirs files List.length].
  match goal with
  | |- context [fetch_result ?e ?n ?r] => destruct (fetch_result e n r) as [raw_obs | e']
  end.
  - destruct (iter raw_obs) as [items | e'] eqn:Ei; cbn [rbind].
    + destruct (format_all items) as [formatted | e'] eqn:Ef.
      * reflexivity.
      * rewrite (format_all_raise _ _ Ef). reflexivity.
    + rewrite (iter_raise _ _ Ei). reflexivity.
  - destruct e'; reflexivity.
Qed.

Lemma process_region_no_name region acc w e :
  subscript region "name" = Raise e ->
  process_region env api_key (PyDict config) region acc w = (w, Raise e).
Proof. intros H. unfold process_region, mbind, lift. now rewrite H. Qed.

Lemma process_region_no_code region name acc w e :
  subscript region "name" = Ok name ->
  subscript region "code" = Raise e ->
  process_region env api_key (PyDict config) region acc w = (w, Raise e).
Proof. intros Hn H. unfold process_region, mbind, lift. now rewrite Hn, H. Qed.

(** What one pass does to the world, whatever its outcome: at most one
    request more, the one of the region, and no file touched. *)
Lemma process_region_world region acc w :
  let w' := fst (process_region env api_key (PyDict config) region acc w) in
  dirs w' = dirs w /\ files w' = files w
  /\ (sent w' = sent w
      \/ exists code, sent w' = (sent w ++ [region_request api_key config code])%list).
Proof.
  destruct (subscript region "name") as [name | e] eqn:Hn.
  2: { rewrite (process_region_no_name _ _ _ _ Hn). simpl. auto. }
  destruct (subscript region "code") as [code | e] eqn:Hc.
  2: { rewrite (process_region_no_code _ _ _ _ _ Hn Hc). simpl. auto. }
  rewrite (process_region_spec _ _ _ _ _ Hc Hn). cbv zeta.
  destruct (fetch_result env _ _) as [raw_obs | e].
  - destruct (items <- iter raw_obs ;; format_all items); simpl;
      (split; [ reflexivity | split; [ reflexivity | right; now exists code ] ]).
  - destruct e; simpl;
      (split; [ reflexivity | split; [ reflexivity | right; now exists code ] ]).
Qed.

(** A pass that returns has appended the entry of its region. *)
Lemma process_region_ok region acc w w' out :
  process_region env api_key (PyDict config) region acc w = (w', Ok out) ->
  exists entry,
    out = (acc ++ [entry])%list
    /\ entry_for env api_key config (List.length (sent w)) region entry
    /\ List.length (sent w') = S (List.length (sent w)).
Proof.
  intros H.
  destruct (subscript region "name") as [name | e] eqn:Hn.
  2: { rewrite (process_region_no_name _ _ _ _ Hn) in H. discriminate. }
  destruct (subscript region "code") as [code | e] eqn:Hc.
  2: { rewrite (process_region_no_code _ _ _ _ _ Hn Hc) in H. discriminate. }
  rewrite (process_region_spec _ _ _ _ _ Hc Hn) in H. cbv zeta in H.
  unfold entry_for.
  destruct (fetch_result env _ _) as [raw_obs | e] eqn:Ef.
  - destruct (iter raw_obs) as [items | e] eqn:Ei; simpl in H; [ | discriminate ].
    destruct (format_all items) as [formatted | e] eqn:Efa; [ | discriminate ].
    injection H as <- <-. eexists. split; [ reflexivity | ]. split.
    + exists code, name. rewrite Ef.
      split; [ exact Hc | split; [ exact Hn | exists items, formatted; auto ] ].
    + simpl. rewrite length_app. simpl. lia.
  - destruct e; try discriminate. injection H as <- <-.
    eexists. split; [ reflexivity | ]. split.
    + exists code, name. rewrite Ef. auto.
    + simpl. rewrite length_app. simpl. lia.
Qed.

(** A loop that returns has appended one entry per region, in order, the
    [i]-th from the [i]-th request it sent. *)
Lemma process_regions_ok regions :
  forall acc w w' out,
    process_regions env api_key (PyDict config) regions acc w = (w', Ok out) ->
    exists entries,
      out = (acc ++ entries)%list
      /\ entries_from env api_key config (List.length (sent w)) regions entries
      /\ List.length (sent w') = List.length (sent w) + List.length regions
      /\ dirs w' = dirs w /\ files w' = files w.
Proof.
  induction regions as [ | region regions IH ]; intros acc w w' out H.
  - injection H as <- <-. exists []. rewrite app_nil_r.
    repeat split; [ constructor | simpl; lia ].
  - simpl in H. unfold mbind in H.
    pose proof (process_region_world region acc w) as Hw. cbv zeta in Hw.
    destruct (process_region env api_key (PyDict config) region acc w)
      as [w1 [out1 | e]] eqn:E; [ | discriminate ].
    destruct (process_region_ok _ _ _ _ _ E) as [entry [-> [Hentry Hlen]]].
    destruct (IH _ _ _ _ H) as [entries [-> [Hentries [Hlen' [Hd Hf]]]]].
    simpl in Hw. destruct Hw as [Hd1 [Hf1 _]].
    exists (entry :: entries). rewrite <- app_assoc. simpl.
    repeat split.
    + constructor; [ exact Hentry | ]. now rewrite <- Hlen.
    + lia.
    + congruence.
    + congruence.
Qed.



(** Every request of the loop carries the window of the configuration. *)
Lemma process_regions_requests regions :
  forall acc w,
    Forall (carries_window config) (sent w) ->
    Forall (carries_window config)
      (sent (fst (process_regions env api_key (PyDict config) regions acc w))).
Proof.
  induction regions as [ | region regions IH ]; intros acc w Hw; [ exact Hw | ].
  simpl. unfold mbind.
  pose proof (process_region_world region acc w) as Hw1. cbv zeta in Hw1.
  destruct (process_region env api_key (PyDict config) region acc w)
    as [w1 [out1 | e]] eqn:E; simpl in Hw1; destruct Hw1 as [_ [_ Hs]].
  - apply IH. destruct Hs as [-> | [code ->]]; [ exact Hw | ].
    apply Forall_app. split; [ exact Hw | ]. repeat constructor.
  - simpl. destruct Hs as [-> | [code ->]]; [ exact Hw | ].
    apply Forall_app. split; [ exact Hw | ]. repeat constructor.
Qed.

Lemma format_all_dicts items :
  Forall is_dict items -> exists formatted, format_all items = Ok formatted.
Proof.
  induction 1 as [ | obs items [d ->] _ [formatted IH] ]; simpl.
  - now exists [].
  - rewrite format_observation_dict, IH. simpl. eauto.
Qed.

(** When every region has a code and a name and every fetch answers with an
    array of objects or fails with an HTTP error, the loop returns. *)
Lemma process_regions_returns regions :
  Forall is_region regions ->
  (forall n r, answers_or_http_error (fetch_result env n r)) ->
  forall acc w,
  exists w' out, process_regions env api_key (PyDict config) regions acc w = (w', Ok out).
Proof.
  intros Hregions Hfetch.
  induction Hregions as [ | region regions [code [name [Hc Hn]]] _ IH ]; intros acc w.
  - now exists w, acc.
  - simpl. unfold mbind.
    rewrite (process_region_spec _ _ _ _ _ Hc Hn). cbv zeta.
    destruct (Hfetch (List.length (sent w)) (region_request api_key config code))
      as [[msg ->] | [items [-> Hitems]]].
    + apply IH.
    + simpl. destruct (format_all_dicts _ Hitems) as [formatted ->]. apply IH.
Qed.

End Loop.

(* ===================================================================== *)
(** ** The whole run *)
(* ===================================================================== *)

(** A formatted observation has every key the page reads. *)
Lemma render_formatted obs o :
  format_observation obs = Ok o -> exists item, render_observation o = Ok item.
Proof.
  destruct obs; try discriminate. rewrite format_observation_dict.
  intros H. injection H as <-.
  unfold render_observation. cbn [subscript dict_get String.eqb Ascii.eqb Bool.eqb rbind].
  repeat match goal with
         | |- context [if ?b then _ else _] => destruct b; cbn [rbind]
         end; eauto.
Qed.

Lemma render_all_formatted items :
  forall formatted acc,
    format_all items = Ok formatted ->
    exists obs_html, render_observations acc formatted = Ok obs_html.
Proof.
  induction items as [ | obs items IH ]; simpl; intros formatted acc H.
  - injection H as <-. simpl. eauto.
  - destruct (format_observation obs) as [o | e] eqn:Eo; simpl in H; [ | discriminate ].
    destruct (format_all items) as [os | e] eqn:Eos; simpl in H; [ | discriminate ].
    injection H as <-. simpl.
    destruct (render_formatted _ _ Eo) as [item ->]. simpl. now apply IH.
Qed.

Lemma render_entry env api_key config n region entry :
  entry_for env api_key config n region entry ->
  exists section, render_region entry = Ok section.
Proof.
  intros [code [name [_ [_ H]]]].
  destruct (fetch_result env n _) as [raw_obs | e].
  - destruct H as [items [formatted [_ [Hf ->]]]].
    unfold render_region, success_entry. simpl.
    destruct formatted as [ | o l ]; simpl; [ eauto | ].
    destruct (render_all_formatted _ _ "" Hf) as [obs_html E].
    simpl in E. rewrite E. simpl. eauto.
  - destruct e; try contradiction. subst entry.
    unfold render_region, error_entry. simpl. eauto.
Qed.

(** The page of a run's entries can always be written. *)
Lemma generate_html_entries env api_key config regions :
  forall n entries acc,
    entries_from env api_key config n regions entries ->
    exists regions_html, render_regions acc entries = Ok regions_html.
Proof.
  induction regions as [ | region regions IH ]; intros n entries acc H;
    inversion H; subst; simpl; [ eauto | ].
  match goal with
  | He : entry_for _ _ _ _ _ _ |- _ => destruct (render_entry _ _ _ _ _ _ He) as [section ->]
  end.
  simpl. eapply IH. eassumption.
Qed.

(** What a run that returns has read and written. *)
Lemma main_ok env w :
  main env initial = (w, Ok tt) ->
  exists api_key config regions_v regions results html,
    environ env "EBIRD_API_KEY" = Some api_key /\ api_key <> ""
    /\ config_json env = Ok (PyDict config)
    /\ dict_get config "regions" = Some regions_v
    /\ iter regions_v = Ok regions
    /\ entries_from env api_key config 0 regions results
    /\ List.length (sent w) = List.length regions
    /\ generate_html results (PyDict config) (strftime (utcnow env)) = Ok html
    /\ files w =
         [(data_path env,
            Json.dumps (json_output (strftime (utcnow env)) (PyDict config) results));
          (index_path env, html)].
Proof.
  unfold main. intros H.
  destruct (environ env "EBIRD_API_KEY") as [[ | c k] | ] eqn:Ek; try discriminate.
  set (api_key := String c k) in *.
  unfold mbind, load_config, lift in H.
  destruct (config_json env) as [[ | | | | | | config] | e] eqn:Ec; try discriminate.
  simpl subscript in H.
  destruct (dict_get config "regions") as [regions_v | ] eqn:Er; [ | discriminate ].
  destruct (iter regions_v) as [regions | e] eqn:Ei; [ | discriminate ].
  destruct (process_regions env api_key (PyDict config) regions [] initial)
    as [w1 [results | e]] eqn:Ep; [ | discriminate ].
  destruct (process_regions_ok _ _ _ _ _ _ _ _ Ep) as [entries [E [He [Hl [Hd Hf]]]]].
  simpl in E. subst entries.
  unfold mkdir_exist_ok, write_file, print in H.
  destruct (mkdir env _); [ discriminate | ].
  cbn [files dirs sent stdout] in H.
  destruct (open_w env _); [ discriminate | ].
  destruct (generate_html results (PyDict config) _) as [html | e] eqn:Eh; [ | discriminate ].
  cbn [files dirs sent stdout] in H.
  destruct (open_w env _); [ discriminate | ].
  injection H as <-.
  exists api_key, config, regions_v, regions, results, html.
  cbn [files dirs sent stdout]. rewrite Hf, Hl. simpl.
  repeat split; auto. discriminate.
Qed.

(** A run returns when the key is set, the configuration is an object with
    a list of regions, every fetch answers or fails with an HTTP error, and
    the output directory can be written. *)
Lemma main_returns env api_key config regions :
  environ env "EBIRD_API_KEY" = Some api_key -> api_key <> "" ->
  config_json env = Ok (PyDict config) ->
  dict_get config "regions" = Some (PyList regions) ->
  Forall is_region regions ->
  (forall n r, answers_or_http_error (fetch_result env n r)) ->
  (forall path, mkdir env path = None) ->
  (forall path, open_w env path = None) ->
  exists w, main env initial = (w, Ok tt).
Proof.
  intros Hk Hne Hc Hr Hregions Hfetch Hmkdir Hopen.
  unfold main. rewrite Hk.
  destruct api_key as [ | c k ]; [ contradiction | ].
  set (api_key := String c k) in *.
  unfold mbind, load_config, lift. rewrite Hc. simpl subscript. rewrite Hr. simpl iter.
  destruct (process_regions_returns env api_key config regions Hregions Hfetch [] initial)
    as [w1 [results Ep]].
  rewrite Ep.
  destruct (process_regions_ok _ _ _ _ _ _ _ _ Ep) as [entries [E [He _]]].
  simpl in E. subst entries.
  unfold mkdir_exist_ok, write_file, print. rewrite Hmkdir, Hopen.
  destruct (generate_html_entries _ _ _ _ _ _ "" He) as [regions_html Eh].
  unfold generate_html. rewrite Eh. simpl. rewrite Hopen. eauto.
Qed.


(** The paths of the two files, as pathlib prints them. *)
Example paths_of_the_files :
  path_join (path_join "/srv/ebird" "docs") "data.json" = "/srv/ebird/docs/data.json"
  /\ path_join (path_join "/" "docs") "data.json" = "/docs/data.json"
  /\ path_join (path_join "." "docs") "index.html" = "docs/index.html".
Proof. repeat split. Qed.

Lemma entries_from_length env api_key config n regions entries :
  entries_from env api_key config n regions entries ->
  List.length entries = List.length regions.
Proof. induction 1; simpl; congruence. Qed.

Lemma entries_from_nth env api_key config n regions entries :
  entries_from env api_key config n regions entries ->
  forall i region,
    nth_error regions i = Some region ->
    exists entry,
      nth_error entries i = Some entry
      /\ entry_for env api_key config (n + i) region entry.
Proof.
  induction 1 as [ | n region entry regions entries He _ IH ]; intros i r Hi.
  - destruct i; discriminate.
  - destruct i as [ | i ]; simpl in Hi.
    + injection Hi as <-. exists entry. rewrite Nat.add_0_r. now split.
    + destruct (IH i r Hi) as [e [Hn Hf]]. exists e. split; [ exact Hn | ].
      now rewrite Nat.add_succ_r.
Qed.

Lemma append_not_empty a c b : a ++ String c b <> "".
Proof. destruct a; discriminate. Qed.


Lemma main_requests env config :
  config_json env = Ok (PyDict config) ->
  Forall (carries_window config) (sent (fst (main env initial))).
Proof.
  intros Hc. unfold main.
  destruct (environ env "EBIRD_API_KEY") as [[ | c k] | ]; try (simpl; constructor).
  set (api_key := String c k).
  unfold mbind, load_config, lift. rewrite Hc. simpl subscript.
  destruct (dict_get config "regions") as [regions_v | ]; [ | constructor ].
  destruct (iter regions_v) as [regions | e]; [ | constructor ].
  pose proof (process_regions_requests env api_key config regions [] initial
                (Forall_nil _)) as H.
  destruct (process_regions env api_key (PyDict config) regions [] initial)
    as [w1 [results | e]]; simpl in H; [ | exact H ].
  unfold mkdir_exist_ok, write_file, print.
  destruct (mkdir env _); [ exact H | ].
  cbn [files dirs sent stdout].
  destruct (open_w env _); [ destruct (written env _); exact H | ].
  destruct (generate_html results (PyDict config) _); [ | exact H ].
  cbn [files dirs sent stdout].
  destruct (open_w env _); [ destruct (written env _); exact H | exact H ].
Qed.

(* ===================================================================== *)
(** ** Properties of [main] *)
(* ===================================================================== *)

(** C1. The entries of the RunOutput follow the regions of the configuration.
    Whenever a run returns, the document it wrote to [data.json] holds one
    entry per configured region, in the configured order, the [i]-th with
    the code and the name of the [i]-th region; and a run does return
    whichever fetches succeed (with an array of objects) and whichever fail
    with an HTTP error. *)
Theorem region_results_follow_configuration :
  forall env config regions,
    config_json env = Ok (PyDict config) ->
    dict_get config "regions" = Some (PyList regions) ->
    (forall w,
        main env initial = (w, Ok tt) ->
        exists results html,
          files w =
            [(data_path env,
               Json.dumps (json_output (strftime (utcnow env)) (PyDict config) results));
             (index_path env, html)]
          /\ List.length results = List.length regions
          /\ forall i region,
               nth_error regions i = Some region ->
               exists entry code name,
                 nth_error results i = Some entry
                 /\ subscript region "code" = Ok code
                 /\ subscript entry "code" = Ok code
                 /\ subscript region "name" = Ok name
                 /\ subscript entry "name" = Ok name)
    /\ (forall api_key,
          environ env "EBIRD_API_KEY" = Some api_key -> api_key <> "" ->
          Forall is_region regions ->
          (forall n r, answers_or_http_error (fetch_result env n r)) ->
          (forall path, mkdir env path = None) ->
          (forall path, open_w env path = None) ->
          exists w, main env initial = (w, Ok tt)).
Proof.
  intros env config regions Hc Hr. split.
  - intros w Hmain.
    destruct (main_ok _ _ Hmain)
      as [api_key [config' [regions_v [regions' [results [html H]]]]]].
    destruct H as [_ [_ [Hc' [Hr' [Hi [He [_ [_ Hf]]]]]]]].
    rewrite Hc in Hc'. injection Hc' as <-.
    rewrite Hr in Hr'. injection Hr' as <-. simpl in Hi. injection Hi as <-.
    exists results, html. split; [ exact Hf | ].
    split; [ eapply entries_from_length; eassumption | ].
    intros i region Hn.
    destruct (entries_from_nth _ _ _ _ _ _ He i region Hn)
      as [entry [Hentry [code [name [Hcode [Hname Hfetch]]]]]].
    exists entry, code, name. split; [ exact Hentry | ].
    split; [ exact Hcode | ].
    destruct (fetch_result env _ _) as [raw_obs | e].
    + destruct Hfetch as [items [formatted [_ [_ ->]]]]. auto.
    + destruct e; try contradiction. subst entry. auto.
  - intros api_key Hk Hne Hregions Hfetch Hmkdir Hopen.
    eapply main_returns; eassumption.
Qed.

Lemma two_regions_are_regions : Forall is_region two_regions.
Proof. repeat constructor; do 2 eexists; split; reflexivity. Qed.

Lemma two_regions_env_answers n r :
  answers_or_http_error (fetch_result two_regions_env n r).
Proof.
  destruct n as [ | n ].
  - left. eexists. reflexivity.
  - right. eexists. split; [ reflexivity | ].
    repeat constructor. eexists. reflexivity.
Qed.

Lemma region_results_follow_configuration_witness :
  exists w results html,
    main two_regions_env initial = (w, Ok tt)
    /\ files w =
         [(data_path two_regions_env,
            Json.dumps (json_output (strftime (utcnow two_regions_env))
                          (PyDict two_regions_config) results));
          (index_path two_regions_env, html)]
    /\ List.length results = 2
    /\ (exists entry, nth_error results 1 = Some entry
                      /\ subscript entry "code" = Ok (PyStr "US-CA")
                      /\ subscript entry "name" = Ok (PyStr "California")).
Proof.
  destruct (region_results_follow_configuration two_regions_env two_regions_config
              two_regions eq_refl eq_refl) as [Hshape Hreturns].
  destruct (Hreturns "secret" eq_refl ltac:(discriminate) two_regions_are_regions
              two_regions_env_answers (fun _ => eq_refl) (fun _ => eq_refl)) as [w Hw].
  destruct (Hshape w Hw) as [results [html [Hf [Hl Hnth]]]].
  exists w, results, html.
  split; [ exact Hw | ]. split; [ exact Hf | ]. split; [ exact Hl | ].
  destruct (Hnth 1 _ eq_refl) as [entry [code [name [He [Hc [Hc' [Hn Hn']]]]]]].
  exists entry. split; [ exact He | ].
  simpl in Hc, Hn. injection Hc as <-. injection Hn as <-. now split.
Defined.




(** C5 (as amended). [load_config] returns the descriptor as it was parsed and
    defaults nothing; the defaults are applied where [main] calls the
    fetcher: every request of a run carries [back] and [maxResults], each
    with the value of the configuration when it has one and with 7 and 100
    when it has none. *)
Theorem window_defaults_at_fetch :
  forall env config,
    config_json env = Ok (PyDict config) ->
    load_config env initial = (initial, Ok (PyDict config))
    /\ Forall (fun r =>
                 dict_get (req_params r) "back"
                   = Some (match dict_get config "days_back" with
                           | Some v => v
                           | None => PyInt 7
                           end)
                 /\ dict_get (req_params r) "maxResults"
                   = Some (match dict_get config "max_results" with
                           | Some v => v
                           | None => PyInt 100
                           end))
         (sent (fst (main env initial))).
Proof.
  intros env config Hc. split.
  - unfold load_config, lift. now rewrite Hc.
  - exact (main_requests env config Hc).
Qed.

Lemma window_defaults_at_fetch_witness :
  load_config two_regions_env initial = (initial, Ok (PyDict two_regions_config))
  /\ List.length (sent (fst (main two_regions_env initial))) = 2
  /\ Forall (fun r =>
               dict_get (req_params r) "back" = Some (PyInt 7)
               /\ dict_get (req_params r) "maxResults" = Some (PyInt 100))
       (sent (fst (main two_regions_env initial))).
Proof.
  destruct (window_defaults_at_fetch two_regions_env two_regions_config eq_refl)
    as [Hload Hsent].
  split; [ exact Hload | ]. split; [ vm_compute; reflexivity | exact Hsent ].
Defined.

(** C5 as first written fails: the configuration [load_config] returns for a
    descriptor without a window has neither of the two keys. *)
Lemma load_config_defaults_nothing :
  exists config,
    load_config two_regions_env initial = (initial, Ok config)
    /\ has_key config "days_back" = false
    /\ has_key config "max_results" = false
    /\ subscript config "days_back" = Raise (KeyError "days_back")
    /\ subscript config "max_results" = Raise (KeyError "max_results").
Proof.
  exists (PyDict two_regions_config). repeat split.
Qed.

(** C9. In the document of a run that returned, the entry of a region has an
    [error] key exactly when the fetch of that region raised an HTTP error;
    the entry of a region whose fetch succeeded has no such key at all. *)
Theorem error_key_iff_http_error :
  forall env w api_key config regions,
    environ env "EBIRD_API_KEY" = Some api_key ->
    config_json env = Ok (PyDict config) ->
    dict_get config "regions" = Some (PyList regions) ->
    main env initial = (w, Ok tt) ->
    exists results html,
      files w =
        [(data_path env,
           Json.dumps (json_output (strftime (utcnow env)) (PyDict config) results));
         (index_path env, html)]
      /\ forall i region code,
           nth_error regions i = Some region ->
           subscript region "code" = Ok code ->
           exists entry,
             nth_error results i = Some entry
             /\ (has_key entry "error" = true <->
                 exists msg,
                   fetch_result env i (region_request api_key config code)
                   = Raise (HTTPError msg))
             /\ (forall raw_obs,
                   fetch_result env i (region_request api_key config code) = Ok raw_obs ->
                   has_key entry "error" = false
                   /\ subscript entry "error" = Raise (KeyError "error")).
Proof.
  intros env w api_key config regions Hk Hc Hr Hmain.
  destruct (main_ok _ _ Hmain)
    as [api_key' [config' [regions_v [regions' [results [html H]]]]]].
  destruct H as [Hk' [_ [Hc' [Hr' [Hi [He [_ [_ Hf]]]]]]]].
  rewrite Hk in Hk'. injection Hk' as <-.
  rewrite Hc in Hc'. injection Hc' as <-.
  rewrite Hr in Hr'. injection Hr' as <-. simpl in Hi. injection Hi as <-.
  exists results, html. split; [ exact Hf | ].
  intros i region code Hn Hcode.
  destruct (entries_from_nth _ _ _ _ _ _ He i region Hn)
    as [entry [Hentry [code' [name [Hcode' [Hname Hres]]]]]].
  rewrite Hcode in Hcode'. injection Hcode' as <-.
  exists entry. split; [ exact Hentry | ]. simpl in Hres.
  destruct (fetch_result env i (region_request api_key config code)) as [raw_obs | e].
  - destruct Hres as [items [formatted [_ [_ ->]]]]. split.
    + split; [ discriminate | intros [msg Hmsg]; discriminate ].
    + intros _ _. split; reflexivity.
  - destruct e; try contradiction. subst entry. split.
    + split; [ intros _; eexists; reflexivity | reflexivity ].
    + discriminate.
Qed.

Lemma error_key_iff_http_error_witness :
  exists w results html,
    main two_regions_env initial = (w, Ok tt)
    /\ files w =
         [(data_path two_regions_env,
            Json.dumps (json_output (strftime (utcnow two_regions_env))
                          (PyDict two_regions_config) results));
          (index_path two_regions_env, html)]
    /\ (exists failed, nth_error results 0 = Some failed
                       /\ has_key failed "error" = true)
    /\ (exists answered, nth_error results 1 = Some answered
                         /\ has_key answered "error" = false).
Proof.
  destruct (main_returns two_regions_env "secret" two_regions_config two_regions
              eq_refl ltac:(discriminate) eq_refl eq_refl two_regions_are_regions
              two_regions_env_answers (fun _ => eq_refl) (fun _ => eq_refl)) as [w Hw].
  destruct (error_key_iff_http_error two_regions_env w "secret" two_regions_config
              two_regions eq_refl eq_refl eq_refl Hw) as [results [html [Hf Hnth]]].
  exists w, results, html. split; [ exact Hw | ]. split; [ exact Hf | ]. split.
  - destruct (Hnth 0 _ (PyStr "US-NY") eq_refl eq_refl) as [entry [He [Hiff _]]].
    exists entry. split; [ exact He | ]. apply Hiff. eexists. reflexivity.
  - destruct (Hnth 1 _ (PyStr "US-CA") eq_refl eq_refl) as [entry [He [_ Hok]]].
    exists entry. split; [ exact He | ]. eapply Hok. reflexivity.
Defined.

(* ===================================================================== *)
(** ** The round trip of [data.json] *)
(* ===================================================================== *)

(** *** The text of a value is a text *)

Lemma number_char_ascii c : is_number_char c = true -> Utf8.is_ascii c = true.
Proof.
  destruct c as [[|] [|] [|] [|] [|] [|] [|] [|]]; try discriminate; reflexivity.
Qed.

Lemma str_of_Z_clean z : Utf8.clean (str_of_Z z) = true.
Proof.
  apply ascii_clean.
  exact (all_chars_weaken _ _ _ number_char_ascii (str_of_Z_number_chars z)).
Qed.

Lemma float_repr_clean r : is_float_repr r = true -> Utf8.clean r = true.
Proof.
  unfold is_float_repr. intros H.
  destruct (String.eqb r "nan") eqn:E1;
    [ apply String.eqb_eq in E1; subst r; reflexivity | ].
  destruct (String.eqb r "inf") eqn:E2;
    [ apply String.eqb_eq in E2; subst r; reflexivity | ].
  destruct (String.eqb r "-inf") eqn:E3;
    [ apply String.eqb_eq in E3; subst r; reflexivity | ].
  cbn [orb] in H. apply andb_true_iff in H as [H _].
  apply ascii_clean.
  exact (all_chars_weaken _ _ _ number_char_ascii (float_token_chars _ H)).
Qed.

Lemma hex_digit_ascii d : Utf8.is_ascii (hex_digit d) = true.
Proof.
  destruct d as [ | p ]; [ reflexivity | ].
  do 4 (try destruct p as [ p | p | ]); reflexivity.
Qed.

Lemma hex2_clean n : Utf8.clean (hex2 n) = true.
Proof. apply ascii_clean. unfold hex2. simpl. now rewrite !hex_digit_ascii. Qed.

Lemma hex4_clean n : Utf8.clean (hex4 n) = true.
Proof. unfold hex4. apply clean_append; apply hex2_clean. Qed.

Lemma hex8_clean n : Utf8.clean (hex8 n) = true.
Proof. unfold hex8. apply clean_append; apply hex4_clean. Qed.

Lemma clean_cons c s : Utf8.is_ascii c = true -> Utf8.clean s = true ->
  Utf8.clean (String c s) = true.
Proof.
  intros Hc Hs. change (String c s) with (String c "" ++ s).
  apply clean_append; [ | exact Hs ]. apply ascii_clean. simpl. now rewrite Hc.
Qed.

(** A printable code point is a code point and no surrogate. *)
Lemma printable_ranges_sound :
  forallb (fun r => (N.ltb (snd r) 55296 || N.ltb 57343 (fst r)) && N.ltb (snd r) 1114112)
    printable_ranges = true.
Proof. vm_compute. reflexivity. Qed.

Lemma printable_code_point n :
  printable n = true -> Utf8.is_code_point n = true /\ Utf8.is_surrogate n = false.
Proof.
  unfold printable. intros H. apply existsb_exists in H as [[lo hi] [HIn H]].
  pose proof printable_ranges_sound as S. rewrite forallb_forall in S.
  specialize (S _ HIn). simpl in *.
  apply andb_true_iff in H as [H1 H2]. apply N.leb_le in H1, H2.
  apply andb_true_iff in S as [S1 S2]. apply N.ltb_lt in S2.
  unfold Utf8.is_code_point, Utf8.is_surrogate. split.
  - apply N.ltb_lt. lia.
  - apply orb_true_iff in S1 as [S1 | S1]; apply N.ltb_lt in S1.
    + replace (N.leb 55296 n) with false by (symmetry; apply N.leb_gt; lia). reflexivity.
    + replace (N.ltb n 57344) with false by (symmetry; apply N.ltb_ge; lia).
      apply andb_false_r.
Qed.

Lemma repr_code_clean quote n : Utf8.clean (repr_code quote n) = true.
Proof.
  unfold repr_code.
  destruct (N.eqb n (Utf8.code quote) || N.eqb n 92) eqn:E1.
  { apply clean_cons; [ reflexivity | ].
    assert (Hn : (n < 256)%N).
    { apply orb_true_iff in E1 as [E | E]; apply N.eqb_eq in E; subst.
      - apply code_bound.
      - lia. }
    apply encode_clean.
    - unfold Utf8.is_code_point. apply N.ltb_lt. lia.
    - unfold Utf8.is_surrogate.
      replace (N.leb 55296 n) with false by (symmetry; apply N.leb_gt; lia). reflexivity. }
  destruct (N.eqb n 9); [ reflexivity | ].
  destruct (N.eqb n 10); [ reflexivity | ].
  destruct (N.eqb n 13); [ reflexivity | ].
  destruct (N.ltb n 32 || N.eqb n 127);
    [ do 2 (apply clean_cons; [ reflexivity | ]); apply hex2_clean | ].
  destruct (N.ltb n 127) eqn:E2.
  { apply N.ltb_lt in E2. apply encode_clean.
    - unfold Utf8.is_code_point. apply N.ltb_lt. lia.
    - unfold Utf8.is_surrogate.
      replace (N.leb 55296 n) with false by (symmetry; apply N.leb_gt; lia). reflexivity. }
  destruct (printable n) eqn:E3.
  { destruct (printable_code_point _ E3). now apply encode_clean. }
  destruct (N.ltb n 256);
    [ do 2 (apply clean_cons; [ reflexivity | ]); apply hex2_clean | ].
  destruct (N.ltb n 65536);
    [ do 2 (apply clean_cons; [ reflexivity | ]); apply hex4_clean | ].
  do 2 (apply clean_cons; [ reflexivity | ]). apply hex8_clean.
Qed.

Lemma repr_str_clean s : Utf8.clean (repr_str s) = true.
Proof.
  unfold repr_str, repr_chars.
  set (quote := if has_char squote s && negb (has_char dquote s) then dquote else squote).
  assert (Hq : Utf8.is_ascii quote = true) by (subst quote; now destruct (_ && _)).
  apply clean_cons; [ exact Hq | ].
  induction (Utf8.decode s) as [ | n l IH ]; simpl.
  - apply clean_cons; [ exact Hq | reflexivity ].
  - rewrite append_assoc. apply clean_append; [ apply repr_code_clean | exact IH ].
Qed.

Lemma join_clean sep l :
  Utf8.clean sep = true -> Forall (fun s => Utf8.clean s = true) l ->
  Utf8.clean (join sep l) = true.
Proof.
  intros Hsep H. induction H as [ | x l Hx Hl IH ]; [ reflexivity | ].
  destruct l as [ | y l ]; [ exact Hx | ].
  change (join sep (x :: y :: l)) with (x ++ sep ++ join sep (y :: l)).
  apply clean_append; [ exact Hx | ]. apply clean_append; [ exact Hsep | exact IH ].
Qed.

(** [repr] of a value is a text without a surrogate. *)
Lemma repr_clean : forall v, well_formed v = true -> Utf8.clean (repr v) = true.
Proof.
  induction v as [ | b | z | r | s | l IH | d IH ] using value_ind'; intros Hwf.
  - reflexivity.
  - destruct b; reflexivity.
  - apply str_of_Z_clean.
  - now apply float_repr_clean.
  - apply repr_str_clean.
  - cbn [repr]. apply clean_cons; [ reflexivity | ].
    apply clean_append; [ | reflexivity ].
    apply join_clean; [ reflexivity | ].
    cbn [well_formed] in Hwf. rewrite forallb_forall in Hwf.
    rewrite Forall_forall in IH. apply Forall_forall. intros t Ht.
    apply in_map_iff in Ht as [x [<- Hx]]. apply IH; auto.
  - cbn [repr]. apply clean_cons; [ reflexivity | ].
    apply clean_append; [ | reflexivity ].
    apply join_clean; [ reflexivity | ].
    cbn [well_formed] in Hwf. apply andb_true_iff in Hwf as [_ Hwf].
    rewrite forallb_forall in Hwf.
    rewrite Forall_forall in IH. apply Forall_forall. intros t Ht.
    apply in_map_iff in Ht as [kv [<- Hkv]].
    apply clean_append; [ apply repr_str_clean | ].
    apply clean_append; [ reflexivity | ].
    apply IH; [ exact Hkv | ].
    specialize (Hwf _ Hkv). now apply andb_true_iff in Hwf.
Qed.

(** [str] of a value a parser built is a text a parser can have built. *)
Lemma str_parsed v : well_formed v = true -> Utf8.parsed (str v) = true.
Proof.
  intros Hwf. destruct v; try (apply clean_parsed; now apply (repr_clean _ Hwf)).
  exact Hwf.
Qed.

(** *** Well-formed values stay well-formed *)

Lemma well_formed_dict_get d k v :
  well_formed (PyDict d) = true -> dict_get d k = Some v -> well_formed v = true.
Proof.
  cbn [well_formed]. intros H. apply andb_true_iff in H as [_ H].
  induction d as [ | [k' v'] d IH ]; cbn [dict_get forallb fst snd] in *; [ discriminate | ].
  apply andb_true_iff in H as [Hv' Hd]. apply andb_true_iff in Hv' as [_ Hv'].
  destruct (String.eqb k k'); [ intros E; now injection E as <- | now apply IH ].
Qed.

Lemma well_formed_subscript obj k v :
  well_formed obj = true -> subscript obj k = Ok v -> well_formed v = true.
Proof.
  destruct obj; try discriminate. unfold subscript. intros Hwf.
  destruct (dict_get d k) as [v' | ] eqn:E; [ | discriminate ].
  intros H. injection H as <-. eapply well_formed_dict_get; eassumption.
Qed.

Lemma well_formed_iter v l :
  well_formed v = true -> iter v = Ok l -> forallb well_formed l = true.
Proof.
  intros Hwf H. destruct v; simpl in H; try discriminate H; injection H as <-.
  - cbn [well_formed] in Hwf. destruct (parsed_parts _ Hwf) as [V _].
    destruct (valid_parts _ V) as [_ C].
    induction (Utf8.decode s) as [ | n cps IH ]; [ reflexivity | ].
    cbn [forallb] in C. apply andb_true_iff in C as [Hn Hc].
    cbn [map forallb well_formed]. now rewrite (encode_parsed _ Hn), IH.
  - exact Hwf.
  - cbn [well_formed] in Hwf. apply andb_true_iff in Hwf as [_ Hwf].
    induction d as [ | [k x] d IH ]; [ reflexivity | ].
    cbn [forallb fst snd] in Hwf. apply andb_true_iff in Hwf as [Hk Hd].
    apply andb_true_iff in Hk as [Hk _].
    cbn [map forallb well_formed fst]. now rewrite Hk, IH.
Qed.

Lemma well_formed_or_default d k default :
  well_formed (PyDict d) = true -> well_formed default = true ->
  well_formed (or_default (dict_get d k) default) = true.
Proof.
  intros Hd Hdef. destruct (dict_get d k) eqn:E; simpl; [ | exact Hdef ].
  eapply well_formed_dict_get; eassumption.
Qed.

Lemma well_formed_url_of prefix d k :
  Utf8.clean prefix = true -> well_formed (PyDict d) = true ->
  well_formed (url_of prefix (dict_get d k)) = true.
Proof.
  intros Hp Hd. destruct (dict_get d k) as [v | ] eqn:E; [ | reflexivity ].
  cbn [url_of]. destruct (truthy v); [ | reflexivity ].
  cbn [well_formed]. apply parsed_append; [ exact Hp | ].
  apply str_parsed. eapply well_formed_dict_get; eassumption.
Qed.

Lemma well_formed_format_observation obs o :
  well_formed obs = true -> format_observation obs = Ok o -> well_formed o = true.
Proof.
  destruct obs; try discriminate. intros Hwf. rewrite format_observation_dict.
  intros H. injection H as <-.
  cbn [well_formed map fst snd forallb].
  rewrite !well_formed_or_default, !well_formed_url_of by (exact Hwf || reflexivity).
  vm_compute. reflexivity.
Qed.

Lemma well_formed_format_all items :
  forall formatted,
    forallb well_formed items = true -> format_all items = Ok formatted ->
    forallb well_formed formatted = true.
Proof.
  induction items as [ | obs items IH ]; simpl; intros formatted Hwf H.
  - now injection H as <-.
  - apply andb_true_iff in Hwf as [Hobs Hitems].
    destruct (format_observation obs) as [o | e] eqn:Eo; simpl in H; [ | discriminate ].
    destruct (format_all items) as [os | e] eqn:Eos; simpl in H; [ | discriminate ].
    injection H as <-. simpl.
    now rewrite (well_formed_format_observation _ _ Hobs Eo), (IH _ Hitems eq_refl).
Qed.

Lemma pad_clean width n : Utf8.clean (pad width n) = true.
Proof.
  unfold pad. generalize (width - String.length (str_of_nat n)). intros k.
  induction k as [ | k IH ].
  - apply str_of_Z_clean.
  - apply clean_cons; [ reflexivity | exact IH ].
Qed.

Lemma strftime_parsed t : Utf8.parsed (strftime t) = true.
Proof.
  apply clean_parsed. unfold strftime.
  repeat (apply clean_append; [ first [ apply pad_clean | reflexivity ] | ]).
  reflexivity.
Qed.

(** The URL of the request for a region. *)
Lemma region_request_url api_key config code :
  well_formed code = true ->
  Utf8.parsed (req_url (region_request api_key config code)) = true.
Proof.
  intros H. cbn [region_request notable_request req_url].
  apply parsed_append; [ reflexivity | ].
  apply parsed_append_clean; [ now apply str_parsed | reflexivity ].
Qed.

Section WellFormedRun.

Variable env : Env.
Variable api_key : string.
Variable config : list (string * value).

Hypothesis answers_well_formed :
  forall n r raw_obs, fetch_result env n r = Ok raw_obs -> well_formed raw_obs = true.

Hypothesis messages_well_formed :
  forall n r msg,
    Utf8.parsed (req_url r) = true ->
    fetch_result env n r = Raise (HTTPError msg) -> Utf8.parsed msg = true.

Lemma well_formed_entry n region entry :
  well_formed region = true ->
  entry_for env api_key config n region entry ->
  well_formed entry = true.
Proof.
  intros Hwf [code [name [Hc [Hn H]]]].
  pose proof (well_formed_subscript _ _ _ Hwf Hc) as Hcode.
  pose proof (well_formed_subscript _ _ _ Hwf Hn) as Hname.
  destruct (fetch_result env n _) as [raw_obs | e] eqn:E.
  - destruct H as [items [formatted [Hi [Hf ->]]]].
    pose proof (well_formed_iter _ _ (answers_well_formed _ _ _ E) Hi) as Hitems.
    pose proof (well_formed_format_all _ _ Hitems Hf) as Hformatted.
    unfold success_entry. cbn [well_formed map fst snd forallb].
    rewrite Hcode, Hname, Hformatted. vm_compute. reflexivity.
  - destruct e; try contradiction. subst entry.
    pose proof (messages_well_formed _ _ _ (region_request_url api_key config _ Hcode) E)
      as Hmsg.
    unfold error_entry. cbn [well_formed map fst snd forallb].
    rewrite Hcode, Hname, Hmsg. vm_compute. reflexivity.
Qed.

Lemma well_formed_entries n regions entries :
  forallb well_formed regions = true ->
  entries_from env api_key config n regions entries ->
  forallb well_formed entries = true.
Proof.
  intros Hwf H. induction H as [ | n region entry regions entries He _ IH ];
    [ reflexivity | ].
  simpl in *. apply andb_true_iff in Hwf as [Hr Hrs].
  now rewrite (well_formed_entry _ _ _ Hr He), (IH Hrs).
Qed.

End WellFormedRun.

(** C7. Round trip of [data.json]. In a run that returned, over values a
    JSON parser can have built (the configuration, every answer of the API
    and the message of every HTTP error: each dict with its keys once, each
    float named by its [repr], each string the text of code points with no
    surrogate pair left apart), the text written to [data.json] is the dump
    of the RunOutput, and reading that text back gives the RunOutput itself:
    the same regions in the same order, the same observations in each, the
    same value in every field, the timestamp included. *)
Theorem data_json_round_trip :
  forall env w config,
    config_json env = Ok (PyDict config) ->
    well_formed (PyDict config) = true ->
    (forall n r raw_obs, fetch_result env n r = Ok raw_obs -> well_formed raw_obs = true) ->
    (forall n r msg,
        Utf8.parsed (req_url r) = true ->
        fetch_result env n r = Raise (HTTPError msg) -> Utf8.parsed msg = true) ->
    main env initial = (w, Ok tt) ->
    exists results html text,
      files w = [(data_path env, text); (index_path env, html)]
      /\ text = dumps (json_output (strftime (utcnow env)) (PyDict config) results)
      /\ loads text = Some (json_output (strftime (utcnow env)) (PyDict config) results).
Proof.
  intros env w config Hc Hwf Hanswers Hmessages Hmain.
  destruct (main_ok _ _ Hmain)
    as [api_key [config' [regions_v [regions [results [html H]]]]]].
  destruct H as [_ [_ [Hc' [Hr [Hi [He [_ [_ Hf]]]]]]]].
  rewrite Hc in Hc'. injection Hc' as <-.
  exists results, html. eexists. split; [ exact Hf | ]. split; [ reflexivity | ].
  apply loads_dumps.
  pose proof (well_formed_dict_get _ _ _ Hwf Hr) as Hregions_v.
  pose proof (well_formed_iter _ _ Hregions_v Hi) as Hregions.
  pose proof (well_formed_entries env api_key config Hanswers Hmessages _ _ _ Hregions He)
    as Hresults.
  unfold json_output. cbn [well_formed map fst snd forallb].
  rewrite Hresults, (strftime_parsed (utcnow env)).
  change (nodup_keys (map fst config)
          && forallb (fun kv => Utf8.parsed (fst kv) && well_formed (snd kv)) config)
    with (well_formed (PyDict config)).
  rewrite Hwf. vm_compute. reflexivity.
Qed.

Lemma hawaii_regions_are_regions : Forall is_region hawaii_regions.
Proof. repeat constructor; do 2 eexists; split; reflexivity. Qed.

Lemma hawaii_env_answers n r : answers_or_http_error (fetch_result hawaii_env n r).
Proof.
  destruct n as [ | n ].
  - right. eexists. split; [ reflexivity | ]. repeat constructor. now eexists.
  - left. eexists. reflexivity.
Qed.

Lemma hawaii_env_well_formed n r raw_obs :
  fetch_result hawaii_env n r = Ok raw_obs -> well_formed raw_obs = true.
Proof.
  destruct n as [ | n ]; [ | discriminate ].
  intros H. injection H as <-. vm_compute. reflexivity.
Qed.

Lemma hawaii_env_messages n r msg :
  Utf8.parsed (req_url r) = true ->
  fetch_result hawaii_env n r = Raise (HTTPError msg) -> Utf8.parsed msg = true.
Proof.
  intros Hr. destruct n as [ | n ]; [ discriminate | ].
  intros H. injection H as <-.
  change (Utf8.parsed ("503 Server Error: Service Unavailable for url: " ++ req_url r)
          = true).
  apply parsed_append; [ reflexivity | exact Hr ].
Qed.

Lemma data_json_round_trip_witness :
  exists w results html text,
    main hawaii_env initial = (w, Ok tt)
    /\ files w = [(data_path hawaii_env, text); (index_path hawaii_env, html)]
    /\ loads text
       = Some (json_output (strftime (utcnow hawaii_env)) (PyDict hawaii_config) results).
Proof.
  destruct (main_returns hawaii_env "secret" hawaii_config hawaii_regions
              eq_refl ltac:(discriminate) eq_refl eq_refl hawaii_regions_are_regions
              hawaii_env_answers (fun _ => eq_refl) (fun _ => eq_refl)) as [w Hw].
  destruct (data_json_round_trip hawaii_env w hawaii_config eq_refl
              ltac:(vm_compute; reflexivity)
              hawaii_env_well_formed hawaii_env_messages Hw)
    as [results [html [text [Hf [_ Hl]]]]].
  exists w, results, html, text. auto.
Defined.

(* ===================================================================== *)
(** ** Further properties of [fetch_notable_observations] *)
(* ===================================================================== *)

(** X1. One call is one request, whatever comes back: the request goes to
    the notable-observations URL of the region with the key in the
    [X-eBirdApiToken] header and the three parameters, nothing else in the
    world changes, and nothing is retried. The outcome is read off the
    answer in this order: an exception of the transport is raised as it is;
    a 4xx or 5xx status raises [HTTPError], with a message that is not
    empty, whatever the body is; any other status gives what
    [response.json()] gives. *)
Theorem fetch_is_one_request :
  forall env api_key region_code days_back max_results w,
  exists r result w',
    fetch_notable_observations env api_key region_code days_back max_results w
    = (w', result)
    /\ req_url r
       = "https://api.ebird.org/v2/data/obs/" ++ str region_code ++ "/recent/notable"
    /\ req_headers r = [("X-eBirdApiToken", api_key)]
    /\ req_params r = [("back", days_back); ("maxResults", max_results);
                       ("detail", PyStr "full")]
    /\ sent w' = (sent w ++ [r])%list
    /\ stdout w' = stdout w /\ dirs w' = dirs w /\ files w' = files w
    /\ match http_get env (List.length (sent w)) r with
       | Raise e => result = Raise e
       | Ok response =>
           if is_error_status response
           then exists msg, result = Raise (HTTPError msg) /\ msg <> ""
           else result = json_body response
       end.
Proof.
  intros env api_key region_code days_back max_results w.
  exists (notable_request api_key region_code days_back max_results).
  rewrite fetch_spec. do 2 eexists. split; [ reflexivity | ].
  repeat (split; [ reflexivity | ]).
  unfold fetch_result.
  destruct (http_get env _ _) as [response | e]; simpl; [ | reflexivity ].
  unfold is_error_status, raise_for_status.
  destruct ((400 <=? status_code response)%Z && (status_code response <? 500)%Z); simpl.
  - eexists. split; [ reflexivity | apply append_not_empty ].
  - destruct ((500 <=? status_code response)%Z && (status_code response <? 600)%Z); simpl.
    + eexists. split; [ reflexivity | apply append_not_empty ].
    + reflexivity.
Qed.

(* ===================================================================== *)
(** ** Further properties of [format_observation] *)
(* ===================================================================== *)

(** X2. A field that is present is copied as it is, a null included: the
    default stands in for a missing key only, never for a value. *)
Theorem format_observation_copies :
  forall d out src dst v,
    format_observation (PyDict d) = Ok (PyDict out) ->
    In (src, dst) copied_fields ->
    dict_get d src = Some v ->
    dict_get out dst = Some v.
Proof.
  intros d out src dst v H HIn Hv.
  rewrite format_observation_dict in H. injection H as <-.
  simpl in HIn.
  repeat (destruct HIn as [E | HIn];
          [ injection E as <- <-; cbn; rewrite Hv; reflexivity | ]).
  contradiction.
Qed.

Lemma format_observation_copies_witness :
  exists out,
    format_observation (PyDict [("comName", PyNone); ("howMany", PyInt 0)])
    = Ok (PyDict out)
    /\ dict_get out "species" = Some PyNone
    /\ dict_get out "count" = Some (PyInt 0).
Proof.
  eexists. split; [ reflexivity | ]. split.
  - apply (format_observation_copies
             [("comName", PyNone); ("howMany", PyInt 0)] _ "comName" "species" PyNone
             eq_refl); [ simpl; tauto | reflexivity ].
  - reflexivity.
Defined.

(** X3. The result depends on the thirteen keys the function reads and on
    nothing else of the record: two records that agree on them format
    alike, whatever other fields the API sent. *)
Theorem format_observation_reads_thirteen_keys :
  forall d d',
    (forall k, In k source_keys -> dict_get d k = dict_get d' k) ->
    format_observation (PyDict d) = format_observation (PyDict d').
Proof.
  intros d d' H. rewrite !format_observation_dict.
  rewrite !(H "comName"), !(H "sciName"), !(H "howMany"), !(H "locName"),
    !(H "obsDt"), !(H "lat"), !(H "lng"), !(H "subId"), !(H "speciesCode"),
    !(H "locId"), !(H "userDisplayName"), !(H "obsValid"), !(H "obsReviewed");
    try reflexivity; simpl; tauto.
Qed.

Lemma format_observation_reads_thirteen_keys_witness :
  format_observation (PyDict [("comName", PyStr "Snowy Owl"); ("obsId", PyStr "OBS1")])
  = format_observation (PyDict [("countryCode", PyStr "US"); ("comName", PyStr "Snowy Owl")]).
Proof.
  apply format_observation_reads_thirteen_keys.
  intros k Hk. simpl in Hk.
  repeat (destruct Hk as [<- | Hk]; [ reflexivity | ]). contradiction.
Defined.

(** X4. The list comprehension keeps number and order: when it returns, the
    [i]-th formatted observation is the format of the [i]-th record; and it
    raises, always [AttributeError], exactly when some record is not an
    object. *)
Theorem format_all_keeps_order :
  forall items,
    (forall formatted,
        format_all items = Ok formatted <->
        Forall2 (fun obs o => format_observation obs = Ok o) items formatted)
    /\ (forall e,
          format_all items = Raise e <->
          e = AttributeError /\ exists obs, In obs items /\ ~ is_dict obs).
Proof.
  induction items as [ | obs items [IHok IHraise] ]; split.
  - intros formatted. simpl. split.
    + intros H. injection H as <-. constructor.
    + intros H. inversion H. reflexivity.
  - intros e. simpl. split; [ discriminate | ].
    intros [_ [obs [[] _]]].
  - intros formatted. simpl. split.
    + intros H.
      destruct (format_observation obs) as [o | e] eqn:Eo; simpl in H; [ | discriminate ].
      destruct (format_all items) as [os | e] eqn:Eos; simpl in H; [ | discriminate ].
      injection H as <-. constructor; [ exact Eo | ]. now apply IHok.
    + intros H. inversion H as [ | ? o ? os Ho Hos ]; subst.
      apply IHok in Hos. now rewrite Ho, Hos.
  - intros e. simpl. split.
    + intros H.
      destruct obs as [ | b | z | r | s | l | d ];
        try (simpl in H; injection H as <-; split; [ reflexivity | ];
             eexists; split; [ left; reflexivity | ]; intros [d' Hd']; discriminate).
      rewrite format_observation_dict in H. simpl in H.
      destruct (format_all items) as [os | e'] eqn:Eos; simpl in H; [ discriminate | ].
      injection H as <-.
      destruct (proj1 (IHraise e') eq_refl) as [He [obs' [HIn Hnd]]].
      split; [ exact He | ]. exists obs'. split; [ now right | exact Hnd ].
    + intros [-> [obs' [[<- | HIn] Hnd]]].
      * destruct obs as [ | b | z | r | s | l | d ]; try reflexivity.
        elim Hnd. now exists d.
      * assert (Hitems : format_all items = Raise AttributeError).
        { apply IHraise. split; [ reflexivity | now exists obs' ]. }
        destruct obs as [ | b | z | r | s | l | d ]; try reflexivity.
        rewrite format_observation_dict. simpl. now rewrite Hitems.
Qed.

(* ===================================================================== *)
(** ** Further properties of [generate_html] *)
(* ===================================================================== *)

(** The card of a formatted observation, from the raw record. *)
Lemma render_formatted_card d o :
  format_observation (PyDict d) = Ok o ->
  render_observation o
  = Ok (observation_block (species_cell d)
          (str (or_default (dict_get d "sciName") (PyStr "")))
          (count_text d)
          (str (or_default (dict_get d "locName") (PyStr "Unknown location")))
          (str (or_default (dict_get d "obsDt") (PyStr "")))
          (checklist_cell d)).
Proof.
  rewrite format_observation_dict. intros H. injection H as <-.
  unfold render_observation, species_cell, checklist_cell, count_text, species_text.
  cbn [subscript dict_get String.eqb Ascii.eqb Bool.eqb rbind].
  destruct (dict_get d "howMany") as [n | ]; cbn [or_default eq_str String.eqb negb rbind];
    [ destruct (eq_str n "X"); cbn [negb rbind] | ];
    (destruct (dict_get d "subId") as [c | ]; cbn [url_of];
     [ destruct (truthy c); cbn [truthy rbind] | cbn [truthy rbind] ]);
    (destruct (dict_get d "speciesCode") as [s | ]; cbn [url_of];
     [ destruct (truthy s); cbn [truthy rbind] | cbn [truthy rbind] ]);
    destruct (dict_get d "comName"); reflexivity.
Qed.

(** X5. Formatting and rendering compose without a failure, and the card of
    a record is decided by the record: the species cell is a link to the
    species page when [speciesCode] passes the truth test and the plain
    name otherwise; the checklist link is there when [subId] passes the
    truth test and is the empty text otherwise; the count is [present]
    when [howMany] is missing or is the text [X], and its own text
    otherwise. *)
Theorem card_of_raw_observation :
  forall d,
  exists o,
    format_observation (PyDict d) = Ok o
    /\ render_observation o
       = Ok (observation_block
               (match dict_get d "speciesCode" with
                | Some c =>
                    if truthy c
                    then species_anchor ("https://ebird.org/species/" ++ str c)
                           (species_text d)
                    else species_text d
                | None => species_text d
                end)
               (match dict_get d "sciName" with Some v => str v | None => "" end)
               (match dict_get d "howMany" with
                | Some v => if eq_str v "X" then "present" else str v
                | None => "present"
                end)
               (match dict_get d "locName" with
                | Some v => str v
                | None => "Unknown location"
                end)
               (match dict_get d "obsDt" with Some v => str v | None => "" end)
               (match dict_get d "subId" with
                | Some c =>
                    if truthy c
                    then checklist_anchor ("https://ebird.org/checklist/" ++ str c)
                    else ""
                | None => ""
                end)).
Proof.
  intros d. eexists. split; [ apply format_observation_dict | ].
  rewrite (render_formatted_card d _ (format_observation_dict d)).
  unfold species_cell, checklist_cell, count_text.
  destruct (dict_get d "sciName"), (dict_get d "locName"), (dict_get d "obsDt");
    reflexivity.
Qed.

Lemma count_span_pieces :
  exists a b,
    q "</div>
                    <div class=`details`>
                        <span class=`count`>" = a ++ q "<span class=`count`>"
    /\ q "</span> at
                        <span class=`location`>" = "</span>" ++ b.
Proof.
  exists (substring 0 (String.length (q "</div>
                    <div class=`details`>
                        <span class=`count`>") - 20) (q "</div>
                    <div class=`details`>
                        <span class=`count`>")).
  exists (substring 7 (String.length (q "</span> at
                        <span class=`location`>") - 7) (q "</span> at
                        <span class=`location`>")).
  split; vm_compute; reflexivity.
Qed.

Lemma occurs_middle a s m e b rest :
  Occurs (s ++ m ++ e) ((a ++ s) ++ m ++ (e ++ b) ++ rest).
Proof. exists a, (b ++ rest). now rewrite !append_assoc. Qed.

(** X6. The count on the page: an observation whose record has no [howMany]
    shows [present] in its count span, one whose [howMany] is an integer
    shows the integer in decimal, and so does every other value but the
    text [X], which shows [present] too. *)
Theorem count_span_of_record :
  forall d o,
    format_observation (PyDict d) = Ok o ->
    exists card,
      render_observation o = Ok card
      /\ (dict_get d "howMany" = None ->
          Occurs (q "<span class=`count`>" ++ "present" ++ "</span>") card)
      /\ (dict_get d "howMany" = Some (PyStr "X") ->
          Occurs (q "<span class=`count`>" ++ "present" ++ "</span>") card)
      /\ (forall z, dict_get d "howMany" = Some (PyInt z) ->
          Occurs (q "<span class=`count`>" ++ str_of_Z z ++ "</span>") card)
      /\ (forall v, dict_get d "howMany" = Some v -> eq_str v "X" = false ->
          Occurs (q "<span class=`count`>" ++ str v ++ "</span>") card).
Proof.
  intros d o H. eexists. split; [ exact (render_formatted_card d o H) | ].
  assert (Hspan : Occurs (q "<span class=`count`>" ++ count_text d ++ "</span>")
                    (observation_block (species_cell d)
                       (str (or_default (dict_get d "sciName") (PyStr "")))
                       (count_text d)
                       (str (or_default (dict_get d "locName") (PyStr "Unknown location")))
                       (str (or_default (dict_get d "obsDt") (PyStr "")))
                       (checklist_cell d))).
  { unfold observation_block.
    destruct count_span_pieces as [a [b [-> ->]]].
    do 4 apply occurs_app_r. apply occurs_middle. }
  unfold count_text in Hspan |- *.
  repeat split.
  - intros E. now rewrite E in Hspan |- *.
  - intros E. now rewrite E in Hspan |- *.
  - intros z E. now rewrite E in Hspan |- *.
  - intros v E Hv. now rewrite E, Hv in Hspan |- *.
Qed.

Lemma count_span_of_record_witness :
  exists o card,
    format_observation (PyDict [("comName", PyStr "Snowy Owl"); ("howMany", PyInt 3)])
    = Ok o
    /\ render_observation o = Ok card
    /\ Occurs (q "<span class=`count`>" ++ "3" ++ "</span>") card.
Proof.
  destruct (count_span_of_record
              [("comName", PyStr "Snowy Owl"); ("howMany", PyInt 3)] _
              (format_observation_dict _)) as [card [Hc [_ [_ [Hz _]]]]].
  eexists. exists card. split; [ apply format_observation_dict | ].
  split; [ exact Hc | ]. exact (Hz 3%Z eq_refl).
Defined.

Lemma render_observations_cards l :
  forall acc out,
    render_observations acc l = Ok out <->
    exists cards,
      Forall2 (fun obs card => render_observation obs = Ok card) l cards
      /\ out = acc ++ concat_all cards.
Proof.
  induction l as [ | obs l IH ]; intros acc out; simpl.
  - split.
    + intros H. injection H as <-. exists []. split; [ constructor | ].
      simpl. now rewrite append_nil_r.
    + intros [cards [H ->]]. inversion H. simpl. now rewrite append_nil_r.
  - split.
    + intros H.
      destruct (render_observation obs) as [card | e] eqn:E; simpl in H; [ | discriminate ].
      apply IH in H as [cards [Hc ->]].
      exists (card :: cards). split; [ now constructor | ].
      simpl. now rewrite append_assoc.
    + intros [cards [H ->]]. inversion H as [ | ? card ? cards' Hc Hcs ]; subst.
      rewrite Hc. simpl. apply IH. exists cards'. split; [ exact Hcs | ].
      simpl. now rewrite append_assoc.
Qed.

Lemma render_regions_sections l :
  forall acc out,
    render_regions acc l = Ok out <->
    exists sections,
      Forall2 (fun region section => render_region region = Ok section) l sections
      /\ out = acc ++ concat_all sections.
Proof.
  induction l as [ | x l IH ]; intros acc out; simpl.
  - split.
    + intros H. injection H as <-. exists []. split; [ constructor | ].
      simpl. now rewrite append_nil_r.
    + intros [sections [H ->]]. inversion H. simpl. now rewrite append_nil_r.
  - split.
    + intros H.
      destruct (render_region x) as [section | e] eqn:E; simpl in H; [ | discriminate ].
      apply IH in H as [sections [Hs ->]].
      exists (section :: sections). split; [ now constructor | ].
      simpl. now rewrite append_assoc.
    + intros [sections [H ->]]. inversion H as [ | ? section ? sections' Hs Hss ]; subst.
      rewrite Hs. simpl. apply IH. exists sections'. split; [ exact Hss | ].
      simpl. now rewrite append_assoc.
Qed.

(** X7. The page keeps the order of its input: the document is the fixed
    page around the sections of the entries, one after the other in the
    order of [all_observations], and nothing between them. *)
Theorem sections_in_order :
  forall all_observations config last_updated html,
    generate_html all_observations config last_updated = Ok html <->
    exists sections,
      Forall2 (fun region section => render_region region = Ok section)
        all_observations sections
      /\ html = page last_updated (concat_all sections).
Proof.
  intros all_observations config last_updated html. unfold generate_html. split.
  - intros H.
    destruct (render_regions "" all_observations) as [regions_html | e] eqn:E;
      simpl in H; [ | discriminate ].
    injection H as <-. apply render_regions_sections in E as [sections [Hs ->]].
    now exists sections.
  - intros [sections [Hs ->]].
    assert (E : render_regions "" all_observations = Ok ("" ++ concat_all sections))
      by (apply render_regions_sections; now exists sections).
    now rewrite E.
Qed.

(** X8. Inside a region the cards keep the order of its observations: the
    section of a region with a list of one observation or more is its
    heading around the cards of the observations, one after the other in
    the order of the list. *)
Theorem cards_in_order :
  forall region name obs observations section,
    subscript region "name" = Ok name ->
    subscript region "observations" = Ok (PyList (obs :: observations)) ->
    (render_region region = Ok section <->
     exists cards,
       Forall2 (fun obs card => render_observation obs = Ok card)
         (obs :: observations) cards
       /\ section = region_section (str name) (concat_all cards)).
Proof.
  intros region name obs observations section Hn Ho.
  assert (E : render_region region
              = (obs_html <- render_observations "" (obs :: observations) ;;
                 Ok (region_section (str name) obs_html)))
    by (unfold render_region; rewrite Hn, Ho; reflexivity).
  rewrite E. clear E.
  pose proof (render_observations_cards (obs :: observations) "") as Hcards.
  destruct (render_observations "" (obs :: observations)) as [obs_html | e];
    cbn [rbind]; split.
  - intros H. injection H as <-.
    destruct (proj1 (Hcards obs_html) eq_refl) as [cards [Hc ->]]. now exists cards.
  - intros [cards [Hc ->]].
    assert (E : Ok obs_html = Ok ("" ++ concat_all cards))
      by (apply Hcards; now exists cards).
    injection E as ->. reflexivity.
  - discriminate.
  - intros [cards [Hc _]].
    assert (E : Raise e = Ok ("" ++ concat_all cards))
      by (apply (Hcards ("" ++ concat_all cards)); now exists cards).
    discriminate.
Qed.

Lemma cards_in_order_witness :
  exists section cards,
    render_region (PyDict [("name", PyStr "Kings"); ("observations",
       PyList [PyDict [("count", PyStr "X"); ("checklist_url", PyNone);
                       ("species_url", PyNone); ("species", PyStr "Owl");
                       ("scientific_name", PyStr "Bubo"); ("location", PyStr "Pier");
                       ("date", PyStr "today")]])]) = Ok section
    /\ List.length cards = 1
    /\ section = region_section "Kings" (concat_all cards).
Proof.
  eexists.
  destruct (proj1 (cards_in_order
              (PyDict [("name", PyStr "Kings"); ("observations",
                 PyList [PyDict [("count", PyStr "X"); ("checklist_url", PyNone);
                                 ("species_url", PyNone); ("species", PyStr "Owl");
                                 ("scientific_name", PyStr "Bubo");
                                 ("location", PyStr "Pier"); ("date", PyStr "today")]])])
              (PyStr "Kings") _ [] _ eq_refl eq_refl) eq_refl) as [cards [Hc Hs]].
  exists cards. split; [ reflexivity | ]. split; [ | exact Hs ].
  now rewrite <- (Forall2_length Hc).
Defined.

Lemma render_regions_raise l :
  forall acc e,
    render_regions acc l = Raise e <->
    exists before region after,
      l = (before ++ region :: after)%list
      /\ Forall (fun x => exists section, render_region x = Ok section) before
      /\ render_region region = Raise e.
Proof.
  induction l as [ | x l IH ]; intros acc e; simpl.
  - split; [ discriminate | ]. intros [before [region [after [H _]]]].
    destruct before; discriminate.
  - split.
    + intros H. destruct (render_region x) as [section | e'] eqn:E; simpl in H.
      * apply IH in H as [before [region [after [-> [Hb Hr]]]]].
        exists (x :: before), region, after. split; [ reflexivity | ].
        split; [ constructor; eauto | exact Hr ].
      * injection H as <-. exists [], x, l. repeat split; auto.
    + intros [before [region [after [Hl [Hb Hr]]]]].
      destruct before as [ | y before ]; simpl in Hl; injection Hl as <- ->.
      * now rewrite Hr.
      * inversion Hb as [ | ? ? [section Hy] Hb' ]; subst. rewrite Hy. simpl.
        apply IH. exists before, region, after. auto.
Qed.

(** X9. The page fails as its first failing entry fails: [generate_html]
    raises an exception exactly when some entry cannot be rendered, and the
    exception is the one of the first such entry. *)
Theorem page_fails_with_first_entry :
  forall all_observations config last_updated e,
    generate_html all_observations config last_updated = Raise e <->
    exists before region after,
      all_observations = (before ++ region :: after)%list
      /\ Forall (fun x => exists section, render_region x = Ok section) before
      /\ render_region region = Raise e.
Proof.
  intros all_observations config last_updated e. unfold generate_html.
  rewrite <- (render_regions_raise all_observations "" e).
  destruct (render_regions "" all_observations); simpl; split; congruence.
Qed.

(** X10. What [format_observation] returns can always be rendered: a page
    over entries that each carry a name and a list of formatted
    observations never fails, whatever the records were. *)
Theorem formatted_entries_render :
  forall all_observations config last_updated,
    Forall (fun entry =>
              exists name items formatted,
                subscript entry "name" = Ok name
                /\ subscript entry "observations" = Ok (PyList formatted)
                /\ format_all items = Ok formatted) all_observations ->
    exists html, generate_html all_observations config last_updated = Ok html.
Proof.
  intros all_observations config last_updated H. unfold generate_html.
  assert (Hr : forall acc, exists regions_html,
               render_regions acc all_observations = Ok regions_html).
  { induction H as [ | entry l [name [items [formatted [Hn [Ho Hf]]]]] _ IH ];
      intros acc; simpl; [ eauto | ].
    unfold render_region. rewrite Hn, Ho. cbn [rbind].
    destruct formatted as [ | o fs ]; cbn [truthy negb iter rbind].
    - apply IH.
    - destruct (render_all_formatted _ _ "" Hf) as [obs_html E].
      rewrite E. cbn [rbind]. apply IH. }
  destruct (Hr "") as [regions_html ->]. simpl. eauto.
Qed.

Lemma formatted_entries_render_witness :
  exists html,
    generate_html
      [PyDict [("name", PyStr "Kings");
               ("observations",
                 PyList [PyDict [("species", PyStr "Unknown");
                                 ("scientific_name", PyStr "");
                                 ("count", PyStr "X");
                                 ("location", PyStr "Unknown location");
                                 ("date", PyStr "");
                                 ("lat", PyNone);
                                 ("lng", PyNone);
                                 ("checklist_url", PyNone);
                                 ("species_url", PyNone);
                                 ("location_id", PyStr "");
                                 ("observer", PyStr "");
                                 ("is_valid", PyBool true);
                                 ("is_reviewed", PyBool false)]])]]
      PyNone "now" = Ok html.
Proof.
  apply formatted_entries_render.
  constructor; [ | constructor ].
  exists (PyStr "Kings"), [PyDict []]. eexists.
  split; [ reflexivity | ]. split; reflexivity.
Defined.

(* ===================================================================== *)
(** ** Further properties of [main] *)
(* ===================================================================== *)

(** X11. What is wrong before the loop aborts the run before it has done
    anything: without the key (unset or empty) [main] raises [ValueError];
    with it, a configuration that cannot be loaded raises the exception of
    the load, one that is no object raises [TypeError], one without
    [regions] raises [KeyError]. In each case nothing was printed, sent or
    written. *)
Theorem main_aborts_before_any_effect :
  forall env w,
    ((environ env "EBIRD_API_KEY" = None \/ environ env "EBIRD_API_KEY" = Some "") ->
     main env w = (w, Raise (ValueError "EBIRD_API_KEY environment variable not set")))
    /\ (forall api_key,
          environ env "EBIRD_API_KEY" = Some api_key -> api_key <> "" ->
          (forall e, config_json env = Raise e -> main env w = (w, Raise e))
          /\ (forall config, config_json env = Ok config -> ~ is_dict config ->
                main env w = (w, Raise TypeError))
          /\ (forall d, config_json env = Ok (PyDict d) ->
                dict_get d "regions" = None ->
                main env w = (w, Raise (KeyError "regions")))).
Proof.
  intros env w. split.
  - unfold main. intros [-> | ->]; reflexivity.
  - intros api_key Hk Hne. unfold main. rewrite Hk.
    destruct api_key as [ | c k ]; [ contradiction | ].
    unfold mbind, load_config, lift. repeat split.
    + intros e ->. reflexivity.
    + intros config -> Hd.
      destruct config; try reflexivity. elim Hd. now eexists.
    + intros d -> Hr. simpl. now rewrite Hr.
Qed.

Section Console.

Variable env : Env.
Variable api_key : string.
Variable config : list (string * value).

Lemma process_region_console region acc w w' out :
  process_region env api_key (PyDict config) region acc w = (w', Ok out) ->
  exists entry,
    out = (acc ++ [entry])%list
    /\ stdout w' = (stdout w ++ region_lines region entry)%list.
Proof.
  intros H.
  destruct (subscript region "name") as [name | e] eqn:Hn.
  2: { rewrite (process_region_no_name _ _ _ _ _ _ _ Hn) in H. discriminate. }
  destruct (subscript region "code") as [code | e] eqn:Hc.
  2: { rewrite (process_region_no_code _ _ _ _ _ _ _ _ Hn Hc) in H. discriminate. }
  rewrite (process_region_spec _ _ _ _ _ _ _ _ Hc Hn) in H. cbv zeta in H.
  unfold region_lines. rewrite Hn, Hc.
  destruct (fetch_result env _ _) as [raw_obs | e].
  - destruct (items <- iter raw_obs ;; format_all items) as [formatted | e];
      [ | discriminate ].
    injection H as <- <-. eexists. split; [ reflexivity | ].
    simpl. now rewrite <- app_assoc.
  - destruct e; try discriminate. injection H as <- <-.
    eexists. split; [ reflexivity | ]. simpl. now rewrite <- app_assoc.
Qed.

Lemma process_regions_console regions :
  forall acc w w' out,
    process_regions env api_key (PyDict config) regions acc w = (w', Ok out) ->
    exists entries,
      out = (acc ++ entries)%list
      /\ List.length entries = List.length regions
      /\ stdout w' = (stdout w ++ console_lines regions entries)%list.
Proof.
  induction regions as [ | region regions IH ]; intros acc w w' out H.
  - injection H as <- <-. exists []. now rewrite !app_nil_r.
  - simpl in H. unfold mbind in H.
    destruct (process_region env api_key (PyDict config) region acc w)
      as [w1 [out1 | e]] eqn:E; [ | discriminate ].
    destruct (process_region_console _ _ _ _ _ E) as [entry [-> Hs]].
    destruct (IH _ _ _ _ H) as [entries [-> [Hl Hs']]].
    exists (entry :: entries). rewrite <- app_assoc. simpl.
    split; [ reflexivity | ]. split; [ now rewrite Hl | ].
    now rewrite Hs', Hs, <- app_assoc.
Qed.

Lemma console_lines_length regions :
  forall entries,
    Forall is_region regions ->
    List.length entries = List.length regions ->
    List.length (console_lines regions entries) = 2 * List.length regions.
Proof.
  induction regions as [ | region regions IH ]; intros entries Hr Hl.
  - reflexivity.
  - destruct entries as [ | entry entries ]; [ discriminate | ].
    inversion Hr as [ | ? ? [code [name [Hc Hn]]] Hrs ]; subst.
    simpl. rewrite length_app, (IH entries Hrs) by (simpl in Hl; lia).
    unfold region_lines. rewrite Hn, Hc. simpl. lia.
Qed.

End Console.

Lemma entries_from_regions env api_key config n regions entries :
  entries_from env api_key config n regions entries -> Forall is_region regions.
Proof.
  induction 1 as [ | n region entry regions entries [code [name [Hc [Hn _]]]] _ IH ];
    constructor; [ now exists code, name | exact IH ].
Qed.

(** A run that returns, step by step: the loop, then the two files. *)
Lemma main_run env w :
  main env initial = (w, Ok tt) ->
  exists api_key config regions_v regions results w1 html,
    environ env "EBIRD_API_KEY" = Some api_key
    /\ config_json env = Ok (PyDict config)
    /\ dict_get config "regions" = Some regions_v
    /\ iter regions_v = Ok regions
    /\ process_regions env api_key (PyDict config) regions [] initial = (w1, Ok results)
    /\ generate_html results (PyDict config) (strftime (utcnow env)) = Ok html
    /\ stdout w = (stdout w1 ++ [("Saved data to " ++ data_path env)%string;
                                 ("Saved HTML to " ++ index_path env)%string])%list
    /\ sent w = sent w1
    /\ dirs w = (dirs w1 ++ [path_join (script_dir env) "docs"])%list
    /\ files w =
         (files w1 ++
          [(data_path env,
             dumps (json_output (strftime (utcnow env)) (PyDict config) results));
           (index_path env, html)])%list.
Proof.
  unfold main. intros H.
  destruct (environ env "EBIRD_API_KEY") as [[ | c k] | ] eqn:Ek; try discriminate.
  set (api_key := String c k) in *.
  unfold mbind, load_config, lift in H.
  destruct (config_json env) as [[ | | | | | | config] | e] eqn:Ec; try discriminate.
  simpl subscript in H.
  destruct (dict_get config "regions") as [regions_v | ] eqn:Er; [ | discriminate ].
  destruct (iter regions_v) as [regions | e] eqn:Ei; [ | discriminate ].
  destruct (process_regions env api_key (PyDict config) regions [] initial)
    as [w1 [results | e]] eqn:Ep; [ | discriminate ].
  unfold mkdir_exist_ok, write_file, print in H.
  destruct (mkdir env _); [ discriminate | ].
  cbn [files dirs sent stdout] in H.
  destruct (open_w env _); [ discriminate | ].
  destruct (generate_html results (PyDict config) _) as [html | e] eqn:Eh; [ | discriminate ].
  cbn [files dirs sent stdout] in H.
  destruct (open_w env _); [ discriminate | ].
  injection H as <-.
  exists api_key, config, regions_v, regions, results, w1, html.
  cbn [files dirs sent stdout]. rewrite <- !app_assoc. simpl.
  repeat split; auto.
Qed.

(** X12. The console of a run that returned: two lines for each region in
    the order of the configuration, the announcement and then either the
    number of sightings found, which is the number of observations of the
    region's entry in [data.json], or the error message, which is the
    [error] of that entry; then the two lines that name the files. *)
Theorem console_of_a_run :
  forall env w config regions,
    config_json env = Ok (PyDict config) ->
    dict_get config "regions" = Some (PyList regions) ->
    main env initial = (w, Ok tt) ->
    exists results html,
      files w =
        [(data_path env,
           dumps (json_output (strftime (utcnow env)) (PyDict config) results));
         (index_path env, html)]
      /\ stdout w =
           (console_lines regions results
              ++ [("Saved data to " ++ data_path env)%string;
                  ("Saved HTML to " ++ index_path env)%string])%list
      /\ List.length (stdout w) = 2 * List.length regions + 2.
Proof.
  intros env w config regions Hc Hr Hmain.
  destruct (main_run _ _ Hmain)
    as [api_key [config' [regions_v [regions' [results [w1 [html H]]]]]]].
  destruct H as [_ [Hc' [Hr' [Hi [Hp [_ [Hout [_ [_ Hf]]]]]]]]].
  rewrite Hc in Hc'. injection Hc' as <-.
  rewrite Hr in Hr'. injection Hr' as <-. simpl in Hi. injection Hi as <-.
  destruct (process_regions_ok _ _ _ _ _ _ _ _ Hp) as [entries [E [He [_ [_ Hf1]]]]].
  simpl in E. subst entries.
  destruct (process_regions_console _ _ _ _ _ _ _ _ Hp) as [entries [E [Hl Hs]]].
  simpl in E. subst entries. simpl in Hs.
  exists results, html. rewrite Hf1 in Hf. split; [ exact Hf | ].
  rewrite Hout, Hs. split; [ reflexivity | ].
  rewrite length_app, (console_lines_length _ _ (entries_from_regions _ _ _ _ _ _ He) Hl).
  simpl. lia.
Qed.

Lemma console_of_a_run_witness :
  exists w,
    main two_regions_env initial = (w, Ok tt)
    /\ stdout w =
         ["Fetching notable observations for New York (US-NY)...";
          "  Error fetching US-NY: 404 Client Error: Not Found for url: https://api.ebird.org/v2/data/obs/US-NY/recent/notable";
          "Fetching notable observations for California (US-CA)...";
          "  Found 1 notable sightings";
          "Saved data to /srv/ebird/docs/data.json";
          "Saved HTML to /srv/ebird/docs/index.html"]
    /\ List.length (stdout w) = 2 * 2 + 2.
Proof.
  destruct (console_of_a_run two_regions_env (fst (main two_regions_env initial))
              two_regions_config two_regions eq_refl eq_refl
              ltac:(vm_compute; reflexivity)) as [results [html [_ [_ Hl]]]].
  exists (fst (main two_regions_env initial)).
  split; [ vm_compute; reflexivity | ].
  split; [ vm_compute; reflexivity | exact Hl ].
Defined.

(** X13. One timestamp and one list of entries stand behind both files of a
    run that returned: [data.json] is the dump of the RunOutput and
    [index.html] is the page of the same timestamp around the sections of
    the same entries, in the same order. *)
Theorem both_files_from_the_same_entries :
  forall env w config,
    config_json env = Ok (PyDict config) ->
    main env initial = (w, Ok tt) ->
    exists results sections,
      Forall2 (fun entry section => render_region entry = Ok section) results sections
      /\ files w =
           [(data_path env,
              dumps (PyDict [("last_updated", PyStr (strftime (utcnow env)));
                             ("config", PyDict config);
                             ("regions", PyList results)]));
            (index_path env, page (strftime (utcnow env)) (concat_all sections))].
Proof.
  intros env w config Hc Hmain.
  destruct (main_run _ _ Hmain)
    as [api_key [config' [regions_v [regions [results [w1 [html H]]]]]]].
  destruct H as [_ [Hc' [_ [_ [Hp [Hh [_ [_ [_ Hf]]]]]]]]].
  rewrite Hc in Hc'. injection Hc' as <-.
  destruct (process_regions_ok _ _ _ _ _ _ _ _ Hp) as [entries [_ [_ [_ [_ Hf1]]]]].
  apply sections_in_order in Hh as [sections [Hs ->]].
  exists results, sections. split; [ exact Hs | ]. now rewrite Hf, Hf1.
Qed.

Lemma both_files_from_the_same_entries_witness :
  exists w results sections,
    main two_regions_env initial = (w, Ok tt)
    /\ List.length sections = List.length results
    /\ files w =
         [(data_path two_regions_env,
            dumps (PyDict [("last_updated", PyStr "2024-03-07 09:05 UTC");
                           ("config", PyDict two_regions_config);
                           ("regions", PyList results)]));
          (index_path two_regions_env,
            page "2024-03-07 09:05 UTC" (concat_all sections))].
Proof.
  destruct (both_files_from_the_same_entries two_regions_env
              (fst (main two_regions_env initial)) two_regions_config eq_refl
              ltac:(vm_compute; reflexivity)) as [results [sections [Hs Hf]]].
  exists (fst (main two_regions_env initial)), results, sections.
  split; [ vm_compute; reflexivity | ].
  split; [ symmetry; exact (Forall2_length Hs) | exact Hf ].
Defined.

(** X14. A failed region looks like a quiet one: in the page of a run that
    returned, the section of a region whose fetch raised an HTTP error is
    the region's heading over the placeholder sentence, the section of a
    region with nothing to report. *)
Theorem failed_region_shows_placeholder :
  forall env w api_key config regions i region code name msg,
    environ env "EBIRD_API_KEY" = Some api_key ->
    config_json env = Ok (PyDict config) ->
    dict_get config "regions" = Some (PyList regions) ->
    main env initial = (w, Ok tt) ->
    nth_error regions i = Some region ->
    subscript region "code" = Ok code ->
    subscript region "name" = Ok name ->
    fetch_result env i (region_request api_key config code) = Raise (HTTPError msg) ->
    exists out html,
      files w = [(data_path env, dumps out); (index_path env, html)]
      /\ Occurs (region_section (str name) placeholder) html.
Proof.
  intros env w api_key config regions i region code name msg Hk Hc Hr Hmain Hn
    Hcode Hname Hfetch.
  destruct (main_ok _ _ Hmain)
    as [api_key' [config' [regions_v [regions' [results [html H]]]]]].
  destruct H as [Hk' [_ [Hc' [Hr' [Hi [He [_ [Hh Hf]]]]]]]].
  rewrite Hk in Hk'. injection Hk' as <-.
  rewrite Hc in Hc'. injection Hc' as <-.
  rewrite Hr in Hr'. injection Hr' as <-. simpl in Hi. injection Hi as <-.
  eexists. exists html. split; [ exact Hf | ].
  destruct (entries_from_nth _ _ _ _ _ _ He i region Hn)
    as [entry [Hentry [code' [name' [Hcode' [Hname' Hres]]]]]].
  rewrite Hcode in Hcode'. injection Hcode' as <-.
  rewrite Hname in Hname'. injection Hname' as <-.
  simpl in Hres. rewrite Hfetch in Hres. subst entry.
  apply nth_error_In in Hentry.
  destruct (section_in_page _ _ _ _ _ Hh Hentry) as [section [Hs Hocc]].
  unfold render_region, error_entry in Hs. simpl in Hs. injection Hs as <-.
  exact Hocc.
Qed.

Lemma failed_region_shows_placeholder_witness :
  exists out html,
    files (fst (main two_regions_env initial))
    = [(data_path two_regions_env, dumps out); (index_path two_regions_env, html)]
    /\ Occurs (region_section "New York" placeholder) html.
Proof.
  exact (failed_region_shows_placeholder two_regions_env
           (fst (main two_regions_env initial)) "secret" two_regions_config
           two_regions 0 _ (PyStr "US-NY") (PyStr "New York") _
           eq_refl eq_refl eq_refl ltac:(vm_compute; reflexivity)
           eq_refl eq_refl eq_refl eq_refl).
Defined.

(** The loop writes no file, whatever its end. *)
Lemma process_regions_files env api_key config regions :
  forall acc w,
    files (fst (process_regions env api_key (PyDict config) regions acc w)) = files w.
Proof.
  induction regions as [ | region regions IH ]; intros acc w; [ reflexivity | ].
  simpl. unfold mbind.
  pose proof (process_region_world env api_key config region acc w) as Hw.
  cbv zeta in Hw.
  destruct (process_region env api_key (PyDict config) region acc w)
    as [w1 [out1 | e]]; simpl in Hw; destruct Hw as [_ [Hf _]].
  - now rewrite IH.
  - exact Hf.
Qed.

Lemma prefix_refl s : String.prefix s s = true.
Proof. rewrite <- (append_nil_r s) at 2. apply prefix_append. Qed.

Lemma prefix_substring s : forall n, String.prefix (substring 0 n s) s = true.
Proof.
  induction s as [ | c s IH ]; intros [ | n ]; try reflexivity.
  simpl. destruct (ascii_dec c c) as [ _ | Hc ]; [ apply IH | now elim Hc ].
Qed.

(** X15. The files of a run, whatever its end. Nothing but [data.json] and
    [index.html] is ever written, [data.json] first, and [index.html] is
    opened only when [data.json] holds the whole dump. What a failed write
    leaves of a file is a beginning of the text that was to be written: of
    the dump of the RunOutput, or of the page of the same entries. A run
    that returns has written both files in full. *)
Theorem files_of_a_run :
  forall env,
    (files (fst (main env initial)) = []
     \/ exists config results html,
          config_json env = Ok config
          /\ generate_html results config (strftime (utcnow env)) = Ok html
          /\ ((exists t,
                 files (fst (main env initial)) = [(data_path env, t)]
                 /\ String.prefix t
                      (dumps (json_output (strftime (utcnow env)) config results))
                    = true)
              \/ (exists t,
                    files (fst (main env initial))
                    = [(data_path env,
                         dumps (json_output (strftime (utcnow env)) config results));
                       (index_path env, t)]
                    /\ String.prefix t html = true
                    /\ (snd (main env initial) = Ok tt -> t = html))))
    /\ (snd (main env initial) = Ok tt ->
        exists config results html,
          generate_html results config (strftime (utcnow env)) = Ok html
          /\ files (fst (main env initial))
             = [(data_path env,
                  dumps (json_output (strftime (utcnow env)) config results));
                (index_path env, html)]).
Proof.
  intros env. unfold main.
  destruct (environ env "EBIRD_API_KEY") as [[ | c k] | ];
    try (split; [ left; reflexivity | discriminate ]).
  set (api_key := String c k).
  unfold mbind, load_config, lift.
  destruct (config_json env) as [[ | | | | | | config] | e] eqn:Ec;
    try (split; [ left; reflexivity | discriminate ]).
  simpl subscript.
  destruct (dict_get config "regions") as [regions_v | ];
    [ | split; [ left; reflexivity | discriminate ] ].
  destruct (iter regions_v) as [regions | e];
    [ | split; [ left; reflexivity | discriminate ] ].
  destruct (process_regions env api_key (PyDict config) regions [] initial)
    as [w1 [results | e]] eqn:Ep.
  2: { split; [ left | discriminate ].
       pose proof (process_regions_files env api_key config regions [] initial) as Hf.
       rewrite Ep in Hf. exact Hf. }
  destruct (process_regions_ok _ _ _ _ _ _ _ _ Ep) as [entries [E [He [_ [_ Hf1]]]]].
  simpl in E, Hf1. subst entries.
  destruct (generate_html_entries _ _ _ _ _ _ "" He) as [regions_html Eh].
  assert (Ehtml : generate_html results (PyDict config) (strftime (utcnow env))
                  = Ok (page (strftime (utcnow env)) regions_html))
    by (unfold generate_html; now rewrite Eh).
  unfold mkdir_exist_ok, write_file, print.
  destruct (mkdir env _) as [e | ];
    [ split; [ left; exact Hf1 | discriminate ] | ].
  cbn [files dirs sent stdout].
  destruct (open_w env (path_join (path_join (script_dir env) "docs") "data.json"))
    as [e | ].
  { split; [ | discriminate ].
    destruct (written env _) as [n | ]; cbn [fst files]; [ | left; exact Hf1 ].
    right. exists (PyDict config), results, (page (strftime (utcnow env)) regions_html).
    split; [ reflexivity | ]. split; [ exact Ehtml | ]. left.
    eexists. rewrite Hf1. split; [ reflexivity | apply prefix_substring ]. }
  rewrite Ehtml. cbn [files dirs sent stdout].
  destruct (open_w env (path_join (path_join (script_dir env) "docs") "index.html"))
    as [e | ].
  { split; [ | discriminate ].
    right. exists (PyDict config), results, (page (strftime (utcnow env)) regions_html).
    split; [ reflexivity | ]. split; [ exact Ehtml | ].
    destruct (written env _) as [n | ]; cbn [fst snd files]; rewrite Hf1.
    - right. eexists. split; [ reflexivity | ].
      split; [ apply prefix_substring | discriminate ].
    - left. eexists. split; [ reflexivity | apply prefix_refl ]. }
  cbn [fst snd files]. rewrite Hf1. split.
  - right. exists (PyDict config), results, (page (strftime (utcnow env)) regions_html).
    split; [ reflexivity | ]. split; [ exact Ehtml | ].
    right. eexists. split; [ reflexivity | ]. split; [ apply prefix_refl | reflexivity ].
  - intros _.
    exists (PyDict config), results, (page (strftime (utcnow env)) regions_html).
    split; [ exact Ehtml | reflexivity ].
Qed.

Section Fatal.

Variable env : Env.
Variable api_key : string.
Variable config : list (string * value).

(** The loop stops at the first fetch that raises anything but an HTTP
    error: the regions after it are not requested. *)
Lemma process_regions_stops regions :
  forall i acc w region code e,
    Forall is_region (firstn i regions) ->
    (forall j r, j < i ->
                 answers_or_http_error (fetch_result env (List.length (sent w) + j) r)) ->
    nth_error regions i = Some region ->
    subscript region "code" = Ok code ->
    is_region region ->
    fetch_result env (List.length (sent w) + i) (region_request api_key config code)
    = Raise e ->
    (forall msg, e <> HTTPError msg) ->
    exists w',
      process_regions env api_key (PyDict config) regions acc w = (w', Raise e)
      /\ List.length (sent w') = List.length (sent w) + S i
      /\ dirs w' = dirs w /\ files w' = files w.
Proof.
  induction regions as [ | r0 regions IH ];
    intros i acc w region code e Hfirst Hbefore Hnth Hcode Hregion Hfetch Hne.
  - destruct i; discriminate.
  - destruct i as [ | i ].
    + simpl in Hnth. injection Hnth as ->.
      destruct Hregion as [code' [name [Hc Hn]]].
      rewrite Hcode in Hc. injection Hc as <-.
      simpl. unfold mbind.
      rewrite (process_region_spec _ _ _ _ _ _ _ _ Hcode Hn). cbv zeta.
      rewrite Nat.add_0_r in Hfetch. rewrite Hfetch.
      destruct e; try (now elim (Hne msg));
        (eexists; split; [ reflexivity | ]; simpl; rewrite length_app; simpl;
         repeat split; lia).
    + simpl in Hnth, Hfirst. inversion Hfirst as [ | ? ? [c0 [n0 [Hc0 Hn0]]] Hrest ]; subst.
      simpl. unfold mbind.
      rewrite (process_region_spec _ _ _ _ _ _ _ _ Hc0 Hn0). cbv zeta.
      assert (Hstep : forall w1 acc1,
                 List.length (sent w1) = S (List.length (sent w)) ->
                 dirs w1 = dirs w -> files w1 = files w ->
                 exists w',
                   process_regions env api_key (PyDict config) regions acc1 w1
                   = (w', Raise e)
                   /\ List.length (sent w') = List.length (sent w) + S (S i)
                   /\ dirs w' = dirs w /\ files w' = files w).
      { intros w1 acc1 Hl Hd Hf.
        destruct (IH i acc1 w1 region code e Hrest) as [w' [Hp [Hl' [Hd' Hf']]]];
          auto.
        - intros j r Hj. rewrite Hl.
          replace (S (List.length (sent w)) + j) with (List.length (sent w) + S j) by lia.
          apply Hbefore. lia.
        - rewrite Hl.
          now replace (S (List.length (sent w)) + i) with (List.length (sent w) + S i) by lia.
        - exists w'. split; [ exact Hp | ]. repeat split; try congruence. lia. }
      destruct (Hbefore 0 (region_request api_key config c0) ltac:(lia))
        as [[msg Hm] | [items [Hm Hitems]]];
        rewrite Nat.add_0_r in Hm; rewrite Hm.
      * apply Hstep; simpl; auto. rewrite length_app. simpl. lia.
      * simpl. destruct (format_all_dicts _ Hitems) as [formatted ->].
        apply Hstep; simpl; auto. rewrite length_app. simpl. lia.
Qed.

End Fatal.

(** X16. Anything but an HTTP error is fatal, and at once. When the fetch of
    the [i]-th region raises another exception (the transport failed, the
    body was no JSON), the regions before it having answered or failed with
    an HTTP error, [main] raises that exception: exactly [i + 1] requests
    were sent, no region after it was asked for, no directory was made
    and no file written, and the process exits with status 1. *)
Theorem other_errors_stop_the_run :
  forall env api_key config regions i region code e,
    environ env "EBIRD_API_KEY" = Some api_key -> api_key <> "" ->
    config_json env = Ok (PyDict config) ->
    dict_get config "regions" = Some (PyList regions) ->
    Forall is_region (firstn i regions) ->
    (forall j r, j < i -> answers_or_http_error (fetch_result env j r)) ->
    nth_error regions i = Some region ->
    is_region region ->
    subscript region "code" = Ok code ->
    fetch_result env i (region_request api_key config code) = Raise e ->
    (forall msg, e <> HTTPError msg) ->
    exists w,
      main env initial = (w, Raise e)
      /\ exit_status (snd (main env initial)) = 1%Z
      /\ List.length (sent w) = S i
      /\ dirs w = [] /\ files w = [].
Proof.
  intros env api_key config regions i region code e Hk Hne Hc Hr Hfirst Hbefore Hnth
    Hregion Hcode Hfetch He.
  destruct (process_regions_stops env api_key config regions i [] initial region code e)
    as [w [Hp [Hl [Hd Hf]]]]; auto.
  exists w. unfold main. rewrite Hk.
  destruct api_key as [ | c k ]; [ contradiction | ].
  unfold mbind, load_config, lift. rewrite Hc. simpl subscript. rewrite Hr. simpl iter.
  cbv beta iota. rewrite Hp. cbn [snd exit_status].
  repeat split; auto.
Qed.

Lemma other_errors_stop_the_run_witness :
  exists w,
    main unreachable_env initial = (w, Raise ConnectionError)
    /\ exit_status (snd (main unreachable_env initial)) = 1%Z
    /\ List.length (sent w) = 2
    /\ dirs w = [] /\ files w = [].
Proof.
  apply (other_errors_stop_the_run unreachable_env "secret" two_regions_config
           two_regions 1 (PyDict [("code", PyStr "US-CA"); ("name", PyStr "California")])
           (PyStr "US-CA") ConnectionError);
    try reflexivity; try discriminate.
  - repeat constructor. do 2 eexists. split; reflexivity.
  - intros j r Hj. assert (j = 0) as -> by lia. left. eexists. reflexivity.
  - do 2 eexists. split; reflexivity.
Defined.

Section Key.

Variables env env' : Env.
Variables api_key api_key' : string.
Hypothesis Hsame : same_but_key env env' api_key api_key'.

Lemma same_but_headers_length w w' :
  same_but_headers w w' -> List.length (sent w) = List.length (sent w').
Proof.
  intros (_ & _ & _ & Hu & _).
  rewrite <- (length_map req_url (sent w)), Hu. apply length_map.
Qed.

Lemma same_but_headers_print line w w' :
  same_but_headers w w' -> same_but_headers (printing line w) (printing line w').
Proof.
  intros (Ho & Hd & Hf & Hu & Hp). unfold same_but_headers. simpl.
  repeat split; congruence.
Qed.

Lemma same_but_headers_send r r' w w' :
  req_url r = req_url r' -> req_params r = req_params r' ->
  same_but_headers w w' -> same_but_headers (sending r w) (sending r' w').
Proof.
  intros Hr Hr' (Ho & Hd & Hf & Hu & Hp). unfold same_but_headers. simpl.
  rewrite !map_app. simpl. repeat split; congruence.
Qed.

Lemma agree_bind {A B : Type} (m m' : M A) (k k' : A -> M B) w w' :
  agree (m w) (m' w') ->
  (forall a w1 w1', same_but_headers w1 w1' -> agree (k a w1) (k' a w1')) ->
  agree (mbind m k w) (mbind m' k' w').
Proof.
  intros [Hr Hw] Hk. unfold mbind.
  destruct (m w) as [w1 r1]. destruct (m' w') as [w1' r1'].
  simpl in Hr, Hw. subst r1'.
  destruct r1 as [ a | e ]; [ apply Hk; assumption | split; auto ].
Qed.

Lemma agree_lift {A : Type} (r : result A) w w' :
  same_but_headers w w' -> agree (lift r w) (lift r w').
Proof. intros Hw. split; auto. Qed.

Lemma agree_print line w w' :
  same_but_headers w w' -> agree (print line w) (print line w').
Proof.
  intros Hw. split; [ reflexivity | ]. apply (same_but_headers_print _ _ _ Hw).
Qed.

Lemma agree_mret {A : Type} (a : A) w w' :
  same_but_headers w w' -> agree (mret a w) (mret a w').
Proof. intros Hw. split; auto. Qed.

Lemma fetch_same code days_back max_results w w' :
  same_but_headers w w' ->
  agree (fetch_notable_observations env api_key code days_back max_results w)
    (fetch_notable_observations env' api_key' code days_back max_results w').
Proof.
  intros Hw. unfold fetch_notable_observations.
  apply agree_bind.
  - unfold requests_get. rewrite (same_but_headers_length _ _ Hw).
    destruct Hsame as (_ & _ & _ & _ & _ & _ & Hget).
    split; cbn [fst snd].
    + apply Hget.
    + apply (same_but_headers_send
               {| req_url := _; req_headers := _; req_params := _ |}
               {| req_url := _; req_headers := _; req_params := _ |});
        auto.
  - intros response w1 w1' Hw1. apply agree_bind; [ now apply agree_lift | ].
    intros _ w2 w2' Hw2. now apply agree_lift.
Qed.

Ltac agree_step :=
  first [ apply agree_lift; assumption
        | apply agree_print; assumption
        | apply agree_mret; assumption
        | apply fetch_same; assumption
        | apply agree_bind; [ | intros ? ? ? ? ] ].

Lemma try_region_same config region acc w w' :
  same_but_headers w w' ->
  agree (try_region env api_key config region acc w)
    (try_region env' api_key' config region acc w').
Proof.
  intros Hw. unfold try_region. repeat agree_step.
Qed.

Lemma except_http_same msg region acc w w' :
  same_but_headers w w' ->
  agree (except_http msg region acc w) (except_http msg region acc w').
Proof.
  intros Hw. unfold except_http. repeat agree_step.
Qed.

Lemma process_region_same config region acc w w' :
  same_but_headers w w' ->
  agree (process_region env api_key config region acc w)
    (process_region env' api_key' config region acc w').
Proof.
  intros Hw. unfold process_region.
  apply agree_bind; [ now apply agree_lift | intros name wa wa' Ha ].
  apply agree_bind; [ now apply agree_lift | intros code wb wb' Hb ].
  apply agree_bind; [ now apply agree_print | intros _ wc wc' Hc ].
  destruct (try_region_same config region acc wc wc' Hc) as [Hr Hw2].
  destruct (try_region env api_key config region acc wc) as [w4 r4].
  destruct (try_region env' api_key' config region acc wc') as [w4' r4'].
  simpl in Hr, Hw2. subst r4'.
  destruct r4 as [ a2 | e ]; [ split; auto | ].
  destruct e; try (split; [ reflexivity | assumption ]).
  apply except_http_same; assumption.
Qed.

Lemma process_regions_same config regions :
  forall acc w w',
    same_but_headers w w' ->
    agree (process_regions env api_key config regions acc w)
      (process_regions env' api_key' config regions acc w').
Proof.
  induction regions as [ | region regions IH ]; intros acc w w' Hw.
  - simpl. now apply agree_mret.
  - simpl. apply agree_bind.
    + now apply process_region_same.
    + intros acc1 w1 w1' Hw1. now apply IH.
Qed.

Lemma agree_mkdir path w w' :
  same_but_headers w w' ->
  agree (mkdir_exist_ok env path w) (mkdir_exist_ok env' path w').
Proof.
  intros Hw. unfold mkdir_exist_ok.
  destruct Hsame as (_ & _ & _ & Hmk & _). rewrite <- Hmk.
  destruct (mkdir env path); [ split; auto | ].
  destruct Hw as (Ho & Hd & Hf & Hu & Hp).
  split; [ reflexivity | ]. repeat split; simpl; congruence.
Qed.

Lemma agree_write path content w w' :
  same_but_headers w w' ->
  agree (write_file env path content w) (write_file env' path content w').
Proof.
  intros Hw. unfold write_file.
  destruct Hsame as (_ & _ & _ & _ & Hop & Hwr & _). rewrite <- Hop, <- Hwr.
  destruct Hw as (Ho & Hd & Hf & Hu & Hp).
  destruct (open_w env path); [ destruct (written env path) | ];
    (split; [ reflexivity | ]); repeat split; simpl; congruence.
Qed.

End Key.

(** X17. The API key bears on a run through the answers of [requests.get]
    and through nothing else. Two runs that differ in nothing but the key,
    where [requests.get] answers each request under the one key as under the
    other, end the same way, print the same lines, make the same directory,
    write the same files with the same content and send requests with the
    same URLs and parameters: the code puts the key into the header of its
    requests and nowhere else. *)
Theorem api_key_only_in_headers :
  forall env env' api_key api_key',
    environ env "EBIRD_API_KEY" = Some api_key -> api_key <> "" ->
    environ env' "EBIRD_API_KEY" = Some api_key' -> api_key' <> "" ->
    same_but_key env env' api_key api_key' ->
    snd (main env initial) = snd (main env' initial)
    /\ same_but_headers (fst (main env initial)) (fst (main env' initial)).
Proof.
  intros env env' k k' Hk Hne Hk' Hne' Hsame.
  assert (H0 : same_but_headers initial initial) by (repeat split).
  change (agree (main env initial) (main env' initial)).
  unfold main. rewrite Hk, Hk'.
  destruct k as [ | c k ]; [ contradiction | ].
  destruct k' as [ | c' k' ]; [ contradiction | ].
  pose proof Hsame as (Hdir & Hcfg & Hnow & _).
  unfold load_config. rewrite <- Hcfg, <- Hdir, <- Hnow.
  apply agree_bind; [ now apply agree_lift | intros config wa wa' Ha ].
  apply agree_bind; [ now apply agree_lift | intros regions_v wb wb' Hb ].
  apply agree_bind; [ now apply agree_lift | intros regions wc wc' Hc ].
  apply agree_bind;
    [ now apply (process_regions_same env env' (String c k) (String c' k') Hsame)
    | intros all wd wd' Hd ].
  cbv zeta.
  apply agree_bind;
    [ now apply (agree_mkdir env env' (String c k) (String c' k') Hsame)
    | intros _ we we' He ].
  apply agree_bind;
    [ now apply (agree_write env env' (String c k) (String c' k') Hsame)
    | intros _ wf wf' Hf ].
  apply agree_bind; [ now apply agree_print | intros _ wg wg' Hg ].
  apply agree_bind; [ now apply agree_lift | intros html wh wh' Hh ].
  apply agree_bind;
    [ now apply (agree_write env env' (String c k) (String c' k') Hsame)
    | intros _ wi wi' Hi ].
  now apply agree_print.
Qed.

Lemma api_key_only_in_headers_witness :
  snd (main two_regions_env initial) = snd (main other_key_env initial)
  /\ same_but_headers (fst (main two_regions_env initial))
       (fst (main other_key_env initial)).
Proof.
  apply (api_key_only_in_headers two_regions_env other_key_env "secret" "another");
    try reflexivity; try discriminate.
  repeat split.
Defined.
